(** * CCTP bridge: lifecycle engine, attestation poller and payload builder

    A shallow embedding of the TypeScript sources under
    [src/lib/server/cctp] (config.ts, attestation.ts, evm.ts, starknet.ts,
    service.ts, attestation-worker.ts) and of the burn route
    [routes/api/bridge/[id]/burn/+server.ts], followed by the properties
    proved about them.

    Conventions.
    - A JS string is a [string]; [null]/[undefined] is [None].
    - A JS [number] holding an integer and a [bigint] are [Z]; the backoff
      arithmetic, which leaves the integers, is carried out in [Q].
    - An [async] method that can throw returns an [Outcome].
    - The relational store is an explicit value threaded through every
      operation, together with the log of the write statements executed.
    - What the sources import from third-party packages (viem, starknet.js,
      @solana/web3.js) and the JS built-ins that are not reproduced here are
      the fields of the class [Library]. *)

From Stdlib Require Import ZArith QArith Qround Qminmax Qpower Lia Lqa.
From Stdlib Require Import Strings.String Strings.Ascii.
From stdpp Require Import base gmap strings list sorting pretty.

Local Open Scope Z_scope.

(** ** JavaScript values *)

Module JS.

(** The result of a call that may throw: [Threw msg] carries the message of
    the [Error]. *)
Inductive Outcome (A : Type) : Type :=
| Returned (a : A)
| Threw (msg : string).
Arguments Returned {A} a.
Arguments Threw {A} msg.

Definition bind {A B} (o : Outcome A) (k : A → Outcome B) : Outcome B :=
  match o with
  | Returned a => k a
  | Threw msg => Threw msg
  end.

(** Truthiness of a [string | null | undefined]: only a non-empty string is
    truthy. *)
Definition truthy (v : option string) : bool :=
  match v with
  | Some (String _ _) => true
  | _ => false
  end.

(** [v || null] on a [string | undefined]. *)
Definition orNull (v : option string) : option string :=
  if truthy v then v else None.

(** [s.startsWith(p)]. *)
Definition startsWith (s p : string) : bool := String.prefix p s.

Fixpoint drop (n : nat) (s : string) : string :=
  match n, s with
  | O, _ => s
  | S _, EmptyString => EmptyString
  | S n', String _ s' => drop n' s'
  end.

Fixpoint take (n : nat) (s : string) : string :=
  match n, s with
  | O, _ => EmptyString
  | S _, EmptyString => EmptyString
  | S n', String c s' => String c (take n' s')
  end.

(** [s.slice(i, j)] for [0 <= i <= j]. *)
Definition slice (i j : nat) (s : string) : string := take (j - i) (drop i s).

(** [s.slice(i)]. *)
Definition sliceFrom (i : nat) (s : string) : string := drop i s.

(** [s.replace(pat, rep)] with a string pattern: only the first occurrence
    is replaced, wherever it is. *)
Fixpoint replace (pat rep s : string) : string :=
  if String.prefix pat s then rep +:+ drop (String.length pat) s
  else match s with
       | EmptyString => EmptyString
       | String c s' => String c (replace pat rep s')
       end.

Fixpoint repeatChar (c : ascii) (n : nat) : string :=
  match n with
  | O => EmptyString
  | S n' => String c (repeatChar c n')
  end.

(** [s.padStart(n, '0')] with a one-character filler. *)
Definition padStart (n : nat) (c : ascii) (s : string) : string :=
  repeatChar c (n - String.length s) +:+ s.

(** [toLowerCase] on the ASCII letters. *)
Definition lowerChar (c : ascii) : ascii :=
  let n := nat_of_ascii c in
  if (65 <=? n)%nat && (n <=? 90)%nat then ascii_of_nat (n + 32) else c.

Fixpoint toLowerCase (s : string) : string :=
  match s with
  | EmptyString => EmptyString
  | String c s' => String (lowerChar c) (toLowerCase s')
  end.

(** Value of one hexadecimal digit. *)
Definition hexDigit (c : ascii) : option Z :=
  let n := nat_of_ascii c in
  if (48 <=? n)%nat && (n <=? 57)%nat then Some (Z.of_nat n - 48)
  else if (97 <=? n)%nat && (n <=? 102)%nat then Some (Z.of_nat n - 87)
  else if (65 <=? n)%nat && (n <=? 70)%nat then Some (Z.of_nat n - 55)
  else None.

Definition isHexChar (c : ascii) : bool :=
  match hexDigit c with Some _ => true | None => false end.

Fixpoint isHex (s : string) : bool :=
  match s with
  | EmptyString => true
  | String c s' => isHexChar c && isHex s'
  end.

(** Big-endian value of a string of hexadecimal digits ([acc] is the value
    of the digits already read); a character that is no digit counts 0. *)
Fixpoint hexValueFrom (acc : Z) (s : string) : Z :=
  match s with
  | EmptyString => acc
  | String c s' => hexValueFrom (16 * acc + default 0 (hexDigit c)) s'
  end.

Definition hexValue (s : string) : Z := hexValueFrom 0 s.

(** The bytes a string of hexadecimal digits denotes, two digits a byte
    ([Buffer.from(s, 'hex')]); an odd last digit is dropped, as Node does. *)
Fixpoint hexBytes (s : string) : list Z :=
  match s with
  | String a (String b s') =>
      (16 * default 0 (hexDigit a) + default 0 (hexDigit b)) :: hexBytes s'
  | _ => []
  end.

End JS.

Export JS.

(** ** Third-party packages and built-ins *)

(** An argument handed to viem's [encodeFunctionData]. *)
Inductive AbiArg : Type :=
| AbiUint (v : Z)
| AbiAddress (a : string)
| AbiBytes32 (h : string)
| AbiBytes (h : string).

(** One account of a Solana instruction, after [toBase58]. *)
Record SolanaKey : Type := mkSolanaKey {
  pubkey : string;
  isSigner : bool;
  isWritable : bool
}.

(** A Solana instruction as the service returns it: program id and keys in
    base58, data in base64. *)
Record SolanaInstruction : Type := mkSolanaInstruction {
  programId : string;
  keys : list SolanaKey;
  data : string
}.

Class Library : Type := {
  (** viem's [keccak256] on a hex string. *)
  keccak256 : string → string;
  (** [BigInt(s)] on a string that is not of the form "0x" followed by
      hexadecimal digits; [None] is the [SyntaxError]. *)
  BigIntOther : string → option Z;
  (** viem's [encodeFunctionData] for a function of the ABI, by name;
      [None] when viem rejects the arguments. *)
  encodeFunctionData : string → list AbiArg → option string;
  (** viem's [pad(hex, { size: 32 })]; [None] when it throws. *)
  pad32 : string → option string;
  (** [parseInt(s)]; [None] is [NaN]. *)
  parseInt : string → option Z;
  (** What [buildSolanaBurnInstruction] computes with @solana/web3.js once
      its own checks have passed: program ids, sender, token account, amount,
      destination domain and the 64 hex digits of the recipient; [None] when
      a [PublicKey] or a buffer write throws. *)
  solanaBurn : string → string → string → string → string → Z → Z → string →
               option SolanaInstruction
}.

(** [BigInt(s)]: a "0x" followed by at least one hexadecimal digit is read
    here, every other string is left to [BigIntOther]. *)
Definition BigInt `{Library} (s : string) : option Z :=
  match s with
  | String "0" (String "x" (String c h)) =>
      if isHex (String c h) then Some (hexValue (String c h)) else BigIntOther s
  | _ => BigIntOther s
  end.

(** What the mint side needs beyond [Library]. *)
Class Runtime : Type := {
  (** What [buildSolanaMintInstruction] computes with @solana/web3.js once
      the Solana configuration is found: program ids, token mint, the hex
      digits handed to [Buffer.from] for the message and for the attestation,
      and the recipient; [None] when a [PublicKey] or a buffer write throws. *)
  solanaMint : string → string → string → string → string → string →
               option SolanaInstruction
}.

(** ** config.ts *)

Module Config.

(** Starknet is always one side of every bridge. *)
Definition STARKNET_DOMAIN_ID : Z := 25.

Definition DOMAIN_SOLANA : Z := 5.

(** [isValidBridgePair]: one side must be Starknet. *)
Definition isValidBridgePair (sourceDomain destDomain : Z) : bool :=
  (sourceDomain =? STARKNET_DOMAIN_ID) || (destDomain =? STARKNET_DOMAIN_ID).

(** [getCounterpartyDomain]: the non-Starknet chain in a bridge pair. *)
Definition getCounterpartyDomain (sourceDomain destDomain : Z) : Outcome Z :=
  if sourceDomain =? STARKNET_DOMAIN_ID then Returned destDomain
  else if destDomain =? STARKNET_DOMAIN_ID then Returned sourceDomain
  else Threw "Invalid bridge pair: must involve Starknet".

End Config.

(** ** app-config.ts: the chain registry *)

Module AppConfig.

Inductive ChainType : Type := evm | solana | starknet.

Definition chainTypeName (t : ChainType) : string :=
  match t with
  | evm => "evm"
  | solana => "solana"
  | starknet => "starknet"
  end.

Global Instance ChainType_eq_dec : EqDecision ChainType.
Proof. solve_decision. Defined.

Record ChainConfig : Type := mkChainConfig {
  chainId : string;
  domainId : Z;
  name : string;
  type : ChainType;
  tokenMessenger : string;
  messageTransmitter : string;
  usdc : string;
  isEnabled : bool;
  isTestnet : bool
}.

(** [chainConfigCache]: the table the registry was last loaded with, by
    domain id. *)
Abbreviation Registry := (gmap Z ChainConfig).

Definition getChainConfig (cache : Registry) (domainId : Z) : option ChainConfig :=
  cache !! domainId.

(** [loadChainConfig]: the rows of [supported_chains] that are enabled and
    of the network chosen by [CCTP_TESTNET] are put in a new cache, each under
    its domain id; the new cache replaces the old one. *)
Definition loadChainConfig (testnet : bool) (supported_chains : list ChainConfig)
    : Registry :=
  let rows :=
    List.filter (λ row, isEnabled row && Bool.eqb (isTestnet row) testnet)
      supported_chains in
  foldl (λ newCache row, <[domainId row := row]> newCache) ∅ rows.

End AppConfig.

(** ** attestation.ts: the attestation service client *)

Module Attestation.

(** One entry of [MessageResponseV2.messages]; the [attestation] of the
    JSON may be missing or [null]. *)
Record ApiMessage : Type := mkApiMessage {
  api_message : string;
  api_attestation : option string;
  api_eventNonce : string;
  api_cctpVersion : Z;
  api_status : string
}.

(** What [fetch] and [response.json()] deliver: the request fails, or a
    response arrives with its status code and text and, when the body
    parses, the [messages] field of the body ([None] when the field is
    missing). *)
Inductive Fetch : Type :=
| NetworkError (msg : string)
| Response (status : Z) (statusText : string)
    (body : option (option (list ApiMessage))).

(** [response.ok]. *)
Definition ok (status : Z) : bool := (200 <=? status) && (status <=? 299).

(** [MessageResponse]. *)
Record MessageResponse : Type := mkMessageResponse {
  message : string;
  eventNonce : string;
  status : string;
  attestation : option string
}.

(** [hasValidAttestation]: only actual hex data, not the "PENDING" string. *)
Definition hasValidAttestation (a : option string) : bool :=
  match a with
  | Some s => truthy (Some s) && negb (String.eqb s "PENDING") && startsWith s "0x"
  | None => false
  end.

(** [getMessageFromTx], on what the service answered. *)
Definition getMessageFromTx (reply : Fetch) : Outcome (option MessageResponse) :=
  match reply with
  | NetworkError msg => Threw msg
  | Response code text body =>
      if code =? 404 then Returned None
      else if negb (ok code)
      then Threw ("Message API error: " +:+ pretty code +:+ " " +:+ text)
      else match body with
           | None => Threw "Unexpected end of JSON input"
           | Some (Some (msg :: _)) =>
               Returned (Some {|
                 message := api_message msg;
                 eventNonce := api_eventNonce msg;
                 status := api_status msg;
                 attestation :=
                   if hasValidAttestation (api_attestation msg)
                   then api_attestation msg else None |})
           | Some _ => Returned None
           end
  end.

(** [computeMessageHash]. *)
Definition computeMessageHash `{Library} (messageBytes : string) : string :=
  let normalizedMessage :=
    if startsWith messageBytes "0x" then messageBytes else "0x" +:+ messageBytes in
  keccak256 normalizedMessage.

(** The statuses that count as delivered for a destination other than
    Starknet. *)
Definition deliveredStatuses : list string := ["delivered"; "received"; "minted"].

(** [checkMessageDelivered], on what the service answered: [delivered] and
    the status of the first message.  Whatever goes wrong is caught. *)
Definition checkMessageDelivered (reply : Fetch) (isStarknetDest : bool)
    : bool * option string :=
  match reply with
  | NetworkError _ => (false, None)
  | Response code _ body =>
      if negb (ok code) then (false, None)
      else match body with
           | Some (Some (msg :: _)) =>
               let status := toLowerCase (api_status msg) in
               let isDelivered :=
                 if isStarknetDest
                 then String.eqb status "complete"
                      && truthy (api_attestation msg)
                      && negb (bool_decide (api_attestation msg = Some "PENDING"))
                 else bool_decide (status ∈ deliveredStatuses) in
               (isDelivered, Some (api_status msg))
           | _ => (false, None)
           end
  end.

End Attestation.

(** ** evm.ts *)

Module Evm.
Import AppConfig.

Definition FINALITY_THRESHOLD_FAST : Z := 1000.
Definition FINALITY_THRESHOLD_STANDARD : Z := 2000.

Record DepositForBurnParams : Type := mkDepositForBurnParams {
  amount : Z;
  destinationDomain : Z;
  mintRecipient : string;
  burnToken : string;
  destinationCaller : option string;
  maxFee : option Z;
  minFinalityThreshold : option Z;
  (** added by the service to the parameters it hands to the builders *)
  userAddress : string
}.

(** An EVM transaction to sign: [{ to, data, chainId }]; [chainId] is
    [None] when [parseInt] gave [NaN]. *)
Record EvmTx : Type := mkEvmTx {
  to : string;
  data : string;
  chainId : option Z
}.

(** [addressToBytes32]: left-padded with zeros to 32 bytes. *)
Definition addressToBytes32 (address : string) : string :=
  let cleanAddress := JS.replace "0x" "" (toLowerCase address) in
  "0x" +:+ padStart 64 "0" cleanAddress.

(** [starknetAddressToBytes32]. *)
Definition starknetAddressToBytes32 (address : string) : string :=
  let cleanAddress := JS.replace "0x" "" (toLowerCase address) in
  "0x" +:+ padStart 64 "0" cleanAddress.

Definition MAX_UINT256 : Z := 2 ^ 256 - 1.

(** [getApprovalTxData]. *)
Definition getApprovalTxData `{Library} (tokenAddress spenderAddress : string)
    (amount : Z) : Outcome string :=
  match encodeFunctionData "approve" [AbiAddress spenderAddress; AbiUint amount] with
  | Some d => Returned d
  | None => Threw "encodeFunctionData"
  end.

(** [buildDepositForBurnTx]. *)
Definition buildDepositForBurnTx `{Library} (cache : Registry) (sourceDomainId : Z)
    (params : DepositForBurnParams) : Outcome EvmTx :=
  match getChainConfig cache sourceDomainId with
  | None => Threw ("Unknown source domain: " +:+ pretty sourceDomainId)
  | Some sourceConfig =>
    match type sourceConfig with
    | evm =>
      match getChainConfig cache (destinationDomain params) with
      | None =>
          Threw ("Unknown destination domain: " +:+ pretty (destinationDomain params))
      | Some destConfig =>
        let recipient : Outcome string :=
          match type destConfig with
          | starknet => Returned (starknetAddressToBytes32 (mintRecipient params))
          | solana =>
              match pad32 (mintRecipient params) with
              | Some h => Returned h
              | None => Threw "pad"
              end
          | evm => Returned (addressToBytes32 (mintRecipient params))
          end in
        bind recipient (λ mintRecipientBytes32,
          let destinationCaller :=
            default ("0x" +:+ repeatChar "0" 64) (destinationCaller params) in
          let maxFee := default 0 (maxFee params) in
          let minFinalityThreshold :=
            default FINALITY_THRESHOLD_FAST (minFinalityThreshold params) in
          match encodeFunctionData "depositForBurn"
                  [AbiUint (amount params); AbiUint (destinationDomain params);
                   AbiBytes32 mintRecipientBytes32; AbiAddress (burnToken params);
                   AbiBytes32 destinationCaller; AbiUint maxFee;
                   AbiUint minFinalityThreshold] with
          | Some d =>
              Returned {| to := tokenMessenger sourceConfig;
                          data := d;
                          chainId := parseInt (AppConfig.chainId sourceConfig) |}
          | None => Threw "encodeFunctionData"
          end)
      end
    | _ => Threw ("Source domain " +:+ pretty sourceDomainId +:+ " is not an EVM chain")
    end
  end.

(** [getReceiveMessageTxData]. *)
Definition getReceiveMessageTxData `{Library} (message attestation : string)
    : Outcome string :=
  match encodeFunctionData "receiveMessage" [AbiBytes message; AbiBytes attestation] with
  | Some d => Returned d
  | None => Threw "encodeFunctionData"
  end.

(** [buildReceiveMessageTx]. *)
Definition buildReceiveMessageTx `{Library} (cache : Registry) (destDomainId : Z)
    (message attestation : string) : Outcome EvmTx :=
  match getChainConfig cache destDomainId with
  | None => Threw ("Unknown destination domain: " +:+ pretty destDomainId)
  | Some destConfig =>
    match type destConfig with
    | evm =>
        match encodeFunctionData "receiveMessage"
                [AbiBytes message; AbiBytes attestation] with
        | Some d =>
            Returned {| to := messageTransmitter destConfig;
                        data := d;
                        chainId := parseInt (AppConfig.chainId destConfig) |}
        | None => Threw "encodeFunctionData"
        end
    | _ => Threw ("Destination domain " +:+ pretty destDomainId +:+ " is not an EVM chain")
    end
  end.

End Evm.

(** ** starknet.ts *)

Module Starknet.
Import AppConfig Config.

(** A starknet.js [Call]. *)
Record Call : Type := mkCall {
  contractAddress : string;
  entrypoint : string;
  calldata : list string
}.

Record StarknetDepositForBurnParams : Type := mkStarknetDepositForBurnParams {
  amount : Z;
  destinationDomain : Z;
  mintRecipient : string;
  maxFee : option Z;
  minFinalityThreshold : option Z
}.

(** The two 128-bit limbs of a [Uint256], as numbers. *)
Record Uint256 : Type := mkUint256 { low : Z; high : Z }.

(** starknet.js [cairo.uint256]: the value is split into its low and high
    128 bits; a value outside [0, 2^256) is refused. *)
Definition cairo_uint256 (value : Z) : Outcome Uint256 :=
  if (0 <=? value) && (value <? 2 ^ 256)
  then Returned {| low := Z.land value (Z.ones 128); high := Z.shiftr value 128 |}
  else Threw "Number is too large".

(** [toUint256]. *)
Definition toUint256 (value : Z) : Outcome Uint256 := cairo_uint256 value.

(** [evmAddressToU256]: [low, high] as calldata strings, each limb in
    decimal as starknet.js renders it. *)
Definition evmAddressToU256 `{Library} (address : string) : Outcome (string * string) :=
  let cleanAddress := JS.replace "0x" "" (toLowerCase address) in
  match BigInt ("0x" +:+ cleanAddress) with
  | None => Threw "SyntaxError: Cannot convert to a BigInt"
  | Some addressBigInt =>
      bind (cairo_uint256 addressBigInt) (λ u256,
        Returned (pretty (low u256), pretty (high u256)))
  end.

(** [solanaAddressToU256]: the address is taken to be hex already. *)
Definition solanaAddressToU256 `{Library} (address : string) : Outcome (string * string) :=
  let cleanHex := padStart 64 "0" (JS.replace "0x" "" address) in
  match BigInt ("0x" +:+ slice 0 32 cleanHex) with
  | None => Threw "SyntaxError: Cannot convert to a BigInt"
  | Some high =>
      match BigInt ("0x" +:+ sliceFrom 32 cleanHex) with
      | None => Threw "SyntaxError: Cannot convert to a BigInt"
      | Some low => Returned (pretty low, pretty high)
      end
  end.

(** [buildStarknetBurnCall]. *)
Definition buildStarknetBurnCall `{Library} (cache : Registry)
    (params : StarknetDepositForBurnParams) : Outcome Call :=
  match getChainConfig cache STARKNET_DOMAIN_ID with
  | None => Threw "Starknet chain config not found"
  | Some starknetConfig =>
    match getChainConfig cache (destinationDomain params) with
    | None =>
        Threw ("Unknown destination domain: " +:+ pretty (destinationDomain params))
    | Some destConfig =>
      bind (toUint256 (amount params)) (λ amountU256,
      bind (match type destConfig with
            | evm => evmAddressToU256 (mintRecipient params)
            | solana => solanaAddressToU256 (mintRecipient params)
            | starknet =>
                Threw ("Cannot bridge from Starknet to " +:+
                       chainTypeName (type destConfig))
            end) (λ mintRecipientU256,
      let destinationCallerU256 : string * string := ("0", "0") in
      let maxFee := default 0 (maxFee params) in
      bind (toUint256 maxFee) (λ maxFeeU256,
      let minFinalityThreshold := default 1000 (minFinalityThreshold params) in
      Returned {|
        contractAddress := tokenMessenger starknetConfig;
        entrypoint := "deposit_for_burn";
        calldata :=
          [pretty (low amountU256); pretty (high amountU256);
           pretty (destinationDomain params);
           mintRecipientU256.1; mintRecipientU256.2;
           usdc starknetConfig;
           destinationCallerU256.1; destinationCallerU256.2;
           pretty (low maxFeeU256); pretty (high maxFeeU256);
           pretty minFinalityThreshold] |})))
    end
  end.

(** [buildStarknetApproveCall]. *)
Definition buildStarknetApproveCall (cache : Registry) (spender : string)
    (amount : Z) : Outcome Call :=
  match getChainConfig cache STARKNET_DOMAIN_ID with
  | None => Threw "Starknet chain config not found"
  | Some starknetConfig =>
      bind (toUint256 amount) (λ amountU256,
        Returned {| contractAddress := usdc starknetConfig;
                    entrypoint := "approve";
                    calldata := [spender; pretty (low amountU256);
                                 pretty (high amountU256)] |})
  end.

(** The loop of [hexToFeltArray]: [i] is the loop variable, [chunks] is
    returned in the order of the pushes.  One unit of [fuel] is one test of
    the loop condition. *)
Fixpoint hexToFeltArray_loop (fuel : nat) (cleanHex : string) (i : nat) : list string :=
  match fuel with
  | O => []
  | S fuel' =>
      if (i <? String.length cleanHex)%nat
      then ("0x" +:+ slice i (i + 62) cleanHex)
           :: hexToFeltArray_loop fuel' cleanHex (i + 62)
      else []
  end.

(** [hexToFeltArray]: 62-character chunks, 31 bytes each.  The loop
    variable grows by 62 from 0, so the condition is tested at most
    [length + 1] times. *)
Definition hexToFeltArray (hex : string) : list string :=
  let cleanHex := JS.replace "0x" "" hex in
  hexToFeltArray_loop (S (String.length cleanHex)) cleanHex 0.

(** [buildStarknetMintCall]. *)
Definition buildStarknetMintCall (cache : Registry) (message attestation : string)
    : Outcome Call :=
  match getChainConfig cache STARKNET_DOMAIN_ID with
  | None => Threw "Starknet chain config not found"
  | Some starknetConfig =>
      let messageBytes := hexToFeltArray message in
      let attestationBytes := hexToFeltArray attestation in
      Returned {|
        contractAddress := messageTransmitter starknetConfig;
        entrypoint := "handle_receive_finalized_message";
        calldata :=
          pretty (length messageBytes) :: messageBytes ++
          pretty (length attestationBytes) :: attestationBytes |}
  end.

(** [buildStarknetBurnMulticall]: approve + deposit_for_burn. *)
Definition buildStarknetBurnMulticall `{Library} (cache : Registry)
    (params : StarknetDepositForBurnParams) : Outcome (list Call) :=
  match getChainConfig cache STARKNET_DOMAIN_ID with
  | None => Threw "Starknet chain config not found"
  | Some starknetConfig =>
      bind (buildStarknetApproveCall cache (tokenMessenger starknetConfig)
              (amount params)) (λ approveCall,
      bind (buildStarknetBurnCall cache params) (λ burnCall,
      Returned [approveCall; burnCall]))
  end.

End Starknet.

(** ** solana.ts *)

Module Solana.
Import AppConfig Config.

Record SolanaDepositForBurnParams : Type := mkSolanaDepositForBurnParams {
  amount : Z;
  destinationDomain : Z;
  mintRecipient : string;
  senderTokenAccount : string;
  sender : string
}.

(** [starknetAddressToBuffer], as the hex digits of the buffer. *)
Definition starknetAddressToBuffer (address : string) : string :=
  padStart 64 "0" (JS.replace "0x" "" address).

(** [evmAddressToBuffer], as the hex digits of the buffer. *)
Definition evmAddressToBuffer (address : string) : string :=
  padStart 64 "0" (JS.replace "0x" "" address).

(** [buildSolanaBurnInstruction], with the instruction already rendered as
    the service returns it. *)
Definition buildSolanaBurnInstruction `{Library} (cache : Registry)
    (params : SolanaDepositForBurnParams) : Outcome SolanaInstruction :=
  match getChainConfig cache DOMAIN_SOLANA with
  | None => Threw "Solana chain config not found"
  | Some solanaConfig =>
    match getChainConfig cache (destinationDomain params) with
    | None =>
        Threw ("Unknown destination domain: " +:+ pretty (destinationDomain params))
    | Some destConfig =>
      bind (match type destConfig with
            | starknet => Returned (starknetAddressToBuffer (mintRecipient params))
            | evm => Returned (evmAddressToBuffer (mintRecipient params))
            | solana =>
                Threw ("Cannot bridge from Solana to " +:+
                       chainTypeName (type destConfig))
            end) (λ mintRecipientBuffer,
      match solanaBurn (tokenMessenger solanaConfig)
              (messageTransmitter solanaConfig) (usdc solanaConfig)
              (sender params) (senderTokenAccount params)
              (amount params) (destinationDomain params) mintRecipientBuffer with
      | Some instruction => Returned instruction
      | None => Threw "solana"
      end)
    end
  end.

(** [buildSolanaMintInstruction], with the instruction already rendered as
    the service returns it; [message] and [attestation] are the hex digits the
    buffers are made from. *)
Definition buildSolanaMintInstruction `{Runtime} (cache : Registry)
    (message attestation recipient : string) : Outcome SolanaInstruction :=
  match getChainConfig cache DOMAIN_SOLANA with
  | None => Threw "Solana chain config not found"
  | Some solanaConfig =>
      match solanaMint (messageTransmitter solanaConfig) (tokenMessenger solanaConfig)
              (usdc solanaConfig) message attestation recipient with
      | Some instruction => Returned instruction
      | None => Threw "solana"
      end
  end.

End Solana.

(** ** service.ts: the bridge orchestrator *)

Module Service.
Import AppConfig Config Attestation.

Inductive BridgeStatus : Type :=
| initiated | burned | attested | minting | completed | failed.

Inductive AttestationStatus : Type :=
| att_pending | att_complete | att_failed.

Global Instance BridgeStatus_eq_dec : EqDecision BridgeStatus.
Proof. solve_decision. Defined.

Global Instance AttestationStatus_eq_dec : EqDecision AttestationStatus.
Proof. solve_decision. Defined.

(** A row of [bridge_transactions]. *)
Record BridgeTransaction : Type := mkBridgeTransaction {
  id : string;
  userAddress : string;
  sourceDomainId : Z;
  destDomainId : Z;
  amount : string;
  recipientAddress : string;
  burnTxHash : option string;
  messageHash : option string;
  messageBytes : option string;
  nonce : option string;
  attestation : option string;
  attestationStatus : AttestationStatus;
  attestationAttempts : Z;
  lastAttestationCheck : option Z;
  mintTxHash : option string;
  status : BridgeStatus;
  errorMessage : option string;
  createdAt : Z;
  updatedAt : Z
}.

(** The write statements of the service, by the method that issues them. *)
Inductive Statement : Type :=
| InsertTransaction (bridgeId : string)
| UpdateBurn (bridgeId : string)
| UpdateAttempt (bridgeId : string)
| UpdateAttested (bridgeId : string)
| UpdateMessage (bridgeId : string)
| UpdateMint (bridgeId : string)
| UpdateFailed (bridgeId : string).

(** The store: the table by primary key, and the writes executed so far,
    oldest first. *)
Record Db : Type := mkDb {
  rows : gmap string BridgeTransaction;
  writes : list Statement
}.

(** [UPDATE bridge_transactions SET ... WHERE id = $n]: the row with this
    id is rewritten if there is one; the statement is executed either way. *)
Definition update (stmt : Statement) (set : BridgeTransaction → BridgeTransaction)
    (bridgeId : string) (db : Db) : Db :=
  {| rows := alter set bridgeId (rows db); writes := writes db ++ [stmt] |}.

(** What an operation finds around it: whether the store answers, the
    clock ([NOW()]), and what the attestation service replies if asked.  A
    store that does not answer fails the first statement of the operation. *)
Record World : Type := mkWorld {
  dbUp : bool;
  now : Z;
  reply : Fetch
}.

Record InitiateBridgeParams : Type := mkInitiateBridgeParams {
  p_userAddress : string;
  p_sourceDomain : Z;
  p_destDomain : Z;
  p_amount : string;
  p_recipientAddress : string;
  p_isFastTransfer : option bool
}.

Record BurnTxData : Type := mkBurnTxData {
  bt_evm : option Evm.EvmTx;
  bt_evmApprove : option Evm.EvmTx;
  bt_starknet : option (list Starknet.Call);
  bt_solana : option (list SolanaInstruction)
}.

(** [buildBurnTxData]. *)
Definition buildBurnTxData `{Library} (cache : Registry) (sourceConfig : ChainConfig)
    (params : Evm.DepositForBurnParams) : Outcome BurnTxData :=
  match type sourceConfig with
  | evm =>
      bind (Evm.buildDepositForBurnTx cache (domainId sourceConfig) params) (λ burnTx,
      bind (Evm.getApprovalTxData (usdc sourceConfig) (tokenMessenger sourceConfig)
              Evm.MAX_UINT256) (λ approveData,
      Returned {| bt_evm := Some burnTx;
                  bt_evmApprove := Some {| Evm.to := usdc sourceConfig;
                                           Evm.data := approveData;
                                           Evm.chainId := Evm.chainId burnTx |};
                  bt_starknet := None;
                  bt_solana := None |}))
  | starknet =>
      bind (Starknet.buildStarknetBurnMulticall cache
              {| Starknet.amount := Evm.amount params;
                 Starknet.destinationDomain := Evm.destinationDomain params;
                 Starknet.mintRecipient := Evm.mintRecipient params;
                 Starknet.minFinalityThreshold := Evm.minFinalityThreshold params;
                 Starknet.maxFee := Evm.maxFee params |}) (λ calls,
      Returned {| bt_evm := None; bt_evmApprove := None;
                  bt_starknet := Some calls; bt_solana := None |})
  | solana =>
      bind (Solana.buildSolanaBurnInstruction cache
              {| Solana.amount := Evm.amount params;
                 Solana.destinationDomain := Evm.destinationDomain params;
                 Solana.mintRecipient := Evm.mintRecipient params;
                 Solana.senderTokenAccount := Evm.userAddress params;
                 Solana.sender := Evm.userAddress params |}) (λ instruction,
      Returned {| bt_evm := None; bt_evmApprove := None;
                  bt_starknet := None; bt_solana := Some [instruction] |})
  end.

(** The row [INSERT INTO bridge_transactions ... VALUES ($1, $2, $3, $4, $5,
    'initiated', 'pending')] creates; the other columns take their defaults. *)
Definition newTransaction (bridgeId : string) (t : Z) (params : InitiateBridgeParams)
    : BridgeTransaction :=
  {| id := bridgeId;
     userAddress := p_userAddress params;
     sourceDomainId := p_sourceDomain params;
     destDomainId := p_destDomain params;
     amount := p_amount params;
     recipientAddress := p_recipientAddress params;
     burnTxHash := None; messageHash := None; messageBytes := None;
     nonce := None; attestation := None;
     attestationStatus := att_pending;
     attestationAttempts := 0;
     lastAttestationCheck := None;
     mintTxHash := None;
     status := initiated;
     errorMessage := None;
     createdAt := t; updatedAt := t |}.

(** [const isFast = params.isFastTransfer !== false]. *)
Definition isFast (params : InitiateBridgeParams) : bool :=
  match p_isFastTransfer params with
  | Some false => false
  | _ => true
  end.

(** The finality threshold and the fee [initiateBridge] selects. *)
Definition selectedMinFinalityThreshold (params : InitiateBridgeParams) : Z :=
  if isFast params then 1000 else 2000.

Definition selectedMaxFee (params : InitiateBridgeParams) : Z :=
  if isFast params then 10000 else 0.

(** [initiateBridge].  [bridgeId] is the id the store generates for the new
    row. *)
Definition initiateBridge `{Library} (cache : Registry) (bridgeId : string)
    (w : World) (params : InitiateBridgeParams) (db : Db)
    : Db * Outcome (string * BurnTxData) :=
  if negb (isValidBridgePair (p_sourceDomain params) (p_destDomain params))
  then (db, Threw "Invalid bridge pair: must involve Starknet")
  else
    match getChainConfig cache (p_sourceDomain params),
          getChainConfig cache (p_destDomain params) with
    | Some sourceConfig, Some destConfig =>
        if negb (dbUp w) then (db, Threw "store") else
        let db' := {| rows := <[bridgeId := newTransaction bridgeId (now w) params]> (rows db);
                      writes := writes db ++ [InsertTransaction bridgeId] |} in
        let minFinalityThreshold := selectedMinFinalityThreshold params in
        let maxFee := selectedMaxFee params in
        match BigInt (p_amount params) with
        | None => (db', Threw "SyntaxError: Cannot convert to a BigInt")
        | Some amount =>
            (db', bind (buildBurnTxData cache sourceConfig
                          {| Evm.amount := amount;
                             Evm.destinationDomain := p_destDomain params;
                             Evm.mintRecipient := p_recipientAddress params;
                             Evm.burnToken := usdc sourceConfig;
                             Evm.destinationCaller := None;
                             Evm.userAddress := p_userAddress params;
                             Evm.minFinalityThreshold := Some minFinalityThreshold;
                             Evm.maxFee := Some maxFee |})
                   (λ txData, Returned (bridgeId, txData)))
        end
    | _, _ => (db, Threw "Invalid source or destination domain")
    end.

(** [getTransaction]. *)
Definition getTransaction (w : World) (bridgeId : string) (db : Db)
    : Outcome (option BridgeTransaction) :=
  if dbUp w then Returned (rows db !! bridgeId) else Threw "store".

(** [SET burn_tx_hash = $1, message_bytes = $2, message_hash = $3,
    nonce = $4, status = 'burned', updated_at = NOW()]. *)
Definition setBurn (txHash : string) (bytes hash nonce' : option string) (t : Z)
    (tx : BridgeTransaction) : BridgeTransaction :=
  {| id := id tx; userAddress := userAddress tx;
     sourceDomainId := sourceDomainId tx; destDomainId := destDomainId tx;
     amount := amount tx; recipientAddress := recipientAddress tx;
     burnTxHash := Some txHash;
     messageHash := hash;
     messageBytes := bytes;
     nonce := nonce';
     attestation := attestation tx;
     attestationStatus := attestationStatus tx;
     attestationAttempts := attestationAttempts tx;
     lastAttestationCheck := lastAttestationCheck tx;
     mintTxHash := mintTxHash tx;
     status := burned;
     errorMessage := errorMessage tx;
     createdAt := createdAt tx; updatedAt := t |}.

(** [recordBurnTx]. *)
Definition recordBurnTx `{Library} (w : World) (bridgeId txHash : string)
    (messageBytes nonce : option string) (db : Db) : Db * Outcome unit :=
  match getTransaction w bridgeId db with
  | Threw e => (db, Threw e)
  | Returned None => (db, Threw "Bridge transaction not found")
  | Returned (Some tx) =>
      let fetched : option string * option string :=
        if negb (truthy messageBytes) then
          match getMessageFromTx (reply w) with
          | Returned (Some messageData) =>
              (Some (message messageData), Some (eventNonce messageData))
          | _ => (messageBytes, nonce)
          end
        else (messageBytes, nonce) in
      let finalMessageBytes := fetched.1 in
      let finalNonce := fetched.2 in
      let messageHash :=
        match finalMessageBytes with
        | Some b => if truthy finalMessageBytes then Some (computeMessageHash b) else None
        | None => None
        end in
      (update (UpdateBurn bridgeId)
         (setBurn txHash (orNull finalMessageBytes) messageHash (orNull finalNonce) (now w))
         bridgeId db,
       Returned tt)
  end.

(** [SET attestation_attempts = attestation_attempts + 1,
    last_attestation_check = NOW()]. *)
Definition setAttempt (t : Z) (tx : BridgeTransaction) : BridgeTransaction :=
  {| id := id tx; userAddress := userAddress tx;
     sourceDomainId := sourceDomainId tx; destDomainId := destDomainId tx;
     amount := amount tx; recipientAddress := recipientAddress tx;
     burnTxHash := burnTxHash tx;
     messageHash := messageHash tx;
     messageBytes := messageBytes tx;
     nonce := nonce tx;
     attestation := attestation tx;
     attestationStatus := attestationStatus tx;
     attestationAttempts := attestationAttempts tx + 1;
     lastAttestationCheck := Some t;
     mintTxHash := mintTxHash tx;
     status := status tx;
     errorMessage := errorMessage tx;
     createdAt := createdAt tx; updatedAt := updatedAt tx |}.

(** [SET message_bytes = $1, message_hash = $2, nonce = $3, attestation = $4,
    attestation_status = 'complete', status = 'attested',
    attestation_attempts = attestation_attempts + 1,
    last_attestation_check = NOW(), updated_at = NOW()]. *)
Definition setAttested (bytes hash nonce' att : string) (t : Z)
    (tx : BridgeTransaction) : BridgeTransaction :=
  {| id := id tx; userAddress := userAddress tx;
     sourceDomainId := sourceDomainId tx; destDomainId := destDomainId tx;
     amount := amount tx; recipientAddress := recipientAddress tx;
     burnTxHash := burnTxHash tx;
     messageHash := Some hash;
     messageBytes := Some bytes;
     nonce := Some nonce';
     attestation := Some att;
     attestationStatus := att_complete;
     attestationAttempts := attestationAttempts tx + 1;
     lastAttestationCheck := Some t;
     mintTxHash := mintTxHash tx;
     status := attested;
     errorMessage := errorMessage tx;
     createdAt := createdAt tx; updatedAt := t |}.

(** [SET message_bytes = $1, message_hash = $2, nonce = $3,
    attestation_attempts = attestation_attempts + 1,
    last_attestation_check = NOW(), updated_at = NOW()]. *)
Definition setMessage (bytes hash nonce' : string) (t : Z)
    (tx : BridgeTransaction) : BridgeTransaction :=
  {| id := id tx; userAddress := userAddress tx;
     sourceDomainId := sourceDomainId tx; destDomainId := destDomainId tx;
     amount := amount tx; recipientAddress := recipientAddress tx;
     burnTxHash := burnTxHash tx;
     messageHash := Some hash;
     messageBytes := Some bytes;
     nonce := Some nonce';
     attestation := attestation tx;
     attestationStatus := attestationStatus tx;
     attestationAttempts := attestationAttempts tx + 1;
     lastAttestationCheck := Some t;
     mintTxHash := mintTxHash tx;
     status := status tx;
     errorMessage := errorMessage tx;
     createdAt := createdAt tx; updatedAt := t |}.

(** [checkAttestation]. *)
Definition checkAttestation `{Library} (w : World) (bridgeId : string) (db : Db)
    : Db * Outcome (option string) :=
  match getTransaction w bridgeId db with
  | Threw e => (db, Threw e)
  | Returned None => (db, Returned None)
  | Returned (Some tx) =>
      if bool_decide (attestationStatus tx = att_complete)
         || bool_decide (status tx = completed)
      then (db, Returned (attestation tx))
      else if negb (truthy (burnTxHash tx)) then (db, Returned None)
      else
        match getMessageFromTx (reply w) with
        | Threw _ => (db, Returned None)
        | Returned None =>
            (update (UpdateAttempt bridgeId) (setAttempt (now w)) bridgeId db,
             Returned None)
        | Returned (Some messageData) =>
            let messageHash := computeMessageHash (message messageData) in
            match Attestation.attestation messageData with
            | Some att =>
                if truthy (Some att)
                then (update (UpdateAttested bridgeId)
                        (setAttested (message messageData) messageHash
                           (eventNonce messageData) att (now w)) bridgeId db,
                      Returned (Some att))
                else (update (UpdateMessage bridgeId)
                        (setMessage (message messageData) messageHash
                           (eventNonce messageData) (now w)) bridgeId db,
                      Returned None)
            | None =>
                (update (UpdateMessage bridgeId)
                   (setMessage (message messageData) messageHash
                      (eventNonce messageData) (now w)) bridgeId db,
                 Returned None)
            end
        end
  end.

(** [SET mint_tx_hash = $1, status = 'completed', updated_at = NOW()]. *)
Definition setMint (txHash : string) (t : Z) (tx : BridgeTransaction)
    : BridgeTransaction :=
  {| id := id tx; userAddress := userAddress tx;
     sourceDomainId := sourceDomainId tx; destDomainId := destDomainId tx;
     amount := amount tx; recipientAddress := recipientAddress tx;
     burnTxHash := burnTxHash tx;
     messageHash := messageHash tx;
     messageBytes := messageBytes tx;
     nonce := nonce tx;
     attestation := attestation tx;
     attestationStatus := attestationStatus tx;
     attestationAttempts := attestationAttempts tx;
     lastAttestationCheck := lastAttestationCheck tx;
     mintTxHash := Some txHash;
     status := completed;
     errorMessage := errorMessage tx;
     createdAt := createdAt tx; updatedAt := t |}.

(** [recordMintTx]. *)
Definition recordMintTx (w : World) (bridgeId txHash : string) (db : Db)
    : Db * Outcome unit :=
  if dbUp w
  then (update (UpdateMint bridgeId) (setMint txHash (now w)) bridgeId db, Returned tt)
  else (db, Threw "store").

(** [SET status = 'failed', error_message = $1, updated_at = NOW()]. *)
Definition setFailed (reason : string) (t : Z) (tx : BridgeTransaction)
    : BridgeTransaction :=
  {| id := id tx; userAddress := userAddress tx;
     sourceDomainId := sourceDomainId tx; destDomainId := destDomainId tx;
     amount := amount tx; recipientAddress := recipientAddress tx;
     burnTxHash := burnTxHash tx;
     messageHash := messageHash tx;
     messageBytes := messageBytes tx;
     nonce := nonce tx;
     attestation := attestation tx;
     attestationStatus := attestationStatus tx;
     attestationAttempts := attestationAttempts tx;
     lastAttestationCheck := lastAttestationCheck tx;
     mintTxHash := mintTxHash tx;
     status := failed;
     errorMessage := Some reason;
     createdAt := createdAt tx; updatedAt := t |}.

(** [markFailed]. *)
Definition markFailed (w : World) (bridgeId errorMessage : string) (db : Db)
    : Db * Outcome unit :=
  if dbUp w
  then (update (UpdateFailed bridgeId) (setFailed errorMessage (now w)) bridgeId db,
        Returned tt)
  else (db, Threw "store").

(** The four state-changing methods, as calls. *)
Inductive Operation : Type :=
| RecordBurnTx (txHash : string) (messageBytes nonce : option string)
| CheckAttestation
| RecordMintTx (txHash : string)
| MarkFailed (errorMessage : string).

(** One call on the transaction [bridgeId]; what the call returns or throws
    is dropped, the store is kept. *)
Definition apply `{Library} (bridgeId : string) (db : Db) (call : World * Operation) : Db :=
  match call.2 with
  | RecordBurnTx txHash messageBytes nonce =>
      (recordBurnTx call.1 bridgeId txHash messageBytes nonce db).1
  | CheckAttestation => (checkAttestation call.1 bridgeId db).1
  | RecordMintTx txHash => (recordMintTx call.1 bridgeId txHash db).1
  | MarkFailed errorMessage => (markFailed call.1 bridgeId errorMessage db).1
  end.

(** The stores a sequence of calls goes through, the first one included. *)
Fixpoint history `{Library} (bridgeId : string) (db : Db) (calls : list (World * Operation))
    : list Db :=
  match calls with
  | [] => [db]
  | call :: calls' => db :: history bridgeId (apply bridgeId db call) calls'
  end.

(** [getEstimatedTime]. *)
Definition getEstimatedTime (cache : Registry) (sourceDomain destDomain : Z)
    (fast : bool) : string :=
  let sourceConfig := getChainConfig cache sourceDomain in
  let destConfig := getChainConfig cache destDomain in
  if fast then "~30 seconds"
  else match type <$> sourceConfig with
       | Some starknet => "4-8 hours"
       | Some evm =>
           match type <$> destConfig with
           | Some starknet => "15-30 minutes"
           | _ => "10-20 minutes"
           end
       | _ => "~20 minutes"
       end.

(** [getTransferFees]: the protocol charges nothing. *)
Definition minimumFee : Z := 0.

Record Quote : Type := mkQuote {
  fee : string;
  estimatedTime : string;
  rate : string
}.

(** [getQuote]; a [fast] left out is [true].  The division of [bigint]s
    truncates. *)
Definition getQuote `{Library} (cache : Registry) (sourceDomain destDomain : Z)
    (amount : string) (fast : option bool) : Outcome Quote :=
  let fast := default true fast in
  if negb (isValidBridgePair sourceDomain destDomain)
  then Threw "Invalid bridge pair: must involve Starknet"
  else
    match BigInt amount with
    | None => Threw "SyntaxError: Cannot convert to a BigInt"
    | Some amountBigInt =>
        let feeAmount := Z.quot (amountBigInt * minimumFee) 10000 in
        let feeAmount := if fast then feeAmount + 10000 else feeAmount in
        Returned {| fee := pretty feeAmount;
                    estimatedTime := getEstimatedTime cache sourceDomain destDomain fast;
                    rate := "1:1" |}
    end.

Record MintTxData : Type := mkMintTxData {
  mt_evm : option Evm.EvmTx;
  mt_starknet : option (list Starknet.Call);
  mt_solana : option (list SolanaInstruction)
}.

(** [buildMintTxData]. *)
Definition buildMintTxData `{Library} `{Runtime} (cache : Registry)
    (destConfig : ChainConfig) (messageBytes attestation : string)
    : Outcome MintTxData :=
  match type destConfig with
  | evm =>
      bind (Evm.buildReceiveMessageTx cache (domainId destConfig) messageBytes
              attestation) (λ tx,
      Returned {| mt_evm := Some tx; mt_starknet := None; mt_solana := None |})
  | starknet =>
      bind (Starknet.buildStarknetMintCall cache messageBytes attestation) (λ call,
      Returned {| mt_evm := None; mt_starknet := Some [call]; mt_solana := None |})
  | solana =>
      bind (Solana.buildSolanaMintInstruction cache
              (JS.replace "0x" "" messageBytes) (JS.replace "0x" "" attestation) "")
           (λ instruction,
      Returned {| mt_evm := None; mt_starknet := None;
                  mt_solana := Some [instruction] |})
  end.

(** [getTransactionStatus]: the transaction, and the mint payload when the
    attestation is ready. *)
Definition getTransactionStatus `{Library} `{Runtime} (cache : Registry) (w : World)
    (bridgeId : string) (db : Db)
    : Outcome (option (BridgeTransaction * option MintTxData)) :=
  match getTransaction w bridgeId db with
  | Threw e => Threw e
  | Returned None => Returned None
  | Returned (Some tx) =>
      match attestation tx, messageBytes tx with
      | Some att, Some bytes =>
          if truthy (Some att) && truthy (Some bytes) then
            match getChainConfig cache (destDomainId tx) with
            | Some destConfig =>
                bind (buildMintTxData cache destConfig bytes att) (λ mintTxData,
                Returned (Some (tx, Some mintTxData)))
            | None => Returned (Some (tx, None))
            end
          else Returned (Some (tx, None))
      | _, _ => Returned (Some (tx, None))
      end
  end.

(** The [WHERE] clause of [getPendingAttestations] at time [t] (times in
    milliseconds): attestation pending, status burned, a burn hash, and never
    polled or last polled more than five seconds ago. *)
Definition isPendingAttestation (t : Z) (tx : BridgeTransaction) : bool :=
  bool_decide (attestationStatus tx = att_pending)
  && bool_decide (status tx = burned)
  && bool_decide (is_Some (burnTxHash tx))
  && match lastAttestationCheck tx with
     | None => true
     | Some checked => checked <? t - 5000
     end.

(** [ORDER BY created_at ASC]. *)
Definition createdBefore (a b : BridgeTransaction) : Prop := createdAt a ≤ createdAt b.

Global Instance createdBefore_dec : RelDecision createdBefore.
Proof. intros a b. unfold createdBefore. apply _. Defined.

Global Instance createdBefore_trans : Transitive createdBefore.
Proof. intros a b c. unfold createdBefore. lia. Qed.

Global Instance createdBefore_total : Total createdBefore.
Proof. intros a b. unfold createdBefore. lia. Qed.

(** [getPendingAttestations]: the pending rows, oldest first, 100 at most.
    Rows created at the same time come in the order the sort leaves them in. *)
Definition getPendingAttestations (w : World) (db : Db)
    : Outcome (list BridgeTransaction) :=
  if dbUp w
  then Returned
         (list.take 100
            (merge_sort createdBefore
               (List.filter (isPendingAttestation (now w))
                  (map_to_list (rows db)).*2)))
  else Threw "store".

End Service.

(** ** routes/api/bridge/[id]/burn/+server.ts *)

Module BurnRoute.
Import Service.

(** The JSON response: the success body, or an error with its status. *)
Inductive BurnResponse : Type :=
| BurnRecorded (bridgeId : string)
| BurnError (status : Z) (error : string).

(** [POST]: the body carries [txHash], [messageBytes] and [nonce]. *)
Definition POST `{Library} (w : World) (bridgeId : string)
    (txHash messageBytes nonce : option string) (db : Db) : Db * BurnResponse :=
  match txHash with
  | Some hash =>
      if negb (truthy txHash)
      then (db, BurnError 400 "Missing required field: txHash")
      else
        match getTransaction w bridgeId db with
        | Threw e => (db, BurnError 400 e)
        | Returned None => (db, BurnError 404 "Bridge transaction not found")
        | Returned (Some tx) =>
            if truthy (burnTxHash tx)
            then (db, BurnError 400 "Burn transaction already recorded")
            else
              match recordBurnTx w bridgeId hash messageBytes nonce db with
              | (db', Returned _) => (db', BurnRecorded bridgeId)
              | (db', Threw e) => (db', BurnError 400 e)
              end
        end
  | None => (db, BurnError 400 "Missing required field: txHash")
  end.

End BurnRoute.

(** ** routes/api/bridge/[id]/complete/+server.ts *)

Module CompleteRoute.
Import Service.

Inductive CompleteResponse : Type :=
| Completed (bridgeId : string)
| CompleteError (status : Z) (error : string).

(** [POST]: the body carries [txHash]. *)
Definition POST (w : World) (bridgeId : string) (txHash : option string) (db : Db)
    : Db * CompleteResponse :=
  match txHash with
  | Some hash =>
      if negb (truthy txHash)
      then (db, CompleteError 400 "Missing required field: txHash")
      else
        match getTransaction w bridgeId db with
        | Threw e => (db, CompleteError 400 e)
        | Returned None => (db, CompleteError 404 "Bridge transaction not found")
        | Returned (Some tx) =>
            if negb (truthy (attestation tx))
            then (db, CompleteError 400 "Attestation not yet available")
            else if bool_decide (status tx = completed)
            then (db, CompleteError 400 "Bridge already completed")
            else
              match recordMintTx w bridgeId hash db with
              | (db', Returned _) => (db', Completed bridgeId)
              | (db', Threw e) => (db', CompleteError 400 e)
              end
        end
  | None => (db, CompleteError 400 "Missing required field: txHash")
  end.

End CompleteRoute.

(** ** routes/api/bridge/[id]/status/+server.ts *)

Module StatusRoute.
Import AppConfig Service.

(** [willAutoMint]: only Starknet has the subsidized auto-mint. *)
Definition willAutoMint (cache : Registry) (destDomainId : Z) : bool :=
  match getChainConfig cache destDomainId with
  | None => false
  | Some destConfig => bool_decide (type destConfig = starknet)
  end.

(** The JSON response: the transaction whose fields are reported, the mint
    payload and the auto-mint flag; or an error with its status. *)
Inductive StatusResponse : Type :=
| StatusOk (transaction : BridgeTransaction) (mintTxData : option MintTxData)
    (relayerWillMint : bool)
| StatusError (status : Z) (error : string).

(** The hash recorded for a mint Circle executed. *)
Definition autoMintHash : string := "auto-mint-by-circle".

(** The second half of [GET]: the auto-mint check on the transaction as last
    read, and the response.  [destConfig] and [relayerWillMint] are those of
    the transaction as first read. *)
Definition deliver `{Library} `{Runtime} (cache : Registry) (w : World)
    (delivery : Attestation.Fetch) (bridgeId : string)
    (destConfig : option ChainConfig) (relayerWillMint : bool)
    (transaction : BridgeTransaction) (mintTxData : option MintTxData) (db : Db)
    : Db * StatusResponse :=
  let respond (t : BridgeTransaction) :=
    StatusOk t (if relayerWillMint then None else mintTxData) relayerWillMint in
  if bool_decide (type <$> destConfig = Some starknet)
     && bool_decide (status transaction = attested)
     && truthy (burnTxHash transaction)
  then
    if (Attestation.checkMessageDelivered delivery true).1 then
      match recordMintTx w bridgeId autoMintHash db with
      | (db', Threw e) => (db', StatusError 400 e)
      | (db', Returned _) =>
          match getTransactionStatus cache w bridgeId db' with
          | Threw e => (db', StatusError 400 e)
          | Returned (Some (t, _)) => (db', respond t)
          | Returned None => (db', respond transaction)
          end
      end
    else (db, respond transaction)
  else (db, respond transaction).

(** [GET].  [w] is what the store and the message lookup answer during the
    request, [delivery] what the delivery check is answered. *)
Definition GET `{Library} `{Runtime} (cache : Registry) (w : World)
    (delivery : Attestation.Fetch) (bridgeId : string) (db : Db)
    : Db * StatusResponse :=
  match getTransactionStatus cache w bridgeId db with
  | Threw e => (db, StatusError 400 e)
  | Returned None => (db, StatusError 404 "Bridge transaction not found")
  | Returned (Some (transaction, mintTxData)) =>
      let destConfig := getChainConfig cache (destDomainId transaction) in
      let relayerWillMint := willAutoMint cache (destDomainId transaction) in
      if bool_decide (status transaction ≠ completed)
         && bool_decide (status transaction ≠ failed)
      then
        if bool_decide (status transaction = burned) && truthy (burnTxHash transaction)
        then
          match checkAttestation w bridgeId db with
          | (db1, Threw e) => (db1, StatusError 400 e)
          | (db1, Returned att) =>
              if truthy att then
                match getTransactionStatus cache w bridgeId db1 with
                | Threw e => (db1, StatusError 400 e)
                | Returned (Some (transaction', mintTxData')) =>
                    deliver cache w delivery bridgeId destConfig relayerWillMint
                      transaction' mintTxData' db1
                | Returned None =>
                    deliver cache w delivery bridgeId destConfig relayerWillMint
                      transaction mintTxData db1
                end
              else deliver cache w delivery bridgeId destConfig relayerWillMint
                     transaction mintTxData db1
          end
        else deliver cache w delivery bridgeId destConfig relayerWillMint
               transaction mintTxData db
      else
        (db, StatusOk transaction (if relayerWillMint then None else mintTxData)
               relayerWillMint)
  end.

End StatusRoute.

(** ** attestation-worker.ts: the attestation poller *)

Module Worker.
Import Service.

Record AttestationJob : Type := mkAttestationJob {
  job_id : string;
  job_messageHash : string;
  attempts : Z;
  nextRetry : Z
}.

Definition BASE_DELAY : Z := 2000.
Definition MAX_DELAY : Z := 60000.
Definition MAX_ATTEMPTS : Z := 120.
Definition IDLE_CHECK_INTERVAL : Z := 30000.

(** [Math.pow(1.5, attempts)] for an integer [attempts]. *)
Definition pow15 (attempts : Z) : Q := Qpower (3 # 2) attempts.

(** The delay before jitter: [Math.min(BASE_DELAY * Math.pow(1.5, attempts),
    MAX_DELAY)]. *)
Definition exponentialDelay (attempts : Z) : Q :=
  Qmin (inject_Z BASE_DELAY * pow15 attempts) (inject_Z MAX_DELAY).

(** [calculateBackoff]; [random] is the draw of [Math.random()].  The
    arithmetic of the source is in double precision; it is exact here. *)
Definition calculateBackoff (attempts : Z) (random : Q) : Z :=
  let jitter := (random * (3 # 10) * exponentialDelay attempts)%Q in
  Qfloor (exponentialDelay attempts + jitter).

(** What one run of [processJob] or [enqueueJob] reads from outside: the
    world of the service calls, [Date.now()] and [Math.random()]. *)
Record Tick : Type := mkTick {
  world : World;
  dateNow : Z;
  random : Q
}.

(** The worker and the store it polls. *)
Record State : Type := mkState {
  jobs : gmap string AttestationJob;
  db : Db
}.

(** [enqueueJob]: a job already there is left alone. *)
Definition enqueueJob (tick : Tick) (bridgeId messageHash : string) (attempts : Z)
    (st : State) : State :=
  match jobs st !! bridgeId with
  | Some _ => st
  | None =>
      let delay := calculateBackoff attempts (random tick) in
      {| jobs := <[bridgeId := {| job_id := bridgeId;
                                  job_messageHash := messageHash;
                                  attempts := attempts;
                                  nextRetry := dateNow tick + delay |}]> (jobs st);
         db := db st |}
  end.

(** The job with its attempt count incremented and its retry time moved:
    [job.attempts++; job.nextRetry = Date.now() + calculateBackoff(job.attempts)]. *)
Definition retryLater (tick : Tick) (job : AttestationJob) : AttestationJob :=
  {| job_id := job_id job;
     job_messageHash := job_messageHash job;
     attempts := attempts job + 1;
     nextRetry := dateNow tick + calculateBackoff (attempts job + 1) (random tick) |}.

Definition timeoutMessage : string :=
  "Attestation timeout after " +:+ pretty MAX_ATTEMPTS +:+ " attempts".

(** [processJob] on the job the worker holds under [bridgeId] (the job
    object handed to [processJob] is the one in the map, so its fields are
    updated in the map). *)
Definition processJob `{Library} (tick : Tick) (bridgeId : string) (st : State) : State :=
  match jobs st !! bridgeId with
  | None => st
  | Some job =>
      match checkAttestation (world tick) (job_id job) (db st) with
      | (db1, Returned att) =>
          if truthy att
          then {| jobs := delete (job_id job) (jobs st); db := db1 |}
          else if MAX_ATTEMPTS <=? attempts job + 1
          then {| jobs := delete (job_id job) (jobs st);
                  db := (markFailed (world tick) (job_id job) timeoutMessage db1).1 |}
          else {| jobs := <[bridgeId := retryLater tick job]> (jobs st); db := db1 |}
      | (db1, Threw _) =>
          {| jobs := <[bridgeId := retryLater tick job]> (jobs st); db := db1 |}
      end
  end.

(** The result [checkAttestation] hands to [processJob] at this tick. *)
Definition polled `{Library} (tick : Tick) (bridgeId : string) (st : State)
    : Outcome (option string) :=
  match jobs st !! bridgeId with
  | None => Returned None
  | Some job => (checkAttestation (world tick) (job_id job) (db st)).2
  end.

(** Polling the job once per tick. *)
Fixpoint poll `{Library} (bridgeId : string) (ticks : list Tick) (st : State) : State :=
  match ticks with
  | [] => st
  | tick :: ticks' => poll bridgeId ticks' (processJob tick bridgeId st)
  end.

(** The attestation check returns "not ready" (no attestation, no
    exception) at every tick of the run. *)
Fixpoint notReady `{Library} (bridgeId : string) (ticks : list Tick) (st : State) : Prop :=
  match ticks with
  | [] => True
  | tick :: ticks' =>
      (∃ att, polled tick bridgeId st = Returned att ∧ truthy att = false) ∧
      notReady bridgeId ticks' (processJob tick bridgeId st)
  end.

(** [loadPendingJobs]: every pending transaction is handed to [enqueueJob],
    with its message hash or "" and its attempt count; [draw i] is what the
    [i]-th call reads of the clock and of [Math.random].  A read that fails is
    caught. *)
Fixpoint enqueueAll (draw : nat → Tick) (i : nat) (pending : list BridgeTransaction)
    (st : State) : State :=
  match pending with
  | [] => st
  | tx :: pending' =>
      enqueueAll draw (S i) pending'
        (enqueueJob (draw i) (id tx)
           (if truthy (messageHash tx) then default "" (messageHash tx) else "")
           (attestationAttempts tx) st)
  end.

Definition loadPendingJobs (w : World) (draw : nat → Tick) (st : State) : State :=
  match getPendingAttestations w (db st) with
  | Returned pending => enqueueAll draw 0 pending st
  | Threw _ => st
  end.

End Worker.

(** ** Auxiliary definitions for the statements *)

Module Samples.
Import AppConfig.

(** The value of a string of decimal digits, [None] for any other string. *)
Fixpoint decimalValueFrom (acc : Z) (s : string) : option Z :=
  match s with
  | EmptyString => Some acc
  | String c s' =>
      let n := nat_of_ascii c in
      if (48 <=? n)%nat && (n <=? 57)%nat
      then decimalValueFrom (10 * acc + (Z.of_nat n - 48)) s'
      else None
  end.

(** A stand-in for the third-party packages, to run the definitions on
    concrete inputs: the encoders answer with the name of the function, and
    [BigIntOther] reads the strings of decimal digits and refuses the rest. *)
Definition library : Library :=
  {| keccak256 := λ m, "keccak256(" +:+ m +:+ ")";
     BigIntOther := decimalValueFrom 0;
     encodeFunctionData := λ f _, Some f;
     pad32 := λ h, Some h;
     parseInt := λ _, None;
     solanaBurn := λ _ _ _ _ _ _ _ _, None |}.

(** The rows the migration fills [supported_chains] with for Ethereum,
    Solana and Starknet. *)
Definition ethereum : ChainConfig :=
  {| chainId := "1"; domainId := 0; name := "Ethereum"; type := evm;
     tokenMessenger := "0xbd3fa81b58ba92a82136038b25adec7066af3155";
     messageTransmitter := "0x0a992d191deec32afe36203ad87d7d289a738f81";
     usdc := "0xa0b86991c6218b36c1d19d4a2e9eb0ce3606eb48";
     isEnabled := true; isTestnet := false |}.

Definition solanaChain : ChainConfig :=
  {| chainId := "solana-mainnet"; domainId := 5; name := "Solana"; type := solana;
     tokenMessenger := "CCTPiPYPc6AsJuwueEnWgSgucamXDZwBd53dQ11YiKX3";
     messageTransmitter := "CCTPmbSD7gX1bxKPAmg77w8oFzNFpaQiQUWD43TKaecd";
     usdc := "EPjFWdd5AufqSSqeM2qN1xzybapC8G4wEGGkZwyTDt1v";
     isEnabled := true; isTestnet := false |}.

Definition starknetChain : ChainConfig :=
  {| chainId := "starknet-mainnet"; domainId := 25; name := "Starknet"; type := starknet;
     tokenMessenger := "0x06a1d71e3815f63282f70e35ff3dc2e8cbb6c7e90880bb1e12a1c30ecb92b3d5";
     messageTransmitter := "0x05ab68926f5c46e33a4b39f6fb1c99a6e8d11ec0a6a7f3c8c3b1e3a5e0d3b2c1";
     usdc := "0x053c91253bc9682c04929ca02ed00b3e423f6710d2ee7e0d5ebb06f3ecf368a8";
     isEnabled := true; isTestnet := false |}.

Definition registry : Registry :=
  <[0 := ethereum]> (<[5 := solanaChain]> (<[25 := starknetChain]> ∅)).

(** A fast transfer of 1 USDC (1000000 units) from Starknet to Ethereum,
    a service that has nothing yet, and the stores the transfer goes through
    under the id "tx-1". *)
Definition transfer : Service.InitiateBridgeParams :=
  {| Service.p_userAddress :=
       "0x049d36570d4e46f48e99674bd3fcc84644ddd6b96f7c741b1562b82f9e004dc7";
     Service.p_sourceDomain := 25;
     Service.p_destDomain := 0;
     Service.p_amount := "1000000";
     Service.p_recipientAddress := "0xa0b86991c6218b36c1d19d4a2e9eb0ce3606eb48";
     Service.p_isFastTransfer := Some true |}.

Definition notFound : Service.World :=
  {| Service.dbUp := true; Service.now := 1000;
     Service.reply := Attestation.Response 404 "Not Found" None |}.

Definition attestedReply : Service.World :=
  {| Service.dbUp := true; Service.now := 2000;
     Service.reply :=
       Attestation.Response 200 "OK"
         (Some (Some [Attestation.mkApiMessage "0x0001" (Some "0xa77e57") "7" 2
                        "complete"])) |}.

Definition emptyDb : Service.Db := {| Service.rows := ∅; Service.writes := [] |}.

Definition initiatedDb : Service.Db :=
  (Service.initiateBridge (H := library) registry "tx-1" notFound transfer emptyDb).1.

Definition burnedDb : Service.Db :=
  (Service.recordBurnTx (H := library) notFound "tx-1" "0xb01" None None initiatedDb).1.

Definition attestedDb : Service.Db :=
  (Service.checkAttestation (H := library) attestedReply "tx-1" burnedDb).1.

(** A poller tick at which the service answers 404, and the poller holding
    the job of the sample transfer after [attempts] attempts. *)
Definition tick404 : Worker.Tick :=
  {| Worker.world := notFound; Worker.dateNow := 5000; Worker.random := 1 # 2 |}.

Definition tracked (attempts : Z) : Worker.State :=
  Worker.enqueueJob tick404 "tx-1" "" attempts
    {| Worker.jobs := ∅; Worker.db := burnedDb |}.

(** A transfer from Starknet to Starknet, one from Starknet to Solana with
    a Solana address as Solana writes it (base58), and a registry in which
    domain 25 is an EVM chain. *)
Definition bothStarknet : Service.InitiateBridgeParams :=
  {| Service.p_userAddress := Service.p_userAddress transfer;
     Service.p_sourceDomain := 25;
     Service.p_destDomain := 25;
     Service.p_amount := "1000000";
     Service.p_recipientAddress := Service.p_userAddress transfer;
     Service.p_isFastTransfer := Some true |}.

Definition toSolana : Service.InitiateBridgeParams :=
  {| Service.p_userAddress := Service.p_userAddress transfer;
     Service.p_sourceDomain := 25;
     Service.p_destDomain := 5;
     Service.p_amount := "1000000";
     Service.p_recipientAddress := "EPjFWdd5AufqSSqeM2qN1xzybapC8G4wEGGkZwyTDt1v";
     Service.p_isFastTransfer := Some true |}.

Definition evmAt25 : Registry :=
  <[25 := {| chainId := "1"; domainId := 25; name := "Ethereum"; type := evm;
             tokenMessenger := tokenMessenger ethereum;
             messageTransmitter := messageTransmitter ethereum;
             usdc := usdc ethereum;
             isEnabled := true; isTestnet := false |}]> ∅.

End Samples.

(** The digits a chunk of [hexToFeltArray] carries, and the digits of a list
    of chunks read in order. *)
Definition payload (chunk : string) : string := sliceFrom 2 chunk.

Fixpoint payloads (chunks : list string) : string :=
  match chunks with
  | [] => ""
  | chunk :: chunks' => payload chunk +:+ payloads chunks'
  end.

(** A chunk is "0x" followed by between 1 and 62 digits. *)
Definition chunkOk (chunk : string) : Prop :=
  startsWith chunk "0x" = true ∧
  (1 ≤ String.length (payload chunk) ≤ 62)%nat.


(** The attestation service has no attestation to give: the lookup fails,
    finds nothing, or finds a message whose attestation is not there yet. *)
Definition pendingReply (reply : Attestation.Fetch) : Prop :=
  match Attestation.getMessageFromTx reply with
  | Returned (Some messageData) => Attestation.attestation messageData = None
  | _ => True
  end.

(** A transfer that still awaits its attestation: attestation status not
    complete, status not completed. *)
Definition awaitingAttestation (tx : Service.BridgeTransaction) : Prop :=
  Service.attestationStatus tx ≠ Service.att_complete ∧
  Service.status tx ≠ Service.completed.

(** *** Route validation *)

(** The call threw the error of the route check. *)
Definition invalidPair {A} (o : Outcome A) : Prop :=
  o = Threw "Invalid bridge pair: must involve Starknet".

Definition succeeds {A} (o : Outcome A) : Prop := ∃ a, o = Returned a.

(** Exactly one of the two domains is Starknet. *)
Definition exactlyOne (x y : Z) : Prop :=
  (x = Config.STARKNET_DOMAIN_ID ∧ y ≠ Config.STARKNET_DOMAIN_ID) ∨
  (x ≠ Config.STARKNET_DOMAIN_ID ∧ y = Config.STARKNET_DOMAIN_ID).

(** Route validation as the specification words it: the route error when
    neither domain is Starknet, and, both domains being registered, success
    exactly when exactly one is. *)
Definition routeValidation `{Library} (cache : AppConfig.Registry) (bridgeId : string)
    (w : Service.World) (params : Service.InitiateBridgeParams) (db : Service.Db) : Prop :=
  let x := Service.p_sourceDomain params in
  let y := Service.p_destDomain params in
  let out := (Service.initiateBridge cache bridgeId w params db).2 in
  (x ≠ Config.STARKNET_DOMAIN_ID ∧ y ≠ Config.STARKNET_DOMAIN_ID → invalidPair out) ∧
  (is_Some (cache !! x) → is_Some (cache !! y) → (succeeds out ↔ exactlyOne x y)).

(** A message other than the one of the route check. *)
Definition benign (msg : string) : Prop :=
  msg ≠ "Invalid bridge pair: must involve Starknet".

(** *** Status order *)

(** The place of a status in the chain initiated, burned, attested,
    minting, completed; failed comes last. *)
Definition rank (s : Service.BridgeStatus) : nat :=
  match s with
  | Service.initiated => 0
  | Service.burned => 1
  | Service.attested => 2
  | Service.minting => 3
  | Service.completed => 4
  | Service.failed => 5
  end.

(** Status [s'] may be observed after [s]: it is failed, or [s] is not
    failed and [s'] is not earlier in the chain. *)
Definition advances (s s' : Service.BridgeStatus) : Prop :=
  s' = Service.failed ∨ (s ≠ Service.failed ∧ (rank s ≤ rank s')%nat).

(** A sequence of observed statuses never regresses, except into failed. *)
Definition monotone (observed : list Service.BridgeStatus) : Prop :=
  ∀ i s s', observed !! i = Some s → observed !! S i = Some s' → advances s s'.

(** The statuses of the transaction [bridgeId] along a sequence of calls. *)
Definition observedStatuses `{Library} (bridgeId : string) (db : Service.Db)
    (calls : list (Service.World * Service.Operation)) : list Service.BridgeStatus :=
  omap (λ d, Service.status <$> Service.rows d !! bridgeId)
       (Service.history bridgeId db calls).

(** The status an operation writes when it writes one. *)
Definition target (op : Service.Operation) : Service.BridgeStatus :=
  match op with
  | Service.RecordBurnTx _ _ _ => Service.burned
  | Service.CheckAttestation => Service.attested
  | Service.RecordMintTx _ => Service.completed
  | Service.MarkFailed _ => Service.failed
  end.

(** The operation comes in order for the transaction: the transaction is
    not failed and not past the target of the operation.  [markFailed] is
    always in order, and so is [checkAttestation] where it only reads. *)
Definition inOrder (tx : Service.BridgeTransaction) (op : Service.Operation) : Prop :=
  match op with
  | Service.MarkFailed _ => True
  | Service.CheckAttestation =>
      Service.attestationStatus tx = Service.att_complete ∨
      Service.status tx = Service.completed ∨
      (Service.status tx ≠ Service.failed ∧
       (rank (Service.status tx) ≤ rank Service.attested)%nat)
  | _ =>
      Service.status tx ≠ Service.failed ∧
      (rank (Service.status tx) ≤ rank (target op))%nat
  end.

(** Every call of the sequence comes in order for the transaction as it is
    when the call is made. *)
Fixpoint allInOrder `{Library} (bridgeId : string) (db : Service.Db)
    (calls : list (Service.World * Service.Operation)) : Prop :=
  match calls with
  | [] => True
  | call :: calls' =>
      (∀ tx, Service.rows db !! bridgeId = Some tx → inOrder tx call.2) ∧
      allInOrder bridgeId (Service.apply bridgeId db call) calls'
  end.

(** *** The life of a row *)

(** The rewrites the statements of the four state-changing methods apply to
    a row: the message hash written is always the hash of the message bytes
    written with it, and an attestation written is never empty. *)
Inductive serviceUpdate `{Library}
    : (Service.BridgeTransaction → Service.BridgeTransaction) → Prop :=
| update_burn txHash bytes nonce' t :
    serviceUpdate
      (Service.setBurn txHash bytes (Attestation.computeMessageHash <$> bytes) nonce' t)
| update_attempt t : serviceUpdate (Service.setAttempt t)
| update_attested bytes nonce' att t :
    truthy (Some att) = true →
    serviceUpdate
      (Service.setAttested bytes (Attestation.computeMessageHash bytes) nonce' att t)
| update_message bytes nonce' t :
    serviceUpdate
      (Service.setMessage bytes (Attestation.computeMessageHash bytes) nonce' t)
| update_mint txHash t : serviceUpdate (Service.setMint txHash t)
| update_failed reason t : serviceUpdate (Service.setFailed reason t).

(** The columns that say which transfer a row is. *)
Definition sameTransfer (tx tx' : Service.BridgeTransaction) : Prop :=
  Service.id tx' = Service.id tx ∧
  Service.userAddress tx' = Service.userAddress tx ∧
  Service.sourceDomainId tx' = Service.sourceDomainId tx ∧
  Service.destDomainId tx' = Service.destDomainId tx ∧
  Service.amount tx' = Service.amount tx ∧
  Service.recipientAddress tx' = Service.recipientAddress tx ∧
  Service.createdAt tx' = Service.createdAt tx.

(** The message and attestation columns of a row agree with each other. *)
Definition coherent `{Library} (tx : Service.BridgeTransaction) : Prop :=
  Service.messageHash tx = Attestation.computeMessageHash <$> Service.messageBytes tx ∧
  (Service.attestationStatus tx = Service.att_complete
   ↔ truthy (Service.attestation tx) = true) ∧
  (Service.status tx = Service.attested →
   Service.attestationStatus tx = Service.att_complete) ∧
  Service.attestationStatus tx ≠ Service.att_failed.

Definition isCheckAttestation (call : Service.World * Service.Operation) : bool :=
  match call.2 with
  | Service.CheckAttestation => true
  | _ => false
  end.

(** *** The routes *)

(** A request to one of the three routes of a transfer. *)
Inductive Request : Type :=
| BurnRequest (txHash messageBytes nonce : option string)
| CompleteRequest (txHash : option string)
| StatusRequest (delivery : Attestation.Fetch).

(** The store after a request on the transfer [bridgeId]; the response is
    dropped. *)
Definition serve `{Library} `{Runtime} (cache : AppConfig.Registry) (bridgeId : string)
    (db : Service.Db) (call : Service.World * Request) : Service.Db :=
  match call.2 with
  | BurnRequest txHash messageBytes nonce =>
      (BurnRoute.POST call.1 bridgeId txHash messageBytes nonce db).1
  | CompleteRequest txHash => (CompleteRoute.POST call.1 bridgeId txHash db).1
  | StatusRequest delivery => (StatusRoute.GET cache call.1 delivery bridgeId db).1
  end.

(** The stores a sequence of requests, served one after the other, goes
    through, the first one included. *)
Fixpoint served `{Library} `{Runtime} (cache : AppConfig.Registry) (bridgeId : string)
    (db : Service.Db) (calls : list (Service.World * Request)) : list Service.Db :=
  match calls with
  | [] => [db]
  | call :: calls' => db :: served cache bridgeId (serve cache bridgeId db call) calls'
  end.

(** What the routes keep true of a row: no burn hash before the burn, an
    attestation from attested on and not before, a mint hash once completed;
    the statuses minting and failed are not written. *)
Definition onTrack (tx : Service.BridgeTransaction) : Prop :=
  match Service.status tx with
  | Service.initiated =>
      truthy (Service.burnTxHash tx) = false ∧ truthy (Service.attestation tx) = false ∧
      Service.attestationStatus tx ≠ Service.att_complete
  | Service.burned =>
      truthy (Service.burnTxHash tx) = true ∧ truthy (Service.attestation tx) = false ∧
      Service.attestationStatus tx ≠ Service.att_complete
  | Service.attested =>
      truthy (Service.burnTxHash tx) = true ∧ truthy (Service.attestation tx) = true
  | Service.completed =>
      truthy (Service.burnTxHash tx) = true ∧ truthy (Service.attestation tx) = true ∧
      is_Some (Service.mintTxHash tx)
  | _ => False
  end.

(** *** The job set *)

(** Every job is held under its own id. *)
Definition keyed (st : Worker.State) : Prop :=
  ∀ k job, Worker.jobs st !! k = Some job → Worker.job_id job = k.

(** *** More sample data *)

Module Scenario.
Import AppConfig.

(** A stand-in for the Solana packages of the mint side. *)
Definition runtime : Runtime := {| solanaMint := λ _ _ _ _ _ _, None |}.

(** A table of [supported_chains]: the three mainnet rows, a testnet row for
    domain 0, a disabled row for domain 25, and an older row for domain 5
    that the row of Solana comes after. *)
Definition sepolia : ChainConfig :=
  {| chainId := "11155111"; domainId := 0; name := "Ethereum Sepolia"; type := evm;
     tokenMessenger := "0x8fe6b999dc680ccfdd5bf7eb0974218be2542daa";
     messageTransmitter := "0xe737e5cebeeba77efe34d4aa090756590b1ce275";
     usdc := "0x1c7d4b196cb0c7b01d743fbc6116a902379c7238";
     isEnabled := true; isTestnet := true |}.

Definition starknetOff : ChainConfig :=
  {| chainId := "starknet-mainnet"; domainId := 25; name := "Starknet (off)";
     type := starknet;
     tokenMessenger := "0x0"; messageTransmitter := "0x0"; usdc := "0x0";
     isEnabled := false; isTestnet := false |}.

Definition solanaOld : ChainConfig :=
  {| chainId := "solana-mainnet"; domainId := 5; name := "Solana (old)"; type := solana;
     tokenMessenger := "old"; messageTransmitter := "old"; usdc := "old";
     isEnabled := true; isTestnet := false |}.

Definition supported_chains : list ChainConfig :=
  [Samples.ethereum; sepolia; solanaOld; Samples.solanaChain;
   Samples.starknetChain; starknetOff].

(** A transfer of 1 USDC from Ethereum to Starknet with the fast flag left
    out, and the stores it goes through under the id "tx-2". *)
Definition inbound : Service.InitiateBridgeParams :=
  {| Service.p_userAddress := "0xa0b86991c6218b36c1d19d4a2e9eb0ce3606eb48";
     Service.p_sourceDomain := 0;
     Service.p_destDomain := 25;
     Service.p_amount := "1000000";
     Service.p_recipientAddress :=
       "0x049d36570d4e46f48e99674bd3fcc84644ddd6b96f7c741b1562b82f9e004dc7";
     Service.p_isFastTransfer := None |}.

Definition inboundDb : Service.Db :=
  (Service.initiateBridge (H := Samples.library) Samples.registry "tx-2"
     Samples.notFound inbound Samples.emptyDb).1.

Definition inboundBurned : Service.Db :=
  (Service.recordBurnTx (H := Samples.library) Samples.notFound "tx-2" "0xb02"
     None None inboundDb).1.

Definition inboundAttested : Service.Db :=
  (Service.checkAttestation (H := Samples.library) Samples.attestedReply "tx-2"
     inboundBurned).1.

(** A moment at which the store does not answer, and a poller tick at that
    moment. *)
Definition storeDown : Service.World :=
  {| Service.dbUp := false; Service.now := 3000;
     Service.reply := Attestation.NetworkError "fetch failed" |}.

Definition tickDown : Worker.Tick :=
  {| Worker.world := storeDown; Worker.dateNow := 6000; Worker.random := 0 |}.

(** A poller tick at which the service has the attestation. *)
Definition tickAttested : Worker.Tick :=
  {| Worker.world := Samples.attestedReply; Worker.dateNow := 7000;
     Worker.random := 0 |}.

End Scenario.

(** * Properties *)

(** ** Strings *)

(* Case analysis on a hypothesis saying that a chain of calls threw. *)
Ltac throw_cases :=
  repeat match goal with
         | H : bind ?o _ = Threw _ |- _ => destruct o eqn:?; cbn [bind] in H
         | H : match ?x with _ => _ end = Threw _ |- _ => destruct x eqn:?
         | H : Returned _ = Threw _ |- _ => discriminate H
         | H : Threw _ = Threw _ |- _ => injection H as <-
         end.

(* stdpp keeps [simpl] from unfolding the append of strings; the proofs
   below compute with it. *)
Local Arguments String.append !_ _ / : simpl nomatch.

Section StringFacts.

Lemma append_length (s t : string) :
  String.length (s +:+ t) = (String.length s + String.length t)%nat.
Proof. induction s as [|c s IH]; simpl; [done | by rewrite IH]. Qed.

Lemma append_empty_r (s : string) : s +:+ "" = s.
Proof. induction s as [|c s IH]; simpl; [done | by rewrite IH]. Qed.

Lemma append_assoc (s t u : string) : (s +:+ t) +:+ u = s +:+ t +:+ u.
Proof. induction s as [|c s IH]; simpl; [done | by rewrite IH]. Qed.

Lemma repeatChar_length c n : String.length (repeatChar c n) = n.
Proof. induction n as [|n IH]; simpl; [done | by rewrite IH]. Qed.

Lemma toLowerCase_length s : String.length (toLowerCase s) = String.length s.
Proof. induction s as [|c s IH]; simpl; [done | by rewrite IH]. Qed.

Lemma drop_append_length (s t : string) : drop (String.length s) (s +:+ t) = t.
Proof. induction s as [|c s IH]; simpl; [by destruct t | done]. Qed.

Lemma drop_all (s : string) n : (String.length s ≤ n)%nat → drop n s = "".
Proof.
  revert n; induction s as [|c s IH]; intros [|n] Hn; simpl in *; try done; try lia.
  apply IH; lia.
Qed.

Lemma drop_length (s : string) n :
  String.length (drop n s) = (String.length s - n)%nat.
Proof.
  revert n; induction s as [|c s IH]; intros [|n]; simpl; try done.
Qed.

Lemma drop_drop (s : string) n m : drop n (drop m s) = drop (m + n) s.
Proof.
  revert s; induction m as [|m IH]; intros s; simpl; [done|].
  destruct s as [|c s]; [by destruct n | apply IH].
Qed.

Lemma take_length (s : string) n :
  String.length (take n s) = (n `min` String.length s)%nat.
Proof.
  revert n; induction s as [|c s IH]; intros [|n]; simpl; try done.
  by rewrite IH.
Qed.

Lemma take_drop (s : string) n : take n s +:+ drop n s = s.
Proof.
  revert n; induction s as [|c s IH]; intros [|n]; simpl; try done.
  by rewrite IH.
Qed.

Lemma take_all (s : string) n : (String.length s ≤ n)%nat → take n s = s.
Proof.
  revert n; induction s as [|c s IH]; intros [|n] Hn; simpl in *; try done; try lia.
  rewrite IH; [done | lia].
Qed.

(** Lower-casing does not change the value of a digit, nor whether a
    character is one. *)
Lemma hexDigit_lowerChar c : hexDigit (lowerChar c) = hexDigit c.
Proof. by destruct c as [[] [] [] [] [] [] [] []]. Qed.

Lemma isHex_toLowerCase s : isHex (toLowerCase s) = isHex s.
Proof.
  induction s as [|c s IH]; simpl; [done|].
  unfold isHexChar. by rewrite hexDigit_lowerChar, IH.
Qed.

Lemma isHex_append s t : isHex (s +:+ t) = isHex s && isHex t.
Proof.
  induction s as [|c s IH]; simpl; [done|].
  rewrite IH. by destruct (isHexChar c).
Qed.

Lemma isHex_repeat_zero n : isHex (repeatChar "0" n) = true.
Proof. induction n as [|n IH]; simpl; [done | by rewrite IH]. Qed.

Lemma isHex_drop s n : isHex s = true → isHex (drop n s) = true.
Proof.
  revert n; induction s as [|c s IH]; intros [|n] Hs; simpl in *; try done.
  apply andb_prop in Hs as [_ Hs]. by apply IH.
Qed.

Lemma isHex_take s n : isHex s = true → isHex (take n s) = true.
Proof.
  revert n; induction s as [|c s IH]; intros [|n] Hs; simpl in *; try done.
  apply andb_prop in Hs as [Hc Hs]. by rewrite Hc, IH.
Qed.

(** The letter x is no hexadecimal digit, so a string of digits holds no
    "0x" and [replace] leaves it alone. *)
Lemma replace_0x_hex s : isHex s = true → JS.replace "0x" "" s = s.
Proof.
  induction s as [|c s IH]; intros Hs; [done|].
  simpl in Hs. apply andb_prop in Hs as [Hc Hs].
  cbn [JS.replace].
  assert (String.prefix "0x" (String c s) = false) as ->.
  { cbn [String.prefix]. destruct (ascii_dec "0" c) as [_|]; [|done].
    destruct s as [|c' s]; [done|]. cbn [String.prefix].
    destruct (ascii_dec "x" c') as [<-|]; [|done].
    by vm_compute in Hs. }
  by rewrite IH.
Qed.

Lemma replace_0x_prefixed s : JS.replace "0x" "" ("0x" +:+ s) = s.
Proof. cbn. by destruct s. Qed.

Global Instance Returned_inj {A} : Inj (=) (=) (@Returned A).
Proof. by intros ?? [= ->]. Qed.

Lemma startsWith_0x s : startsWith ("0x" +:+ s) "0x" = true.
Proof. by destruct s. Qed.

Lemma toLowerCase_0x s : toLowerCase ("0x" +:+ s) = "0x" +:+ toLowerCase s.
Proof. done. Qed.

(** Values. *)
Lemma hexValueFrom_toLowerCase acc s :
  hexValueFrom acc (toLowerCase s) = hexValueFrom acc s.
Proof.
  revert acc; induction s as [|c s IH]; intros acc; simpl; [done|].
  by rewrite hexDigit_lowerChar, IH.
Qed.

Lemma hexValueFrom_zeros n s : hexValueFrom 0 (repeatChar "0" n +:+ s) = hexValueFrom 0 s.
Proof. induction n as [|n IH]; simpl; [done | apply IH]. Qed.

Lemma hexDigit_range c v : hexDigit c = Some v → 0 ≤ v < 16.
Proof.
  unfold hexDigit. intros Hv.
  repeat case_match; simplify_eq;
    repeat match goal with
           | H : _ && _ = true |- _ => apply andb_prop in H as [? ?]
           | H : (_ <=? _)%nat = true |- _ => apply Nat.leb_le in H
           end; lia.
Qed.

Lemma hexValueFrom_append acc s t :
  hexValueFrom acc (s +:+ t) = hexValueFrom (hexValueFrom acc s) t.
Proof. revert acc; induction s as [|c s IH]; intros acc; simpl; [done | apply IH]. Qed.

Lemma hexValueFrom_bounds acc s :
  0 ≤ acc →
  acc * 16 ^ Z.of_nat (String.length s) ≤ hexValueFrom acc s
    < (acc + 1) * 16 ^ Z.of_nat (String.length s).
Proof.
  revert acc; induction s as [|c s IH]; intros acc Hacc.
  - simpl. lia.
  - cbn [hexValueFrom String.length].
    rewrite Nat2Z.inj_succ, Z.pow_succ_r by lia.
    assert (0 ≤ default 0 (hexDigit c) < 16) as Hd.
    { destruct (hexDigit c) as [v|] eqn:Hv; simpl; [by eapply hexDigit_range | lia]. }
    specialize (IH (16 * acc + default 0 (hexDigit c)) ltac:(lia)).
    set (p := 16 ^ Z.of_nat (String.length s)) in *.
    assert (0 < p) by (apply Z.pow_pos_nonneg; lia).
    nia.
Qed.

Lemma hexValue_bounds s : 0 ≤ hexValue s < 16 ^ Z.of_nat (String.length s).
Proof.
  unfold hexValue. pose proof (hexValueFrom_bounds 0 s ltac:(lia)). lia.
Qed.

(** Splitting a string of digits in two splits its value. *)
Lemma hexValue_split s n :
  hexValue s = hexValue (take n s) * 16 ^ Z.of_nat (String.length (drop n s))
               + hexValue (drop n s).
Proof.
  unfold hexValue. rewrite <- (take_drop s n) at 1.
  rewrite hexValueFrom_append.
  generalize (hexValueFrom 0 (take n s)) as acc. generalize (drop n s) as t.
  induction t as [|c t IH]; intros acc; simpl String.length.
  - simpl. lia.
  - cbn [hexValueFrom]. rewrite Nat2Z.inj_succ, Z.pow_succ_r by lia.
    rewrite IH. rewrite (IH (16 * 0 + _)). lia.
Qed.

(** Bytes. *)
Lemma hexBytes_toLowerCase s : hexBytes (toLowerCase s) = hexBytes s.
Proof.
  revert s. fix IH 1. intros [|a [|b s]]; [done | done |].
  cbn [toLowerCase hexBytes]. by rewrite !hexDigit_lowerChar, IH.
Qed.

Lemma hexBytes_zeros n s :
  hexBytes (repeatChar "0" (2 * n) +:+ s) = replicate n 0 ++ hexBytes s.
Proof.
  induction n as [|n IH]; [done|].
  replace (2 * S n)%nat with (S (S (2 * n))) by lia.
  cbn [repeatChar String.append hexBytes]. by rewrite IH.
Qed.

End StringFacts.

(** ** Address translation *)

Section AddressFacts.
Context `{Library}.

Lemma BigInt_hex s : isHex s = true → s ≠ "" → BigInt ("0x" +:+ s) = Some (hexValue s).
Proof.
  intros Hs Hne. destruct s as [|c s]; [done|].
  unfold BigInt. cbn [String.append]. by rewrite Hs.
Qed.

Lemma cleanAddress_prefixed h :
  JS.replace "0x" "" (toLowerCase ("0x" +:+ h)) = toLowerCase h.
Proof. by rewrite toLowerCase_0x, replace_0x_prefixed. Qed.

Lemma cleanAddress_bare h :
  isHex h = true → JS.replace "0x" "" (toLowerCase h) = toLowerCase h.
Proof. intros Hh. apply replace_0x_hex. by rewrite isHex_toLowerCase. Qed.

Lemma padStart_short n c s :
  (String.length s ≤ n)%nat →
  padStart n c s = repeatChar c (n - String.length s) +:+ s.
Proof. done. Qed.

Lemma padStart_full n c s : (n ≤ String.length s)%nat → padStart n c s = s.
Proof.
  intros Hn. unfold padStart. by replace (n - String.length s)%nat with 0%nat by lia.
Qed.

Lemma cairo_uint256_limbs v :
  0 ≤ v < 2 ^ 256 →
  ∃ u, Starknet.cairo_uint256 v = Returned u ∧
       Starknet.low u + Starknet.high u * 2 ^ 128 = v ∧
       0 ≤ Starknet.low u < 2 ^ 128 ∧
       Starknet.high u = v `div` 2 ^ 128.
Proof.
  intros [Hlo Hhi]. unfold Starknet.cairo_uint256.
  rewrite (proj2 (Z.leb_le _ _) Hlo), (proj2 (Z.ltb_lt _ _) Hhi). simpl.
  eexists; split; [done|]. cbn [Starknet.low Starknet.high].
  rewrite Z.land_ones, Z.shiftr_div_pow2 by lia.
  pose proof (Z.div_mod v (2 ^ 128) ltac:(lia)).
  pose proof (Z.mod_pos_bound v (2 ^ 128) ltac:(lia)).
  lia.
Qed.

(** An address given without the "0x" is translated like the prefixed one. *)
Lemma addressToBytes32_bare h :
  isHex h = true → Evm.addressToBytes32 h = Evm.addressToBytes32 ("0x" +:+ h).
Proof.
  intros Hh. unfold Evm.addressToBytes32.
  by rewrite cleanAddress_prefixed, cleanAddress_bare.
Qed.

(** The value of the address survives the padding, whatever its length up
    to 32 bytes. *)
Lemma addressToBytes32_value h :
  (String.length h ≤ 64)%nat →
  hexValue (sliceFrom 2 (Evm.addressToBytes32 ("0x" +:+ h))) = hexValue h.
Proof.
  intros Hlen. unfold Evm.addressToBytes32. rewrite cleanAddress_prefixed.
  change (sliceFrom 2 ("0x" +:+ ?s)) with s.
  unfold padStart, hexValue. rewrite hexValueFrom_zeros.
  apply hexValueFrom_toLowerCase.
Qed.

(** C7. Address round trip.  For a 20-byte EVM address [a] and a 32-byte
    word address [w], both written as "0x" and hexadecimal digits:
    [addressToBytes32] pads [a] on the left with 24 zero digits, so that the
    low 20 bytes of the word are the bytes of [a]; [starknetAddressToBytes32]
    hands [w] on with its 64 digits and its bytes unchanged, and pads a
    shorter word address to 64 digits of the same value;
    [evmAddressToU256] splits [a] into limbs with
    [low + high * 2^128] the value of [a]; and [solanaAddressToU256] does the
    same for [w]. *)
Theorem address_roundtrip (a w : string) :
  isHex a = true → String.length a = 40%nat →
  isHex w = true → String.length w = 64%nat →
  (Evm.addressToBytes32 ("0x" +:+ a) = "0x" +:+ repeatChar "0" 24 +:+ toLowerCase a ∧
   sliceFrom 26 (Evm.addressToBytes32 ("0x" +:+ a)) = toLowerCase a ∧
   hexBytes (sliceFrom 2 (Evm.addressToBytes32 ("0x" +:+ a)))
     = replicate 12 0 ++ hexBytes a ∧
   hexBytes (sliceFrom 26 (Evm.addressToBytes32 ("0x" +:+ a))) = hexBytes a) ∧
  (Evm.starknetAddressToBytes32 ("0x" +:+ w) = "0x" +:+ toLowerCase w ∧
   String.length (sliceFrom 2 (Evm.starknetAddressToBytes32 ("0x" +:+ w))) = 64%nat ∧
   hexBytes (sliceFrom 2 (Evm.starknetAddressToBytes32 ("0x" +:+ w))) = hexBytes w) ∧
  (∀ s, (String.length s ≤ 64)%nat →
     String.length (sliceFrom 2 (Evm.starknetAddressToBytes32 ("0x" +:+ s))) = 64%nat ∧
     hexValue (sliceFrom 2 (Evm.starknetAddressToBytes32 ("0x" +:+ s))) = hexValue s) ∧
  (∃ lo hi,
     Starknet.evmAddressToU256 ("0x" +:+ a) = Returned (pretty lo, pretty hi) ∧
     lo + hi * 2 ^ 128 = hexValue a ∧ 0 ≤ lo < 2 ^ 128 ∧ 0 ≤ hi < 2 ^ 32) ∧
  (∃ lo hi,
     Starknet.solanaAddressToU256 ("0x" +:+ w) = Returned (pretty lo, pretty hi) ∧
     lo + hi * 2 ^ 128 = hexValue w ∧ 0 ≤ lo < 2 ^ 128 ∧ 0 ≤ hi < 2 ^ 128).
Proof.
  intros Ha La Hw Lw.
  assert (Evm.addressToBytes32 ("0x" +:+ a)
          = "0x" +:+ repeatChar "0" 24 +:+ toLowerCase a) as Ea.
  { unfold Evm.addressToBytes32. rewrite cleanAddress_prefixed.
    unfold padStart. by rewrite toLowerCase_length, La. }
  assert (Evm.starknetAddressToBytes32 ("0x" +:+ w) = "0x" +:+ toLowerCase w) as Ew.
  { unfold Evm.starknetAddressToBytes32. rewrite cleanAddress_prefixed.
    rewrite padStart_full; [done|]. rewrite toLowerCase_length. lia. }
  split; [|split; [|split; [|split]]].
  - rewrite Ea. split; [done|]. split; [done|]. split.
    + change (sliceFrom 2 ("0x" +:+ ?s)) with s.
      rewrite (hexBytes_zeros 12). by rewrite hexBytes_toLowerCase.
    + change (sliceFrom 26 ("0x" +:+ repeatChar "0" 24 +:+ ?s)) with s.
      apply hexBytes_toLowerCase.
  - rewrite Ew. split; [done|]. change (sliceFrom 2 ("0x" +:+ ?s)) with s.
    by rewrite toLowerCase_length, hexBytes_toLowerCase.
  - intros s Ls. split; [|by apply addressToBytes32_value].
    unfold Evm.starknetAddressToBytes32. rewrite cleanAddress_prefixed.
    change (sliceFrom 2 ("0x" +:+ ?t)) with t. unfold padStart.
    rewrite append_length, repeatChar_length, toLowerCase_length. lia.
  - unfold Starknet.evmAddressToU256. rewrite cleanAddress_prefixed.
    rewrite BigInt_hex; cycle 1.
    { by rewrite isHex_toLowerCase. }
    { intros E. apply (f_equal String.length) in E.
      rewrite toLowerCase_length, La in E. done. }
    unfold hexValue at 1. rewrite hexValueFrom_toLowerCase. fold (hexValue a).
    pose proof (hexValue_bounds a) as Hb. rewrite La in Hb.
    destruct (cairo_uint256_limbs (hexValue a)) as (u & -> & Hsum & Hlo & Hhi); [lia|].
    exists (Starknet.low u), (Starknet.high u). simpl.
    repeat split; lia.
  - unfold Starknet.solanaAddressToU256. rewrite replace_0x_prefixed.
    rewrite padStart_full by lia.
    unfold slice, sliceFrom. change (take (32 - 0) (drop 0 w)) with (take 32 w).
    rewrite BigInt_hex; cycle 1.
    { by apply isHex_take. }
    { intros E. apply (f_equal String.length) in E.
      rewrite take_length, Lw in E. done. }
    rewrite BigInt_hex; cycle 1.
    { by apply isHex_drop. }
    { intros E. apply (f_equal String.length) in E.
      rewrite drop_length, Lw in E. done. }
    exists (hexValue (drop 32 w)), (hexValue (take 32 w)).
    pose proof (hexValue_bounds (drop 32 w)) as Hlo.
    pose proof (hexValue_bounds (take 32 w)) as Hhi.
    pose proof (hexValue_split w 32) as Hsplit.
    rewrite drop_length, Lw in Hlo, Hsplit. rewrite take_length, Lw in Hhi.
    change (Z.of_nat (64 - 32)) with 32 in *.
    change (Z.of_nat (32 `min` 64)) with 32 in *.
    change (16 ^ 32) with (2 ^ 128) in *.
    repeat split; try lia.
Qed.

End AddressFacts.

(** The USDC contract on Ethereum and the Starknet token messenger of the
    registry migration. *)
Lemma address_roundtrip_witness :
  let a := "a0b86991c6218b36c1d19d4a2e9eb0ce3606eb48" in
  let w := "06a1d71e3815f63282f70e35ff3dc2e8cbb6c7e90880bb1e12a1c30ecb92b3d5" in
  isHex a = true ∧ String.length a = 40%nat ∧
  isHex w = true ∧ String.length w = 64%nat ∧
  ∃ lo hi,
    Starknet.evmAddressToU256 (H := Samples.library) ("0x" +:+ a) = Returned (pretty lo, pretty hi) ∧
    lo + hi * 2 ^ 128 = hexValue a ∧ 0 ≤ lo < 2 ^ 128 ∧ 0 ≤ hi < 2 ^ 32.
Proof.
  intros a w.
  split; [reflexivity|]. split; [reflexivity|].
  split; [reflexivity|]. split; [reflexivity|].
  exact (proj1 (proj2 (proj2 (proj2
    (address_roundtrip (H := Samples.library) a w eq_refl eq_refl eq_refl eq_refl))))).
Defined.

(** ** Felt arrays *)

Section FeltFacts.

(** The loop, entered at [i] with enough fuel for the digits left, pushes
    the digits from [i] on, in chunks. *)
Lemma hexToFeltArray_loop_spec fuel cleanHex i :
  (String.length cleanHex - i < fuel)%nat →
  payloads (Starknet.hexToFeltArray_loop fuel cleanHex i) = drop i cleanHex ∧
  Forall chunkOk (Starknet.hexToFeltArray_loop fuel cleanHex i).
Proof.
  revert i. induction fuel as [|fuel IH]; intros i Hfuel; [lia|].
  cbn [Starknet.hexToFeltArray_loop].
  destruct (i <? String.length cleanHex)%nat eqn:Hi.
  - apply Nat.ltb_lt in Hi.
    destruct (IH (i + 62)%nat ltac:(lia)) as [IHp IHf].
    unfold slice. replace (i + 62 - i)%nat with 62%nat by lia.
    split.
    + cbn [payloads]. rewrite IHp.
      change (payload ("0x" +:+ ?s)) with s.
      rewrite <- drop_drop. apply take_drop.
    + constructor; [|done]. split; [apply startsWith_0x|].
      change (payload ("0x" +:+ ?s)) with s.
      rewrite take_length, drop_length. lia.
  - apply Nat.ltb_ge in Hi. split; [|constructor].
    symmetry. by apply drop_all.
Qed.

(** The fuel [hexToFeltArray] gives its loop never runs out: more fuel
    gives the same chunks. *)
Lemma hexToFeltArray_loop_fuel fuel fuel' cleanHex i :
  (String.length cleanHex - i < fuel)%nat → (fuel ≤ fuel')%nat →
  Starknet.hexToFeltArray_loop fuel' cleanHex i
  = Starknet.hexToFeltArray_loop fuel cleanHex i.
Proof.
  revert fuel' i. induction fuel as [|fuel IH]; intros fuel' i Hfuel Hle; [lia|].
  destruct fuel' as [|fuel']; [lia|].
  cbn [Starknet.hexToFeltArray_loop].
  destruct (i <? String.length cleanHex)%nat eqn:Hi; [|done].
  apply Nat.ltb_lt in Hi. f_equal. apply IH; lia.
Qed.

Lemma hexToFeltArray_payloads hex :
  payloads (Starknet.hexToFeltArray hex) = JS.replace "0x" "" hex.
Proof.
  unfold Starknet.hexToFeltArray.
  by destruct (hexToFeltArray_loop_spec
                 (S (String.length (JS.replace "0x" "" hex)))
                 (JS.replace "0x" "" hex) 0 ltac:(lia)) as [-> _].
Qed.

Lemma hexToFeltArray_chunks hex : Forall chunkOk (Starknet.hexToFeltArray hex).
Proof.
  unfold Starknet.hexToFeltArray.
  by destruct (hexToFeltArray_loop_spec
                 (S (String.length (JS.replace "0x" "" hex)))
                 (JS.replace "0x" "" hex) 0 ltac:(lia)) as [_ ?].
Qed.

(** The calldata of a mint call determines both chunk lists. *)
Lemma felt_calldata_inj (m a m' a' : list string) :
  pretty (length m) :: m ++ pretty (length a) :: a
  = pretty (length m') :: m' ++ pretty (length a') :: a' →
  m = m' ∧ a = a'.
Proof.
  intros E. injection E as En E.
  apply (inj pretty) in En.
  apply app_inj_1 in E as [-> E]; [|done].
  by injection E as _ ->.
Qed.

(** C10. [hexToFeltArray] cuts a hex string, with or without its "0x",
    into chunks of at most 62 digits (31 bytes) whose payloads, read in
    order, are the digits of the input; and the calldata of
    [buildStarknetMintCall], in which each chunk list follows its length,
    determines the digits of the message and of the attestation. *)
Theorem hexToFeltArray_lossless (h : string) :
  isHex h = true →
  (Forall chunkOk (Starknet.hexToFeltArray h) ∧
   payloads (Starknet.hexToFeltArray h) = h) ∧
  (Forall chunkOk (Starknet.hexToFeltArray ("0x" +:+ h)) ∧
   payloads (Starknet.hexToFeltArray ("0x" +:+ h)) = h) ∧
  (∀ cache attestation call,
     Starknet.buildStarknetMintCall cache h attestation = Returned call →
     Starknet.calldata call
     = pretty (length (Starknet.hexToFeltArray h)) :: Starknet.hexToFeltArray h ++
       pretty (length (Starknet.hexToFeltArray attestation))
       :: Starknet.hexToFeltArray attestation ∧
     ∀ message' attestation',
       Starknet.buildStarknetMintCall cache message' attestation' = Returned call →
       JS.replace "0x" "" message' = h ∧
       JS.replace "0x" "" attestation' = JS.replace "0x" "" attestation).
Proof.
  intros Hh.
  assert (payloads (Starknet.hexToFeltArray h) = h) as Hp.
  { by rewrite hexToFeltArray_payloads, replace_0x_hex. }
  split; [|split].
  - split; [apply hexToFeltArray_chunks | done].
  - split; [apply hexToFeltArray_chunks|].
    by rewrite hexToFeltArray_payloads, replace_0x_prefixed.
  - intros cache attestation call Hcall.
    unfold Starknet.buildStarknetMintCall in *.
    destruct (AppConfig.getChainConfig cache Config.STARKNET_DOMAIN_ID); [|done].
    injection Hcall as <-. split; [done|].
    intros message' attestation' Hcall'.
    apply (inj Returned), (f_equal Starknet.calldata) in Hcall'.
    cbn [Starknet.calldata] in Hcall'.
    apply felt_calldata_inj in Hcall' as [Em Ea].
    rewrite <- !hexToFeltArray_payloads, Em, Ea. by rewrite Hp.
Qed.

End FeltFacts.

(** A message of 70 digits: one full chunk and one of 8 digits. *)
Lemma hexToFeltArray_lossless_witness :
  let h := "000000010000000000000019f0a1b2c3d4e5f60718293a4b5c6d7e8f9a0b1c2d3e4f5a" in
  isHex h = true ∧
  Forall chunkOk (Starknet.hexToFeltArray ("0x" +:+ h)) ∧
  payloads (Starknet.hexToFeltArray ("0x" +:+ h)) = h.
Proof.
  intros h. split; [reflexivity|].
  exact (proj1 (proj2 (hexToFeltArray_lossless h eq_refl))).
Defined.

(** ** Attestation client *)

Section ClientFacts.
Import Attestation.

Lemma hasValidAttestation_spec (a : option string) :
  hasValidAttestation a = true ↔
  ∃ s, a = Some s ∧ s ≠ "PENDING" ∧ startsWith s "0x" = true.
Proof.
  unfold hasValidAttestation. split.
  - destruct a as [s|]; [|done]. intros Hv.
    apply andb_prop in Hv as [Hv Hx]. apply andb_prop in Hv as [_ Hp].
    exists s. repeat split; [|done].
    apply negb_true_iff in Hp. by apply String.eqb_neq.
  - intros (s & -> & Hp & Hx). rewrite Hx.
    apply String.eqb_neq in Hp as ->.
    destruct s; [done|]. done.
Qed.

(** C9. When the message lookup returns a message, it is the first one of
    the response, and its attestation is the one of the response exactly
    when that is a string other than "PENDING" that starts with "0x"; the
    "PENDING" sentinel, a value without the "0x" and a missing value all come
    back as no attestation. *)
Theorem getMessageFromTx_attestation (reply : Fetch) (data : MessageResponse) :
  getMessageFromTx reply = Returned (Some data) →
  ∃ code text msg rest,
    reply = Response code text (Some (Some (msg :: rest))) ∧
    message data = api_message msg ∧
    eventNonce data = api_eventNonce msg ∧
    (api_attestation msg = Some "PENDING" → attestation data = None) ∧
    (∀ a, api_attestation msg = Some a → startsWith a "0x" = false →
          attestation data = None) ∧
    (api_attestation msg = None → attestation data = None) ∧
    (∀ a, attestation data = Some a ↔
          api_attestation msg = Some a ∧ a ≠ "PENDING" ∧ startsWith a "0x" = true).
Proof.
  unfold getMessageFromTx. intros Hr.
  destruct reply as [e|code text body]; [done|].
  destruct (code =? 404); [done|].
  destruct (negb (ok code)); [done|].
  destruct body as [[[|msg rest]|]|]; try done.
  injection Hr as <-. exists code, text, msg, rest. cbn.
  split; [done|]. split; [done|]. split; [done|].
  pose proof (hasValidAttestation_spec (api_attestation msg)) as Hv.
  destruct (hasValidAttestation (api_attestation msg)) eqn:Hvalid.
  - destruct (proj1 Hv eq_refl) as (s & Es & Hp & Hx). rewrite Es.
    split; [by intros [= ->]|].
    split; [intros a [= ->] Hn; congruence|].
    split; [done|].
    intros a. split; [by intros [= ->] | by intros [[= ->] _]].
  - split; [done|]. split; [done|]. split; [done|].
    intros a. split; [done|].
    intros (Ea & Hp & Hx). assert (true = false); [|done].
    rewrite <- Hvalid. symmetry. apply hasValidAttestation_spec. eauto.
Qed.

End ClientFacts.

(** A response whose first message is still "PENDING", and one that carries
    the attestation. *)
Lemma getMessageFromTx_attestation_witness :
  let pendingMsg := Attestation.mkApiMessage "0x0001" (Some "PENDING") "7" 2 "pending_confirmations" in
  let reply := Attestation.Response 200 "OK" (Some (Some [pendingMsg])) in
  let data := Attestation.mkMessageResponse "0x0001" "7" "pending_confirmations" None in
  Attestation.getMessageFromTx reply = Returned (Some data) ∧
  ∃ code text msg rest,
    reply = Attestation.Response code text (Some (Some (msg :: rest))) ∧
    (Attestation.api_attestation msg = Some "PENDING" →
     Attestation.attestation data = None).
Proof.
  intros pendingMsg reply data. split; [reflexivity|].
  destruct (getMessageFromTx_attestation reply data eq_refl)
    as (code & text & msg & rest & Er & _ & _ & Hp & _).
  by exists code, text, msg, rest.
Defined.

(** ** Orchestrator *)

Section ServiceFacts.
Context `{Library}.
Import Service.

Lemma update_rows stmt set bridgeId db :
  rows (update stmt set bridgeId db) = alter set bridgeId (rows db).
Proof. done. Qed.

Lemma update_lookup stmt set bridgeId db :
  rows (update stmt set bridgeId db) !! bridgeId = set <$> rows db !! bridgeId.
Proof. unfold update. cbn [rows]. apply lookup_alter_eq. Qed.

Lemma update_lookup_ne stmt set bridgeId other db :
  bridgeId ≠ other →
  rows (update stmt set bridgeId db) !! other = rows db !! other.
Proof. intros Hne. unfold update. cbn [rows]. by apply lookup_alter_ne. Qed.

(** The early return of [checkAttestation]. *)
Lemma checkAttestation_done w bridgeId db tx :
  rows db !! bridgeId = Some tx →
  attestationStatus tx = att_complete ∨ status tx = completed →
  dbUp w = true →
  checkAttestation w bridgeId db = (db, Returned (attestation tx)).
Proof.
  intros Htx Hdone Hw. unfold checkAttestation, getTransaction. rewrite Hw, Htx.
  destruct Hdone as [-> | ->]; [done|].
  by destruct (bool_decide (attestationStatus tx = att_complete)).
Qed.

(** C3. On a transaction whose attestation status is complete, or whose
    status is completed, [checkAttestation] returns the stored attestation
    and leaves the store as it was, rows and write log; so does a second
    call after it. *)
Theorem checkAttestation_complete_noop (w w' : World) (bridgeId : string)
    (db : Db) (tx : BridgeTransaction) :
  rows db !! bridgeId = Some tx →
  attestationStatus tx = att_complete ∨ status tx = completed →
  dbUp w = true → dbUp w' = true →
  checkAttestation w bridgeId db = (db, Returned (attestation tx)) ∧
  checkAttestation w' bridgeId (checkAttestation w bridgeId db).1
  = (db, Returned (attestation tx)).
Proof.
  intros Htx Hdone Hw Hw'.
  rewrite (checkAttestation_done w bridgeId db tx Htx Hdone Hw). cbn [fst].
  split; [done|]. by apply checkAttestation_done.
Qed.

(** When the store does not answer, [checkAttestation] throws and writes
    nothing either. *)
Lemma checkAttestation_store_down w bridgeId db :
  dbUp w = false → checkAttestation w bridgeId db = (db, Threw "store").
Proof. intros Hw. unfold checkAttestation, getTransaction. by rewrite Hw. Qed.

End ServiceFacts.

(** The stored attestation of the sample transfer, once attested. *)
Lemma checkAttestation_complete_noop_witness :
  ∃ tx,
    Service.rows Samples.attestedDb !! "tx-1" = Some tx ∧
    Service.attestation tx = Some "0xa77e57" ∧
    Service.checkAttestation (H := Samples.library) Samples.notFound "tx-1"
      (Service.checkAttestation (H := Samples.library) Samples.attestedReply "tx-1"
         Samples.attestedDb).1
    = (Samples.attestedDb, Returned (Some "0xa77e57")).
Proof.
  eexists. split; [reflexivity|]. split; [reflexivity|].
  refine (proj2 (checkAttestation_complete_noop (H := Samples.library)
                   Samples.attestedReply Samples.notFound "tx-1" Samples.attestedDb _
                   eq_refl (or_introl eq_refl) eq_refl eq_refl)).
Defined.

(** ** Burn route *)

Section BurnFacts.
Context `{Library}.
Import Service BurnRoute.

(** What a recorded burn leaves in the row. *)
Lemma recordBurnTx_row w bridgeId txHash messageBytes nonce db tx :
  dbUp w = true → rows db !! bridgeId = Some tx →
  ∃ bytes hash nonce',
    recordBurnTx w bridgeId txHash messageBytes nonce db
    = (update (UpdateBurn bridgeId) (setBurn txHash bytes hash nonce' (now w)) bridgeId db,
       Returned tt).
Proof.
  intros Hw Htx. unfold recordBurnTx, getTransaction. rewrite Hw, Htx. eauto.
Qed.

(** The route refuses a transfer whose burn hash is recorded, and writes
    nothing. *)
Lemma POST_rejects_recorded w bridgeId hash messageBytes nonce db tx :
  truthy (Some hash) = true → dbUp w = true →
  rows db !! bridgeId = Some tx → truthy (burnTxHash tx) = true →
  POST w bridgeId (Some hash) messageBytes nonce db
  = (db, BurnError 400 "Burn transaction already recorded").
Proof.
  intros Hhash Hw Htx Hburn. unfold POST, getTransaction.
  by rewrite Hhash, Hw, Htx, Hburn.
Qed.

(** C5. Once the burn route has recorded the hash of a transfer, a second
    request with the same id and hash is answered with the error "Burn
    transaction already recorded" and the store is left as the first request
    left it: the row keeps its burn hash and its status burned, and nothing is
    written. *)
Theorem burn_twice_rejected (w1 w2 : World) (bridgeId hash : string)
    (messageBytes1 nonce1 messageBytes2 nonce2 : option string) (db db1 : Db) :
  POST w1 bridgeId (Some hash) messageBytes1 nonce1 db = (db1, BurnRecorded bridgeId) →
  dbUp w2 = true →
  POST w2 bridgeId (Some hash) messageBytes2 nonce2 db1
  = (db1, BurnError 400 "Burn transaction already recorded") ∧
  ∃ tx1, rows db1 !! bridgeId = Some tx1 ∧
         burnTxHash tx1 = Some hash ∧ status tx1 = burned.
Proof.
  intros Hfirst Hw2. unfold POST in Hfirst.
  destruct (truthy (Some hash)) eqn:Hhash; [|done]. cbn [negb] in *.
  unfold getTransaction in Hfirst at 1.
  destruct (dbUp w1) eqn:Hw1; [|done].
  destruct (rows db !! bridgeId) as [tx|] eqn:Htx; [|done].
  destruct (truthy (burnTxHash tx)); [done|].
  destruct (recordBurnTx_row w1 bridgeId hash messageBytes1 nonce1 db tx Hw1 Htx)
    as (bytes & h & n & Hrec).
  rewrite Hrec in Hfirst. injection Hfirst as <-.
  assert (rows (update (UpdateBurn bridgeId) (setBurn hash bytes h n (now w1)) bridgeId db)
            !! bridgeId = Some (setBurn hash bytes h n (now w1) tx)) as Hrow.
  { by rewrite update_lookup, Htx. }
  split; [|by eauto].
  by apply (POST_rejects_recorded w2 bridgeId hash messageBytes2 nonce2 _ _ Hhash Hw2 Hrow).
Qed.

(** The service method alone has no such check: called again, it writes
    the row again. *)
Lemma recordBurnTx_unguarded w bridgeId txHash messageBytes nonce db tx :
  dbUp w = true → rows db !! bridgeId = Some tx →
  ∃ db', recordBurnTx w bridgeId txHash messageBytes nonce db = (db', Returned tt) ∧
         writes db' = writes db ++ [UpdateBurn bridgeId] ∧
         (status <$> rows db' !! bridgeId) = Some burned.
Proof.
  intros Hw Htx.
  destruct (recordBurnTx_row w bridgeId txHash messageBytes nonce db tx Hw Htx)
    as (bytes & h & n & ->).
  eexists. split; [done|]. split; [done|]. by rewrite update_lookup, Htx.
Qed.

End BurnFacts.

(** The hash "0xb01" reported twice for the sample transfer. *)
Lemma burn_twice_rejected_witness :
  BurnRoute.POST (H := Samples.library) Samples.notFound "tx-1" (Some "0xb01") None None
    Samples.initiatedDb
  = (Samples.burnedDb, BurnRoute.BurnRecorded "tx-1") ∧
  Service.dbUp Samples.attestedReply = true ∧
  BurnRoute.POST (H := Samples.library) Samples.attestedReply "tx-1" (Some "0xb01")
    (Some "0x0002") (Some "8") Samples.burnedDb
  = (Samples.burnedDb, BurnRoute.BurnError 400 "Burn transaction already recorded").
Proof.
  split; [reflexivity|]. split; [reflexivity|].
  exact (proj1 (burn_twice_rejected (H := Samples.library) Samples.notFound
                  Samples.attestedReply "tx-1" "0xb01" None None (Some "0x0002")
                  (Some "8") Samples.initiatedDb Samples.burnedDb eq_refl eq_refl)).
Defined.

(** ** Initiation *)

Section InitiateFacts.
Context `{Library}.
Import AppConfig Config Service.

(** The route check of [initiateBridge] comes first and writes nothing. *)
Lemma initiateBridge_invalid_pair cache bridgeId w params db :
  isValidBridgePair (p_sourceDomain params) (p_destDomain params) = false →
  initiateBridge cache bridgeId w params db
  = (db, Threw "Invalid bridge pair: must involve Starknet").
Proof. intros Hp. unfold initiateBridge. by rewrite Hp. Qed.

(** With a valid pair, registered chains and an amount [BigInt] reads, the
    row is inserted and the outcome is the one of the payload builder for the
    source chain, called with the selected threshold and fee. *)
Lemma initiateBridge_valid cache bridgeId w params db sourceConfig destConfig amount :
  isValidBridgePair (p_sourceDomain params) (p_destDomain params) = true →
  cache !! p_sourceDomain params = Some sourceConfig →
  cache !! p_destDomain params = Some destConfig →
  dbUp w = true →
  BigInt (p_amount params) = Some amount →
  initiateBridge cache bridgeId w params db
  = ({| rows := <[bridgeId := newTransaction bridgeId (now w) params]> (rows db);
        writes := writes db ++ [InsertTransaction bridgeId] |},
     bind (buildBurnTxData cache sourceConfig
             {| Evm.amount := amount;
                Evm.destinationDomain := p_destDomain params;
                Evm.mintRecipient := p_recipientAddress params;
                Evm.burnToken := usdc sourceConfig;
                Evm.destinationCaller := None;
                Evm.userAddress := p_userAddress params;
                Evm.minFinalityThreshold := Some (selectedMinFinalityThreshold params);
                Evm.maxFee := Some (selectedMaxFee params) |})
          (λ txData, Returned (bridgeId, txData))).
Proof.
  intros Hp Hs Hd Hw Ha. unfold initiateBridge, getChainConfig.
  by rewrite Hp, Hs, Hd, Hw, Ha.
Qed.

(** The deposit_for_burn call of Starknet ends with the fee, as two limbs,
    and the threshold it was given. *)
Lemma buildStarknetBurnCall_tail cache params call fee threshold :
  Starknet.maxFee params = Some fee →
  Starknet.minFinalityThreshold params = Some threshold →
  Starknet.buildStarknetBurnCall cache params = Returned call →
  ∃ u, Starknet.cairo_uint256 fee = Returned u ∧
       list.drop 8 (Starknet.calldata call)
       = [pretty (Starknet.low u); pretty (Starknet.high u); pretty threshold].
Proof.
  intros Hfee Hthr. unfold Starknet.buildStarknetBurnCall.
  destruct (getChainConfig cache STARKNET_DOMAIN_ID); [|done].
  destruct (getChainConfig cache (Starknet.destinationDomain params)); [|done].
  destruct (Starknet.toUint256 (Starknet.amount params)); cbn [bind]; [|done].
  match goal with |- context [bind ?o _] => destruct o; cbn [bind]; [|done] end.
  rewrite Hfee, Hthr. cbn [from_option Datatypes.id]. unfold Starknet.toUint256.
  destruct (Starknet.cairo_uint256 fee) as [u|]; cbn [bind]; [|done].
  intros [= <-]. by exists u.
Qed.

(** C6. The threshold and the fee [initiateBridge] selects depend on the
    fast flag only: 1000 (the FAST constant) and 10000 units for a fast
    transfer, which is also what a missing flag means, 2000 (the STANDARD
    constant) and 0 for a standard one; two requests with the same flag get
    the same selection; and these are the values handed to the payload
    builder of the source chain. *)
Theorem finality_selection (params : InitiateBridgeParams) :
  isFast params = match p_isFastTransfer params with Some false => false | _ => true end ∧
  selectedMinFinalityThreshold params
  = (if isFast params then Evm.FINALITY_THRESHOLD_FAST
     else Evm.FINALITY_THRESHOLD_STANDARD) ∧
  selectedMinFinalityThreshold params = (if isFast params then 1000 else 2000) ∧
  selectedMaxFee params = (if isFast params then 10000 else 0) ∧
  (∀ params', isFast params' = isFast params →
     selectedMinFinalityThreshold params' = selectedMinFinalityThreshold params ∧
     selectedMaxFee params' = selectedMaxFee params) ∧
  (∀ cache bridgeId w db sourceConfig destConfig amount,
     isValidBridgePair (p_sourceDomain params) (p_destDomain params) = true →
     cache !! p_sourceDomain params = Some sourceConfig →
     cache !! p_destDomain params = Some destConfig →
     dbUp w = true →
     BigInt (p_amount params) = Some amount →
     (initiateBridge cache bridgeId w params db).2
     = bind (buildBurnTxData cache sourceConfig
               {| Evm.amount := amount;
                  Evm.destinationDomain := p_destDomain params;
                  Evm.mintRecipient := p_recipientAddress params;
                  Evm.burnToken := usdc sourceConfig;
                  Evm.destinationCaller := None;
                  Evm.userAddress := p_userAddress params;
                  Evm.minFinalityThreshold :=
                    Some (if isFast params then 1000 else 2000);
                  Evm.maxFee := Some (if isFast params then 10000 else 0) |})
            (λ txData, Returned (bridgeId, txData))).
Proof.
  split; [done|]. split; [by unfold selectedMinFinalityThreshold; destruct (isFast params)|].
  split; [done|]. split; [done|]. split.
  - intros params' E. unfold selectedMinFinalityThreshold, selectedMaxFee. by rewrite E.
  - intros cache bridgeId w db sourceConfig destConfig amount Hp Hs Hd Hw Ha.
    by rewrite (initiateBridge_valid _ _ _ _ _ _ _ _ Hp Hs Hd Hw Ha).
Qed.

End InitiateFacts.

(** The fast transfer of the samples: threshold 1000 and fee 10000 reach the
    builder. *)
Lemma finality_selection_witness :
  Config.isValidBridgePair 25 0 = true ∧
  Samples.registry !! 25 = Some Samples.starknetChain ∧
  Samples.registry !! 0 = Some Samples.ethereum ∧
  Service.dbUp Samples.notFound = true ∧
  BigInt (H := Samples.library) "1000000" = Some 1000000 ∧
  (Service.initiateBridge (H := Samples.library) Samples.registry "tx-1"
     Samples.notFound Samples.transfer Samples.emptyDb).2
  = bind (Service.buildBurnTxData (H := Samples.library) Samples.registry
            Samples.starknetChain
            {| Evm.amount := 1000000;
               Evm.destinationDomain := 0;
               Evm.mintRecipient := "0xa0b86991c6218b36c1d19d4a2e9eb0ce3606eb48";
               Evm.burnToken := AppConfig.usdc Samples.starknetChain;
               Evm.destinationCaller := None;
               Evm.userAddress := Service.p_userAddress Samples.transfer;
               Evm.minFinalityThreshold := Some 1000;
               Evm.maxFee := Some 10000 |})
         (λ txData, Returned ("tx-1", txData)).
Proof.
  split; [reflexivity|]. split; [reflexivity|]. split; [reflexivity|].
  split; [reflexivity|]. split; [reflexivity|].
  exact (proj2 (proj2 (proj2 (proj2 (proj2
    (finality_selection (H := Samples.library) Samples.transfer)))))
    Samples.registry "tx-1" Samples.notFound Samples.emptyDb
    Samples.starknetChain Samples.ethereum 1000000
    eq_refl eq_refl eq_refl eq_refl eq_refl).
Defined.

(** ** Backoff *)

Section BackoffFacts.
Import Worker.







End BackoffFacts.



(** ** Poller *)

Section WorkerFacts.
Context `{Library}.
Import Service Worker.

(** [checkAttestation] leaves the store alone or rewrites the one row. *)
Lemma checkAttestation_store w bridgeId db :
  (checkAttestation w bridgeId db).1 = db ∨
  ∃ stmt set, (checkAttestation w bridgeId db).1 = update stmt set bridgeId db.
Proof.
  unfold checkAttestation.
  destruct (getTransaction w bridgeId db) as [[tx|]|]; [|by left..].
  destruct (_ || _); [by left|].
  destruct (negb _); [by left|].
  destruct (Attestation.getMessageFromTx (reply w)) as [[messageData|]|];
    [|right; eauto|by left].
  destruct (Attestation.attestation messageData) as [att|]; [|right; eauto].
  destruct (truthy (Some att)); right; eauto.
Qed.

(** Rows are never deleted. *)
Lemma checkAttestation_row w bridgeId db tx :
  rows db !! bridgeId = Some tx →
  ∃ tx', rows (checkAttestation w bridgeId db).1 !! bridgeId = Some tx'.
Proof.
  intros Htx. destruct (checkAttestation_store w bridgeId db) as [-> | (stmt & set & ->)].
  - eauto.
  - rewrite update_lookup, Htx. eauto.
Qed.

(** A call that returns found the store up. *)
Lemma checkAttestation_returned w bridgeId db att :
  (checkAttestation w bridgeId db).2 = Returned att → dbUp w = true.
Proof.
  unfold checkAttestation, getTransaction. by destruct (dbUp w).
Qed.

Lemma markFailed_row w bridgeId reason db tx :
  dbUp w = true → rows db !! bridgeId = Some tx →
  rows (markFailed w bridgeId reason db).1 !! bridgeId
  = Some (setFailed reason (now w) tx) ∧
  writes (markFailed w bridgeId reason db).1 = writes db ++ [UpdateFailed bridgeId].
Proof.
  intros Hw Htx. unfold markFailed. rewrite Hw. cbn [fst].
  by rewrite update_lookup, Htx.
Qed.

(** One "not ready" poll of a tracked job: below the maximum the job stays
    with one more attempt; at the maximum it is removed and the transfer is
    marked failed. *)
Lemma processJob_notReady tick bridgeId st job tx att :
  jobs st !! bridgeId = Some job → job_id job = bridgeId →
  rows (db st) !! bridgeId = Some tx →
  polled tick bridgeId st = Returned att → truthy att = false →
  ∃ tx1,
    rows (checkAttestation (world tick) bridgeId (db st)).1 !! bridgeId = Some tx1 ∧
    if MAX_ATTEMPTS <=? attempts job + 1
    then jobs (processJob tick bridgeId st) !! bridgeId = None ∧
         rows (db (processJob tick bridgeId st)) !! bridgeId
         = Some (setFailed timeoutMessage (now (world tick)) tx1) ∧
         last (writes (db (processJob tick bridgeId st))) = Some (UpdateFailed bridgeId)
    else jobs (processJob tick bridgeId st) !! bridgeId = Some (retryLater tick job) ∧
         rows (db (processJob tick bridgeId st)) !! bridgeId = Some tx1.
Proof.
  intros Hjob Hid Htx Hpolled Hatt.
  unfold polled in Hpolled. unfold processJob. rewrite Hjob in *. rewrite Hid in *.
  destruct (checkAttestation_row (world tick) bridgeId (db st) tx Htx) as [tx1 Htx1].
  pose proof (checkAttestation_returned _ _ _ _ Hpolled) as Hup.
  destruct (checkAttestation (world tick) bridgeId (db st)) as [db1 r].
  cbn [fst snd] in *. subst r. rewrite Hatt.
  exists tx1. split; [done|].
  destruct (MAX_ATTEMPTS <=? attempts job + 1); cbn [jobs db].
  - destruct (markFailed_row (world tick) bridgeId timeoutMessage db1 tx1 Hup Htx1)
      as [Hrow Hlog].
    split; [apply lookup_delete_eq|]. split; [done|].
    rewrite Hlog. apply last_snoc.
  - split; [apply lookup_insert_eq | done].
Qed.

(** C8. A tracked job whose check answers "not ready" at every poll (no
    attestation, no exception) is polled [120 - attempts] times (once when
    its count is already 119 or more); until the last of these polls it
    stays in the job set with one more attempt each time; the last poll
    removes it and marks the transfer failed with the message "Attestation
    timeout after 120 attempts". *)
Theorem poll_exhaustion (bridgeId : string) (ticks : list Tick) (st : State)
    (job : AttestationJob) (tx : BridgeTransaction) :
  jobs st !! bridgeId = Some job → job_id job = bridgeId →
  rows (db st) !! bridgeId = Some tx →
  length ticks = Z.to_nat (Z.max 1 (MAX_ATTEMPTS - attempts job)) →
  notReady bridgeId ticks st →
  (∀ k, (k < length ticks)%nat →
     ∃ job', jobs (poll bridgeId (list.take k ticks) st) !! bridgeId = Some job' ∧
             attempts job' = attempts job + Z.of_nat k) ∧
  jobs (poll bridgeId ticks st) !! bridgeId = None ∧
  ∃ tx',
    rows (db (poll bridgeId ticks st)) !! bridgeId = Some tx' ∧
    status tx' = failed ∧
    errorMessage tx' = Some "Attestation timeout after 120 attempts" ∧
    last (writes (db (poll bridgeId ticks st))) = Some (UpdateFailed bridgeId).
Proof.
  revert st job tx.
  induction ticks as [|tick ticks IH]; intros st job tx Hjob Hid Htx Hlen Hnot.
  { simpl in Hlen. lia. }
  destruct Hnot as [(att & Hpolled & Hatt) Hnot].
  destruct (processJob_notReady tick bridgeId st job tx att Hjob Hid Htx Hpolled Hatt)
    as (tx1 & Htx1 & Hstep).
  cbn [poll]. cbn [length] in Hlen.
  destruct (MAX_ATTEMPTS <=? attempts job + 1) eqn:Hmax.
  - apply Z.leb_le in Hmax. destruct Hstep as (Hgone & Hrow & Hlog).
    assert (ticks = []) as -> by (apply length_zero_iff_nil; lia).
    cbn [poll length]. split; [|split; [done|]].
    + intros k Hk. assert (k = 0%nat) as -> by lia.
      exists job. cbn [firstn poll]. split; [done | lia].
    + eexists. split; [exact Hrow|]. done.
  - apply Z.leb_gt in Hmax. destruct Hstep as (Hkept & Hrow).
    destruct (IH (processJob tick bridgeId st) (retryLater tick job) tx1)
      as (Hprefix & Hgone & Hfailed); try done.
    { cbn [retryLater attempts]. lia. }
    split; [|done].
    intros [|k] Hk.
    + exists job. cbn [firstn poll]. split; [done | lia].
    + destruct (Hprefix k ltac:(cbn [length] in Hk; lia)) as (job' & Hjob' & Hcount).
      exists job'. cbn [firstn poll]. split; [done|].
      rewrite Hcount. cbn [retryLater attempts]. lia.
Qed.

(** When the collaborator has no attestation to give and the store answers,
    a transfer that awaits its attestation gets "not ready", and still awaits
    it afterwards. *)
Lemma checkAttestation_pending w bridgeId db tx :
  dbUp w = true → pendingReply (reply w) →
  rows db !! bridgeId = Some tx → awaitingAttestation tx →
  (checkAttestation w bridgeId db).2 = Returned None ∧
  ∃ tx', rows (checkAttestation w bridgeId db).1 !! bridgeId = Some tx' ∧
         awaitingAttestation tx'.
Proof.
  intros Hup Hreply Htx Hwait. pose proof Hwait as [Hatt Hst].
  unfold checkAttestation, getTransaction.
  rewrite Hup, Htx. rewrite !bool_decide_eq_false_2 by done. cbn [orb].
  destruct (negb _); [by eauto|].
  unfold pendingReply in Hreply.
  destruct (Attestation.getMessageFromTx (reply w)) as [[messageData|]|].
  - rewrite Hreply. cbn [fst snd]. split; [done|].
    rewrite update_lookup, Htx. eexists. split; [done|]. by split.
  - cbn [fst snd]. split; [done|].
    rewrite update_lookup, Htx. eexists. split; [done|]. by split.
  - by eauto.
Qed.

(** So a collaborator that never has the attestation makes every poll of a
    run "not ready". *)
Lemma notReady_pending bridgeId ticks st job tx :
  jobs st !! bridgeId = Some job → job_id job = bridgeId →
  rows (db st) !! bridgeId = Some tx → awaitingAttestation tx →
  Forall (λ tick, dbUp (world tick) = true ∧ pendingReply (reply (world tick))) ticks →
  (length ticks ≤ Z.to_nat (Z.max 1 (MAX_ATTEMPTS - attempts job)))%nat →
  notReady bridgeId ticks st.
Proof.
  revert st job tx.
  induction ticks as [|tick ticks IH]; intros st job tx Hjob Hid Htx Hwait Hall Hlen;
    [done|].
  apply Forall_cons in Hall as [[Hup Hreply] Hall].
  destruct (checkAttestation_pending (world tick) bridgeId (db st) tx Hup Hreply Htx Hwait)
    as (Hres & tx' & Htx' & Hwait').
  assert (polled tick bridgeId st = Returned None) as Hpolled.
  { unfold polled. by rewrite Hjob, Hid. }
  cbn [notReady]. split; [by exists None|].
  destruct ticks as [|tick' ticks']; [done|].
  destruct (processJob_notReady tick bridgeId st job tx None Hjob Hid Htx Hpolled eq_refl)
    as (tx1 & Htx1 & Hstep).
  cbn [length] in Hlen.
  destruct (MAX_ATTEMPTS <=? attempts job + 1) eqn:Hmax.
  { apply Z.leb_le in Hmax. lia. }
  apply Z.leb_gt in Hmax. destruct Hstep as [Hkept Hrow].
  apply (IH _ (retryLater tick job) tx1); try done.
  - rewrite Htx' in Htx1. by simplify_eq.
  - cbn [retryLater attempts length]. lia.
Qed.

End WorkerFacts.

(** The sample job, two polls away from the maximum, with a service that
    answers 404. *)
Lemma poll_exhaustion_witness :
  let st := Samples.tracked 118 in
  let ticks := [Samples.tick404; Samples.tick404] in
  ∃ job tx,
    Worker.jobs st !! "tx-1" = Some job ∧ Worker.job_id job = "tx-1" ∧
    Service.rows (Worker.db st) !! "tx-1" = Some tx ∧
    length ticks = Z.to_nat (Z.max 1 (Worker.MAX_ATTEMPTS - Worker.attempts job)) ∧
    Worker.notReady (H := Samples.library) "tx-1" ticks st ∧
    Worker.jobs (Worker.poll (H := Samples.library) "tx-1" ticks st) !! "tx-1" = None.
Proof.
  intros st ticks.
  assert (Worker.notReady (H := Samples.library) "tx-1" ticks st) as Hnot.
  { split; [by exists None|]. split; [by exists None|]. exact I. }
  eexists _, _.
  split; [reflexivity|]. split; [reflexivity|]. split; [reflexivity|].
  split; [reflexivity|]. split; [exact Hnot|].
  exact (proj1 (proj2 (poll_exhaustion (H := Samples.library) "tx-1" ticks st _ _
                         eq_refl eq_refl eq_refl eq_refl Hnot))).
Defined.

(** ** Status order *)

Section StatusFacts.
Context `{Library}.
Import Service.

Lemma advances_refl s : advances s s.
Proof. destruct s; (by left) || (right; split; [done | simpl; lia]). Qed.

(** Whatever the current status is, an operation leaves it or writes its
    target. *)
Lemma apply_status bridgeId db call tx :
  rows db !! bridgeId = Some tx →
  ∃ tx', rows (apply bridgeId db call) !! bridgeId = Some tx' ∧
         (status tx' = status tx ∨ status tx' = target call.2).
Proof.
  intros Htx. destruct call as [w op]. unfold apply. cbn [fst snd].
  destruct op as [txHash messageBytes nonce| |txHash|reason]; cbn [target].
  - unfold recordBurnTx, getTransaction. destruct (dbUp w); [|by eauto].
    rewrite Htx. cbn [fst]. rewrite update_lookup, Htx. by eauto.
  - unfold checkAttestation, getTransaction. destruct (dbUp w); [|by eauto].
    rewrite Htx. destruct (_ || _); [by eauto|]. destruct (negb _); [by eauto|].
    destruct (Attestation.getMessageFromTx (reply w)) as [[messageData|]|];
      [|cbn [fst]; rewrite update_lookup, Htx; by eauto|by eauto].
    destruct (Attestation.attestation messageData) as [att|];
      [destruct (truthy (Some att))|];
      cbn [fst]; rewrite update_lookup, Htx; by eauto.
  - unfold recordMintTx. destruct (dbUp w); [|by eauto].
    cbn [fst]. rewrite update_lookup, Htx. by eauto.
  - unfold markFailed. destruct (dbUp w); [|by eauto].
    cbn [fst]. rewrite update_lookup, Htx. by eauto.
Qed.

(** [checkAttestation] only reads a transaction whose attestation is
    complete or that is completed. *)
Lemma apply_checkAttestation_done bridgeId db w tx :
  rows db !! bridgeId = Some tx →
  attestationStatus tx = att_complete ∨ status tx = completed →
  apply bridgeId db (w, CheckAttestation) = db.
Proof.
  intros Htx Hdone. unfold apply. cbn [fst snd].
  destruct (dbUp w) eqn:Hw.
  - by rewrite (checkAttestation_done w bridgeId db tx Htx Hdone Hw).
  - by rewrite checkAttestation_store_down.
Qed.

(** A call that comes in order does not make the status regress. *)
Lemma apply_in_order bridgeId db call tx :
  rows db !! bridgeId = Some tx → inOrder tx call.2 →
  ∃ tx', rows (apply bridgeId db call) !! bridgeId = Some tx' ∧
         advances (status tx) (status tx').
Proof.
  intros Htx Hin.
  destruct (apply_status bridgeId db call tx Htx) as (tx' & Htx' & [Hs | Hs]).
  { exists tx'. split; [done|]. rewrite Hs. apply advances_refl. }
  destruct call as [w op]. cbn [snd] in *.
  destruct op as [txHash messageBytes nonce| |txHash|reason];
    cbn [inOrder target] in *.
  - exists tx'. split; [done|]. right. by rewrite Hs.
  - destruct Hin as [Hc | [Hc | Hin]].
    + rewrite (apply_checkAttestation_done bridgeId db w tx Htx (or_introl Hc)) in *.
      exists tx. split; [done|]. apply advances_refl.
    + rewrite (apply_checkAttestation_done bridgeId db w tx Htx (or_intror Hc)) in *.
      exists tx. split; [done|]. apply advances_refl.
    + exists tx'. split; [done|]. right. by rewrite Hs.
  - exists tx'. split; [done|]. right. by rewrite Hs.
  - exists tx'. split; [done|]. left. done.
Qed.

Lemma observedStatuses_cons bridgeId db call calls tx :
  rows db !! bridgeId = Some tx →
  observedStatuses bridgeId db (call :: calls)
  = status tx :: observedStatuses bridgeId (apply bridgeId db call) calls.
Proof. intros Htx. unfold observedStatuses. cbn [history omap list_omap]. by rewrite Htx. Qed.

Lemma observedStatuses_head bridgeId db calls tx :
  rows db !! bridgeId = Some tx →
  observedStatuses bridgeId db calls !! 0%nat = Some (status tx).
Proof.
  intros Htx. destruct calls as [|call calls].
  - unfold observedStatuses. cbn [history omap list_omap]. by rewrite Htx.
  - by rewrite (observedStatuses_cons _ _ _ _ tx).
Qed.

(** C1, as the code has it.  Each of the four methods leaves the status of
    the transaction or writes its own target (burned, attested, completed,
    failed), whatever the status was, and [checkAttestation] leaves the
    store alone when the attestation is complete or the transfer completed;
    so the statuses observed along a sequence of calls never regress, except
    into failed, provided every call comes in order: [recordBurnTx],
    [checkAttestation] and [recordMintTx] on a transaction that is not failed
    and not past the target of the call ([checkAttestation] also where it
    only reads). *)
Theorem status_monotone_in_order (bridgeId : string) (db : Db)
    (calls : list (World * Operation)) (tx : BridgeTransaction) :
  rows db !! bridgeId = Some tx →
  allInOrder bridgeId db calls →
  monotone (observedStatuses bridgeId db calls) ∧
  (∀ call db0 tx0, rows db0 !! bridgeId = Some tx0 →
     ∃ tx1, rows (apply bridgeId db0 call) !! bridgeId = Some tx1 ∧
            (status tx1 = status tx0 ∨ status tx1 = target call.2)) ∧
  (∀ w db0 tx0, rows db0 !! bridgeId = Some tx0 →
     attestationStatus tx0 = att_complete ∨ status tx0 = completed →
     apply bridgeId db0 (w, CheckAttestation) = db0).
Proof.
  intros Htx Hall. split.
  - revert db tx Htx Hall.
    induction calls as [|call calls IH]; intros db tx Htx Hall i s s' Hi Hi'.
    { unfold observedStatuses in Hi'. cbn [history omap list_omap] in Hi'.
      rewrite Htx in Hi'. done. }
    destruct Hall as [Hin Hall].
    destruct (apply_in_order bridgeId db call tx Htx (Hin tx Htx)) as (tx' & Htx' & Hadv).
    rewrite (observedStatuses_cons _ _ _ _ tx Htx) in Hi, Hi'.
    destruct i as [|i].
    + cbn in Hi. injection Hi as <-. cbn in Hi'.
      rewrite (observedStatuses_head _ _ _ tx' Htx') in Hi'. by injection Hi' as <-.
    + by apply (IH _ tx' Htx' Hall i).
  - split; [intros call db0 tx0 Htx0; by apply apply_status|].
    intros w db0 tx0 Htx0 Hdone. by eapply apply_checkAttestation_done.
Qed.

End StatusFacts.

(** The sample transfer through burn, attestation and mint. *)
Lemma status_monotone_in_order_witness :
  let calls :=
    [(Samples.notFound, Service.RecordBurnTx "0xb01" None None);
     (Samples.attestedReply, Service.CheckAttestation);
     (Samples.notFound, Service.RecordMintTx "0xc01")] in
  ∃ tx,
    Service.rows Samples.initiatedDb !! "tx-1" = Some tx ∧
    allInOrder (H := Samples.library) "tx-1" Samples.initiatedDb calls ∧
    observedStatuses (H := Samples.library) "tx-1" Samples.initiatedDb calls
    = [Service.initiated; Service.burned; Service.attested; Service.completed] ∧
    monotone (observedStatuses (H := Samples.library) "tx-1" Samples.initiatedDb calls).
Proof.
  intros calls.
  assert (allInOrder (H := Samples.library) "tx-1" Samples.initiatedDb calls) as Hall.
  { split; [intros tx [= <-]; vm_compute; split; [done | lia]|].
    split; [intros tx [= <-]; vm_compute; right; right; split; [done | lia]|].
    split; [intros tx [= <-]; vm_compute; split; [done | lia]|]. exact I. }
  eexists. split; [reflexivity|]. split; [exact Hall|]. split; [reflexivity|].
  exact (proj1 (status_monotone_in_order (H := Samples.library) "tx-1"
                  Samples.initiatedDb calls _ eq_refl Hall)).
Defined.

(** C1, as stated, fails: on the burned sample transfer, [markFailed]
    followed by [recordMintTx] and [recordBurnTx] takes the status from failed
    to completed and back to burned, and [markFailed] followed by a
    [checkAttestation] that finds the attestation takes it from failed to
    attested. *)
Lemma status_regresses :
  let calls :=
    [(Samples.notFound, Service.MarkFailed "gave up");
     (Samples.notFound, Service.RecordMintTx "0xc01");
     (Samples.notFound, Service.RecordBurnTx "0xb02" None None)] in
  let calls' :=
    [(Samples.notFound, Service.MarkFailed "gave up");
     (Samples.attestedReply, Service.CheckAttestation)] in
  observedStatuses (H := Samples.library) "tx-1" Samples.burnedDb calls
  = [Service.burned; Service.failed; Service.completed; Service.burned] ∧
  ¬ monotone (observedStatuses (H := Samples.library) "tx-1" Samples.burnedDb calls) ∧
  observedStatuses (H := Samples.library) "tx-1" Samples.burnedDb calls'
  = [Service.burned; Service.failed; Service.attested] ∧
  ¬ monotone (observedStatuses (H := Samples.library) "tx-1" Samples.burnedDb calls').
Proof.
  intros calls calls'.
  split; [reflexivity|]. split.
  { intros Hm.
    destruct (Hm 1%nat Service.failed Service.completed eq_refl eq_refl) as [|[]]; done. }
  split; [reflexivity|].
  intros Hm.
  destruct (Hm 1%nat Service.failed Service.attested eq_refl eq_refl) as [|[]]; done.
Qed.

(** ** Route validation *)

Section RouteFacts.
Context `{Library}.
Import AppConfig Config Service.

(** No payload builder throws the message of the route check. *)
Lemma cairo_uint256_benign v msg : Starknet.cairo_uint256 v = Threw msg → benign msg.
Proof. unfold Starknet.cairo_uint256. intros E. by throw_cases. Qed.

Lemma evmAddressToU256_benign a msg :
  Starknet.evmAddressToU256 a = Threw msg → benign msg.
Proof.
  unfold Starknet.evmAddressToU256. intros E.
  throw_cases; [by eapply cairo_uint256_benign | done].
Qed.

Lemma solanaAddressToU256_benign a msg :
  Starknet.solanaAddressToU256 a = Threw msg → benign msg.
Proof. unfold Starknet.solanaAddressToU256. intros E. by throw_cases. Qed.

Lemma buildStarknetBurnCall_benign cache p msg :
  Starknet.buildStarknetBurnCall cache p = Threw msg → benign msg.
Proof.
  unfold Starknet.buildStarknetBurnCall, Starknet.toUint256. intros E.
  throw_cases;
    eauto using cairo_uint256_benign, evmAddressToU256_benign,
      solanaAddressToU256_benign; done.
Qed.

Lemma buildStarknetApproveCall_benign cache spender a msg :
  Starknet.buildStarknetApproveCall cache spender a = Threw msg → benign msg.
Proof.
  unfold Starknet.buildStarknetApproveCall, Starknet.toUint256. intros E.
  throw_cases; eauto using cairo_uint256_benign; done.
Qed.

Lemma buildStarknetBurnMulticall_benign cache p msg :
  Starknet.buildStarknetBurnMulticall cache p = Threw msg → benign msg.
Proof.
  unfold Starknet.buildStarknetBurnMulticall. intros E.
  throw_cases;
    eauto using buildStarknetApproveCall_benign, buildStarknetBurnCall_benign; done.
Qed.

Lemma buildDepositForBurnTx_benign cache d p msg :
  Evm.buildDepositForBurnTx cache d p = Threw msg → benign msg.
Proof. unfold Evm.buildDepositForBurnTx. intros E. by throw_cases. Qed.

Lemma getApprovalTxData_benign a b c msg :
  Evm.getApprovalTxData a b c = Threw msg → benign msg.
Proof. unfold Evm.getApprovalTxData. intros E. by throw_cases. Qed.

Lemma buildSolanaBurnInstruction_benign cache p msg :
  Solana.buildSolanaBurnInstruction cache p = Threw msg → benign msg.
Proof. unfold Solana.buildSolanaBurnInstruction. intros E. by throw_cases. Qed.

Lemma buildBurnTxData_benign cache sourceConfig p msg :
  buildBurnTxData cache sourceConfig p = Threw msg → benign msg.
Proof.
  unfold buildBurnTxData. intros E.
  throw_cases;
    eauto using buildDepositForBurnTx_benign, getApprovalTxData_benign,
      buildStarknetBurnMulticall_benign, buildSolanaBurnInstruction_benign.
Qed.

(** The Starknet builder refuses a Starknet destination and the Solana
    builder a Solana one. *)
Lemma buildStarknetBurnCall_to_starknet cache p destConfig :
  cache !! Starknet.destinationDomain p = Some destConfig →
  type destConfig = starknet →
  ¬ succeeds (Starknet.buildStarknetBurnCall cache p).
Proof.
  intros Hd Ht [call Hcall]. unfold Starknet.buildStarknetBurnCall, getChainConfig in Hcall.
  rewrite Hd, Ht in Hcall.
  destruct (cache !! STARKNET_DOMAIN_ID); [|done].
  by destruct (Starknet.toUint256 (Starknet.amount p)).
Qed.

Lemma buildSolanaBurnInstruction_to_solana cache p destConfig :
  cache !! Solana.destinationDomain p = Some destConfig →
  type destConfig = solana →
  ¬ succeeds (Solana.buildSolanaBurnInstruction cache p).
Proof.
  intros Hd Ht [ix Hix]. unfold Solana.buildSolanaBurnInstruction, getChainConfig in Hix.
  rewrite Hd, Ht in Hix. by destruct (cache !! DOMAIN_SOLANA).
Qed.

Lemma buildBurnTxData_same_family cache config p :
  cache !! Evm.destinationDomain p = Some config →
  type config ≠ evm →
  ¬ succeeds (buildBurnTxData cache config p).
Proof.
  intros Hd Ht [txData Hb]. unfold buildBurnTxData in Hb.
  destruct (type config) eqn:Hty; [done| |].
  - destruct (Solana.buildSolanaBurnInstruction cache _) as [ix|] eqn:Hix; [|done].
    refine (buildSolanaBurnInstruction_to_solana _ _ config _ Hty (ex_intro _ ix Hix)).
    exact Hd.
  - destruct (Starknet.buildStarknetBurnMulticall cache _) as [calls|] eqn:Hm; [|done].
    unfold Starknet.buildStarknetBurnMulticall in Hm.
    destruct (getChainConfig cache STARKNET_DOMAIN_ID); [|done].
    destruct (Starknet.buildStarknetApproveCall cache _ _); [|done]. cbn [bind] in Hm.
    destruct (Starknet.buildStarknetBurnCall cache _) as [call|] eqn:Hcall; [|done].
    refine (buildStarknetBurnCall_to_starknet _ _ config _ Hty (ex_intro _ call Hcall)).
    exact Hd.
Qed.

Lemma isValidBridgePair_spec x y :
  isValidBridgePair x y = false ↔ x ≠ STARKNET_DOMAIN_ID ∧ y ≠ STARKNET_DOMAIN_ID.
Proof. unfold isValidBridgePair. rewrite orb_false_iff, !Z.eqb_neq. done. Qed.

(** The outcome of the amount parse and of the payload builder of the
    source chain, which [initiateBridge] returns once the row is inserted. *)
Lemma built_benign cache (bridgeId : string) params sourceConfig msg :
  match BigInt (p_amount params) with
  | None => Threw "SyntaxError: Cannot convert to a BigInt"
  | Some amount =>
      bind (buildBurnTxData cache sourceConfig
              {| Evm.amount := amount;
                 Evm.destinationDomain := p_destDomain params;
                 Evm.mintRecipient := p_recipientAddress params;
                 Evm.burnToken := usdc sourceConfig;
                 Evm.destinationCaller := None;
                 Evm.userAddress := p_userAddress params;
                 Evm.minFinalityThreshold := Some (selectedMinFinalityThreshold params);
                 Evm.maxFee := Some (selectedMaxFee params) |})
           (λ txData, Returned (bridgeId, txData))
  end = Threw msg → benign msg.
Proof.
  intros E. throw_cases; [by eapply buildBurnTxData_benign | done].
Qed.

(** The three ways [initiateBridge] can go. *)
Lemma initiateBridge_cases cache bridgeId w params db :
  let x := p_sourceDomain params in
  let y := p_destDomain params in
  let out := initiateBridge cache bridgeId w params db in
  (isValidBridgePair x y = false ∧
   out = (db, Threw "Invalid bridge pair: must involve Starknet")) ∨
  (isValidBridgePair x y = true ∧ ∃ msg, benign msg ∧ out = (db, Threw msg)) ∨
  (isValidBridgePair x y = true ∧
   ∃ sourceConfig destConfig,
     cache !! x = Some sourceConfig ∧ cache !! y = Some destConfig ∧ dbUp w = true ∧
     out.1 = {| rows := <[bridgeId := newTransaction bridgeId (now w) params]> (rows db);
                writes := writes db ++ [InsertTransaction bridgeId] |} ∧
     out.2 = match BigInt (p_amount params) with
             | None => Threw "SyntaxError: Cannot convert to a BigInt"
             | Some amount =>
                 bind (buildBurnTxData cache sourceConfig
                         {| Evm.amount := amount;
                            Evm.destinationDomain := y;
                            Evm.mintRecipient := p_recipientAddress params;
                            Evm.burnToken := usdc sourceConfig;
                            Evm.destinationCaller := None;
                            Evm.userAddress := p_userAddress params;
                            Evm.minFinalityThreshold :=
                              Some (selectedMinFinalityThreshold params);
                            Evm.maxFee := Some (selectedMaxFee params) |})
                      (λ txData, Returned (bridgeId, txData))
             end).
Proof.
  intros x y out. subst out. unfold initiateBridge, getChainConfig. fold x y.
  destruct (isValidBridgePair x y); cbn [negb]; [|by left].
  right.
  destruct (cache !! x) as [sourceConfig|];
    [destruct (cache !! y) as [destConfig|]|];
    [|left; split; [done|]; eexists; (split; [|reflexivity]); done..].
  destruct (dbUp w); cbn [negb];
    [|left; split; [done|]; eexists; (split; [|reflexivity]); done].
  right. split; [done|]. exists sourceConfig, destConfig.
  do 3 (split; [done|]).
  by destruct (BigInt (p_amount params)).
Qed.

(** C2, as the code has it.  [initiateBridge] throws the route error
    exactly when neither domain is Starknet, and then writes nothing.  A
    call that succeeds has at least one Starknet side, both domains
    registered and its row inserted; where domain 25 is registered as a
    Starknet or Solana chain, it has exactly one Starknet side.  With at
    least one Starknet side, both domains registered and the store up, the
    row is inserted and the outcome is the one of the amount parse and of
    the payload builder of the source chain. *)
Theorem initiateBridge_route_validation (cache : Registry) (bridgeId : string)
    (w : World) (params : InitiateBridgeParams) (db : Db) :
  let x := p_sourceDomain params in
  let y := p_destDomain params in
  let out := initiateBridge cache bridgeId w params db in
  let inserted :=
    {| rows := <[bridgeId := newTransaction bridgeId (now w) params]> (rows db);
       writes := writes db ++ [InsertTransaction bridgeId] |} in
  (invalidPair out.2 ↔ x ≠ STARKNET_DOMAIN_ID ∧ y ≠ STARKNET_DOMAIN_ID) ∧
  (invalidPair out.2 → out.1 = db) ∧
  (succeeds out.2 →
     (x = STARKNET_DOMAIN_ID ∨ y = STARKNET_DOMAIN_ID) ∧
     is_Some (cache !! x) ∧ is_Some (cache !! y) ∧ out.1 = inserted) ∧
  (∀ starknetConfig,
     cache !! STARKNET_DOMAIN_ID = Some starknetConfig → type starknetConfig ≠ evm →
     succeeds out.2 → exactlyOne x y) ∧
  (∀ sourceConfig destConfig,
     x = STARKNET_DOMAIN_ID ∨ y = STARKNET_DOMAIN_ID →
     cache !! x = Some sourceConfig → cache !! y = Some destConfig →
     dbUp w = true →
     out.1 = inserted ∧
     out.2 = match BigInt (p_amount params) with
             | None => Threw "SyntaxError: Cannot convert to a BigInt"
             | Some amount =>
                 bind (buildBurnTxData cache sourceConfig
                         {| Evm.amount := amount;
                            Evm.destinationDomain := y;
                            Evm.mintRecipient := p_recipientAddress params;
                            Evm.burnToken := usdc sourceConfig;
                            Evm.destinationCaller := None;
                            Evm.userAddress := p_userAddress params;
                            Evm.minFinalityThreshold :=
                              Some (selectedMinFinalityThreshold params);
                            Evm.maxFee := Some (selectedMaxFee params) |})
                      (λ txData, Returned (bridgeId, txData))
             end).
Proof.
  intros x y out inserted.
  pose proof (isValidBridgePair_spec x y) as Hpair.
  assert (isValidBridgePair x y = true →
          x = STARKNET_DOMAIN_ID ∨ y = STARKNET_DOMAIN_ID) as Hone.
  { unfold isValidBridgePair. intros Hv. apply orb_prop in Hv. lia. }
  destruct (initiateBridge_cases cache bridgeId w params db)
    as [[Hv Hout] | [[Hv (msg & Hmsg & Hout)] | [Hv Hout]]];
    fold x y in Hv; fold out in Hout.
  - (* the route check fails *)
    pose proof (proj1 Hpair Hv) as Hneither. rewrite Hout. cbn [fst snd].
    split; [by split|]. split; [done|].
    split; [by intros [? ?]|]. split; [by intros ??? [? ?]|]. intros; lia.
  - (* a domain is not registered, or the store is down *)
    specialize (Hone Hv). rewrite Hout. cbn [fst snd].
    split; [split; [by intros [= ->] | lia]|]. split; [done|].
    split; [by intros [? ?]|]. split; [by intros ??? [? ?]|].
    intros sourceConfig destConfig _ Hx Hy Hw. exfalso.
    unfold out, initiateBridge, getChainConfig in Hout. fold x y in Hout.
    rewrite Hv, Hx, Hy, Hw in Hout. cbn [negb] in Hout.
    destruct (BigInt (p_amount params)); injection Hout as Hrows _;
      apply (f_equal writes), (f_equal length) in Hrows; cbn [writes] in Hrows;
      rewrite length_app in Hrows; cbn [length] in Hrows; lia.
  - (* the row is inserted *)
    specialize (Hone Hv).
    destruct Hout as (sourceConfig & destConfig & Hx & Hy & Hw & Hdb & Hres).
    fold x in Hx. fold y in Hy, Hres. fold inserted in Hdb.
    split; [split; [|lia]|].
    { unfold invalidPair. rewrite Hres. intros Hthrew.
      by destruct (built_benign _ _ _ _ _ Hthrew). }
    split.
    { unfold invalidPair. rewrite Hres. intros Hthrew.
      by destruct (built_benign _ _ _ _ _ Hthrew). }
    split; [by eauto|]. split.
    + intros starknetConfig Hs Hty [r Hr].
      destruct (decide (x = STARKNET_DOMAIN_ID)) as [Ex|Nx];
        destruct (decide (y = STARKNET_DOMAIN_ID)) as [Ey|Ny];
        [|by left|by right|lia].
      exfalso. rewrite Hres in Hr. rewrite Ex, Hs in Hx. injection Hx as <-.
      destruct (BigInt (p_amount params)) as [amount|]; [|done].
      match type of Hr with bind ?b _ = _ => destruct b as [txData|] eqn:Hbuild end;
        [|done].
      eapply (buildBurnTxData_same_family cache starknetConfig);
        [|exact Hty|by eexists]. cbn [Evm.destinationDomain]. by rewrite Ey.
    + intros sourceConfig' destConfig' _ Hx' Hy' _.
      rewrite Hx in Hx'. injection Hx' as <-. done.
Qed.

End RouteFacts.

(** The sample transfer, Starknet to Ethereum: the pair passes and the
    row is there. *)
Lemma initiateBridge_route_validation_witness :
  let out := Service.initiateBridge (H := Samples.library) Samples.registry "tx-1"
               Samples.notFound Samples.transfer Samples.emptyDb in
  succeeds out.2 ∧
  exactlyOne (Service.p_sourceDomain Samples.transfer)
             (Service.p_destDomain Samples.transfer) ∧
  Service.writes out.1 = [Service.InsertTransaction "tx-1"].
Proof.
  intros out.
  assert (succeeds out.2) as Hok by (by eexists).
  pose proof (initiateBridge_route_validation (H := Samples.library) Samples.registry
                "tx-1" Samples.notFound Samples.transfer Samples.emptyDb)
    as (_ & _ & Hrow & Hone & _).
  split; [exact Hok|]. split.
  - exact (Hone Samples.starknetChain eq_refl ltac:(done) Hok).
  - destruct (Hrow Hok) as (_ & _ & _ & Hdb). fold out in Hdb. by rewrite Hdb.
Defined.

(** C2, as stated, fails.  On the shipped registry, a transfer from
    Starknet to Starknet passes the route check: its row is inserted and the
    call then fails in the payload builder, with another error; and a transfer
    from Starknet to Solana, exactly one Starknet side and both chains
    registered, fails on a Solana address written in base58.  On a registry
    whose domain 25 is an EVM chain, the transfer from 25 to 25 succeeds. *)
Lemma initiateBridge_not_exactly_one :
  let out := Service.initiateBridge (H := Samples.library) Samples.registry "tx-2"
               Samples.notFound Samples.bothStarknet Samples.emptyDb in
  (Service.rows out.1 !! "tx-2"
   = Some (Service.newTransaction "tx-2" 1000 Samples.bothStarknet) ∧
   Service.writes out.1 = [Service.InsertTransaction "tx-2"] ∧
   out.2 = Threw "Cannot bridge from Starknet to starknet") ∧
  ¬ routeValidation (H := Samples.library) Samples.registry "tx-2"
      Samples.notFound Samples.toSolana Samples.emptyDb ∧
  ¬ routeValidation (H := Samples.library) Samples.evmAt25 "tx-2"
      Samples.notFound Samples.bothStarknet Samples.emptyDb.
Proof.
  intros out. split; [by repeat split|]. split.
  - intros [_ Hiff].
    destruct (proj2 (Hiff ltac:(by eexists) ltac:(by eexists))) as [r Hr].
    + left. by split.
    + vm_compute in Hr. done.
  - intros [_ Hiff].
    destruct (proj1 (Hiff ltac:(by eexists) ltac:(by eexists))) as [[_ Hy] | [Hx _]].
    + by eexists.
    + by apply Hy.
    + by apply Hx.
Qed.

(** * Further properties *)

(** ** Configuration *)

Section ConfigFacts.
Import Config AppConfig.

(** X1. [getCounterpartyDomain] returns exactly when [isValidBridgePair] holds,
    and throws the error of the route check otherwise; when exactly one side
    is Starknet it returns the other side, the same in both directions; for
    Starknet to Starknet it returns Starknet. *)
Theorem getCounterpartyDomain_spec (sourceDomain destDomain : Z) :
  (succeeds (getCounterpartyDomain sourceDomain destDomain)
   ↔ isValidBridgePair sourceDomain destDomain = true) ∧
  (isValidBridgePair sourceDomain destDomain = false →
   invalidPair (getCounterpartyDomain sourceDomain destDomain)) ∧
  (exactlyOne sourceDomain destDomain →
   ∃ c, getCounterpartyDomain sourceDomain destDomain = Returned c ∧
        getCounterpartyDomain destDomain sourceDomain = Returned c ∧
        c ≠ STARKNET_DOMAIN_ID ∧ (c = sourceDomain ∨ c = destDomain)) ∧
  (sourceDomain = STARKNET_DOMAIN_ID → destDomain = STARKNET_DOMAIN_ID →
   getCounterpartyDomain sourceDomain destDomain = Returned STARKNET_DOMAIN_ID).
Proof.
  unfold getCounterpartyDomain, isValidBridgePair, succeeds, invalidPair, exactlyOne.
  destruct (Z.eqb_spec sourceDomain STARKNET_DOMAIN_ID) as [Hs|Hs],
           (Z.eqb_spec destDomain STARKNET_DOMAIN_ID) as [Hd|Hd]; cbn [orb].
  - split; [split; eauto|]. split; [done|]. split; [|intros; by subst].
    intros [[_ ?]|[? _]]; done.
  - split; [split; eauto|]. split; [done|]. split; [|done].
    intros _. exists destDomain.
    destruct (Z.eqb_spec destDomain STARKNET_DOMAIN_ID); [done|].
    destruct (Z.eqb_spec sourceDomain STARKNET_DOMAIN_ID); [|done]. eauto.
  - split; [split; eauto|]. split; [done|]. split; [|done].
    intros _. exists sourceDomain.
    destruct (Z.eqb_spec destDomain STARKNET_DOMAIN_ID); [|done].
    destruct (Z.eqb_spec sourceDomain STARKNET_DOMAIN_ID); [done|]. eauto.
  - split; [split; [intros [? ?]; done|done]|]. split; [done|]. split; [|done].
    intros [[? _]|[_ ?]]; done.
Qed.

Lemma loadChainConfig_foldl (rows : list ChainConfig) (acc : Registry) d c :
  foldl (λ newCache row, <[domainId row := row]> newCache) acc rows !! d = Some c →
  (c ∈ rows ∧ domainId c = d) ∨ acc !! d = Some c.
Proof.
  revert acc. induction rows as [|row rows IH]; intros acc Hc; cbn [foldl] in Hc.
  - by right.
  - destruct (IH _ Hc) as [[Hin Hd] | Hacc].
    + left. split; [by apply elem_of_cons; right | done].
    + destruct (decide (domainId row = d)) as [Heq|Hne].
      * rewrite <- Heq, lookup_insert_eq in Hacc. injection Hacc as <-.
        left. split; [apply elem_of_cons; by left | done].
      * rewrite lookup_insert_ne in Hacc by done. by right.
Qed.

Lemma loadChainConfig_row testnet supported_chains d c :
  getChainConfig (loadChainConfig testnet supported_chains) d = Some c →
  c ∈ supported_chains ∧ domainId c = d ∧ isEnabled c = true ∧ isTestnet c = testnet.
Proof.
  unfold getChainConfig, loadChainConfig. intros Hc.
  destruct (loadChainConfig_foldl _ _ _ _ Hc) as [[Hin Hd] | Hempty];
    [|by rewrite lookup_empty in Hempty].
  apply list_elem_of_In, filter_In in Hin. destruct Hin as [Hin Hok].
  apply andb_true_iff in Hok. destruct Hok as [Hen Hnet].
  apply Bool.eqb_prop in Hnet. by rewrite <- list_elem_of_In in Hin.
Qed.

(** X2. Every entry of the loaded registry is a row of the table, held under
    its own domain id, enabled, and of the network that was asked for. *)
Theorem loadChainConfig_sound (testnet : bool) (supported_chains : list ChainConfig)
    (d : Z) (c : ChainConfig) :
  getChainConfig (loadChainConfig testnet supported_chains) d = Some c →
  c ∈ supported_chains ∧ domainId c = d ∧ isEnabled c = true ∧ isTestnet c = testnet.
Proof.
  unfold getChainConfig, loadChainConfig. intros Hc.
  destruct (loadChainConfig_foldl _ _ _ _ Hc) as [[Hin Hd] | Hempty];
    [|by rewrite lookup_empty in Hempty].
  apply list_elem_of_In, filter_In in Hin. destruct Hin as [Hin Hok].
  apply andb_true_iff in Hok. destruct Hok as [Hen Hnet].
  apply Bool.eqb_prop in Hnet. by rewrite <- list_elem_of_In in Hin.
Qed.

Lemma loadChainConfig_foldl_keep (rows : list ChainConfig) (acc : Registry) c :
  acc !! domainId c = Some c →
  (∀ c', c' ∈ rows → domainId c' ≠ domainId c) →
  foldl (λ newCache row, <[domainId row := row]> newCache) acc rows !! domainId c = Some c.
Proof.
  revert acc. induction rows as [|row rows IH]; intros acc Hacc Hne; cbn [foldl]; [done|].
  apply IH.
  - rewrite lookup_insert_ne; [done|]. apply Hne, elem_of_cons. by left.
  - intros c' Hin. apply Hne, elem_of_cons. by right.
Qed.

(** X3. Of the rows that are enabled and of the network asked for, the last
    one of a domain is the one the registry holds for it: a later row replaces
    an earlier one. *)
Theorem loadChainConfig_last (testnet : bool) (earlier later : list ChainConfig)
    (c : ChainConfig) :
  isEnabled c = true → isTestnet c = testnet →
  (∀ c', c' ∈ later → isEnabled c' = true → isTestnet c' = testnet →
         domainId c' ≠ domainId c) →
  getChainConfig (loadChainConfig testnet (earlier ++ c :: later)) (domainId c) = Some c.
Proof.
  intros Hen Hnet Hlater. unfold getChainConfig, loadChainConfig.
  rewrite List.filter_app, foldl_app. cbn [List.filter].
  rewrite Hen, Hnet, Bool.eqb_reflx. cbn [andb foldl].
  apply loadChainConfig_foldl_keep; [apply lookup_insert_eq|].
  intros c' Hin. apply list_elem_of_In, filter_In in Hin. destruct Hin as [Hin Hok].
  apply andb_true_iff in Hok. destruct Hok as [Hen' Hnet'].
  apply Bool.eqb_prop in Hnet'. apply Hlater; [by apply list_elem_of_In|done..].
Qed.

End ConfigFacts.

(** Domain 0 of the sample table on mainnet: the mainnet row, not the
    testnet one. *)
Lemma loadChainConfig_sound_witness :
  AppConfig.getChainConfig (AppConfig.loadChainConfig false Scenario.supported_chains) 0
  = Some Samples.ethereum ∧
  Samples.ethereum ∈ Scenario.supported_chains ∧
  AppConfig.isTestnet Samples.ethereum = false.
Proof.
  split; [reflexivity|].
  destruct (loadChainConfig_sound false Scenario.supported_chains 0 Samples.ethereum
              eq_refl) as (Hin & _ & _ & Hnet).
  by split.
Defined.

(** Domain 5 of the sample table: the row of Solana, which comes after the
    older row for the same domain. *)
Lemma loadChainConfig_last_witness :
  AppConfig.getChainConfig (AppConfig.loadChainConfig false Scenario.supported_chains) 5
  = Some Samples.solanaChain.
Proof.
  apply (loadChainConfig_last false
           [Samples.ethereum; Scenario.sepolia; Scenario.solanaOld]
           [Samples.starknetChain; Scenario.starknetOff] Samples.solanaChain);
    [reflexivity | reflexivity |].
  intros c' Hin _ _. apply elem_of_cons in Hin as [-> | Hin]; [done|].
  apply list_elem_of_singleton in Hin as ->. done.
Defined.

(** ** The life of a row *)

Section RowFacts.
Context `{Library}.
Import Service.

Lemma orNull_hash (bytes : option string) :
  match bytes with
  | Some b => if truthy bytes then Some (Attestation.computeMessageHash b) else None
  | None => None
  end = Attestation.computeMessageHash <$> orNull bytes.
Proof. unfold orNull. by destruct bytes as [[|c s]|]. Qed.

(** A call leaves the store alone or executes one statement on the row. *)
Lemma apply_update bridgeId db call :
  apply bridgeId db call = db ∨
  ∃ stmt set, serviceUpdate set ∧ apply bridgeId db call = update stmt set bridgeId db.
Proof.
  destruct call as [w op]. unfold apply. cbn [fst snd].
  destruct op as [txHash messageBytes nonce| |txHash|reason].
  - unfold recordBurnTx, getTransaction. destruct (dbUp w); [|by left].
    destruct (rows db !! bridgeId) as [tx|]; [|by left].
    right. cbn [fst]. rewrite orNull_hash. eexists _, _. split; [|done]. constructor.
  - unfold checkAttestation, getTransaction. destruct (dbUp w); [|by left].
    destruct (rows db !! bridgeId) as [tx|]; [|by left].
    destruct (_ || _); [by left|]. destruct (negb _); [by left|].
    destruct (Attestation.getMessageFromTx (reply w)) as [[messageData|]|];
      [|right; eexists _, _; split; [|done]; constructor|by left].
    destruct (Attestation.attestation messageData) as [att|];
      [destruct (truthy (Some att)) eqn:Hatt|];
      right; cbn [fst]; eexists _, _; (split; [|done]); by constructor.
  - unfold recordMintTx. destruct (dbUp w); [|by left].
    right. eexists _, _. split; [|done]. constructor.
  - unfold markFailed. destruct (dbUp w); [|by left].
    right. eexists _, _. split; [|done]. constructor.
Qed.

(** What holds of the first store and is kept by every call holds all along
    the history. *)
Lemma history_invariant (P : Db → Prop) bridgeId calls :
  (∀ d call, P d → P (apply bridgeId d call)) →
  ∀ db d, P db → d ∈ history bridgeId db calls → P d.
Proof.
  intros Hstep. induction calls as [|call calls IH]; intros db d Hdb Hin;
    cbn [history] in Hin.
  - apply list_elem_of_singleton in Hin. by subst.
  - apply elem_of_cons in Hin. destruct Hin as [-> | Hin]; [done|].
    eapply IH; [|exact Hin]. by apply Hstep.
Qed.

Lemma serviceUpdate_sameTransfer set tx :
  serviceUpdate set → sameTransfer tx (set tx).
Proof. intros []; by repeat split. Qed.

Lemma serviceUpdate_coherent set tx :
  serviceUpdate set → coherent tx → coherent (set tx).
Proof.
  intros Hset (Hhash & Hatt & Hst & Hnf).
  destruct Hset as [txHash bytes nonce' t| t |bytes nonce' att t Htruthy
                   |bytes nonce' t|txHash t|reason t];
    unfold coherent; cbn; done.
Qed.

(** X4. Calls on one transaction never touch another row, and never add or
    delete a row. *)
Theorem history_frame (bridgeId : string) (db : Db) (calls : list (World * Operation))
    (d : Db) :
  d ∈ history bridgeId db calls →
  (∀ other, other ≠ bridgeId → rows d !! other = rows db !! other) ∧
  (∀ k, is_Some (rows d !! k) ↔ is_Some (rows db !! k)).
Proof.
  apply (history_invariant
           (λ d, (∀ other, other ≠ bridgeId → rows d !! other = rows db !! other) ∧
                 (∀ k, is_Some (rows d !! k) ↔ is_Some (rows db !! k)))); [|done].
  intros d' call [Hother Hdom].
  destruct (apply_update bridgeId d' call) as [-> | (stmt & set & _ & ->)]; [done|].
  split.
  - intros other Hne. rewrite update_lookup_ne by done. by apply Hother.
  - intros k. rewrite <- Hdom. destruct (decide (bridgeId = k)) as [<- | Hne].
    + rewrite update_lookup. apply fmap_is_Some.
    + by rewrite update_lookup_ne.
Qed.

(** X5. Whatever is called on a transaction, its row stays, and it stays the
    row of the same transfer. *)
Theorem history_same_transfer (bridgeId : string) (db : Db)
    (calls : list (World * Operation)) (tx : BridgeTransaction) (d : Db) :
  rows db !! bridgeId = Some tx →
  d ∈ history bridgeId db calls →
  ∃ tx', rows d !! bridgeId = Some tx' ∧ sameTransfer tx tx'.
Proof.
  intros Htx.
  apply (history_invariant
           (λ d, ∃ tx', rows d !! bridgeId = Some tx' ∧ sameTransfer tx tx')).
  - intros d' call (tx' & Htx' & Hsame).
    destruct (apply_update bridgeId d' call) as [-> | (stmt & set & Hset & ->)];
      [by eauto|].
    exists (set tx'). rewrite update_lookup, Htx'. split; [done|].
    destruct (serviceUpdate_sameTransfer set tx' Hset) as (?&?&?&?&?&?&?).
    destruct Hsame as (?&?&?&?&?&?&?). repeat split; congruence.
  - exists tx. by repeat split.
Qed.

(** X6. From the row [initiateBridge] inserts on, the message hash is the hash
    of the message bytes, the attestation status is complete exactly when an
    attestation is stored, an attested transfer has its attestation, and the
    attestation status is never failed. *)
Theorem history_coherent (bridgeId : string) (t : Z) (params : InitiateBridgeParams)
    (db : Db) (calls : list (World * Operation)) (d : Db) (tx : BridgeTransaction) :
  rows db !! bridgeId = Some (newTransaction bridgeId t params) →
  d ∈ history bridgeId db calls →
  rows d !! bridgeId = Some tx →
  coherent tx.
Proof.
  intros Hnew Hin. revert tx.
  apply (history_invariant
           (λ d, ∀ tx, rows d !! bridgeId = Some tx → coherent tx)
           bridgeId calls) with (db := db); [| |done].
  - intros d' call Hd' tx.
    destruct (apply_update bridgeId d' call) as [-> | (stmt & set & Hset & ->)];
      [by apply Hd'|].
    rewrite update_lookup. destruct (rows d' !! bridgeId) as [tx'|] eqn:Htx'; [|done].
    intros [= <-]. apply serviceUpdate_coherent; [done | by apply Hd'].
  - intros tx. rewrite Hnew. intros [= <-]. by repeat split.
Qed.

Lemma apply_attempts bridgeId db call tx :
  rows db !! bridgeId = Some tx →
  ∃ tx', rows (apply bridgeId db call) !! bridgeId = Some tx' ∧
         attestationAttempts tx ≤ attestationAttempts tx' ∧
         attestationAttempts tx'
         ≤ attestationAttempts tx + (if isCheckAttestation call then 1 else 0).
Proof.
  intros Htx. destruct call as [w op]. unfold apply, isCheckAttestation. cbn [fst snd].
  destruct op as [txHash messageBytes nonce| |txHash|reason].
  - unfold recordBurnTx, getTransaction. destruct (dbUp w).
    + rewrite Htx. cbn [fst]. rewrite update_lookup, Htx. eexists. split; [done|].
      cbn. lia.
    + exists tx. split; [done|]. lia.
  - unfold checkAttestation, getTransaction.
    destruct (dbUp w); [|exists tx; split; [done|lia]].
    rewrite Htx. destruct (_ || _); [exists tx; split; [done|lia]|].
    destruct (negb _); [exists tx; split; [done|lia]|].
    destruct (Attestation.getMessageFromTx (reply w)) as [[messageData|]|];
      [| |exists tx; split; [done|lia]].
    + destruct (Attestation.attestation messageData) as [att|];
        [destruct (truthy (Some att))|];
        cbn [fst]; rewrite update_lookup, Htx; (eexists; split; [done|]); cbn; lia.
    + cbn [fst]. rewrite update_lookup, Htx. eexists. split; [done|]. cbn. lia.
  - unfold recordMintTx. destruct (dbUp w).
    + cbn [fst]. rewrite update_lookup, Htx. eexists. split; [done|]. cbn. lia.
    + exists tx. split; [done|]. lia.
  - unfold markFailed. destruct (dbUp w).
    + cbn [fst]. rewrite update_lookup, Htx. eexists. split; [done|]. cbn. lia.
    + exists tx. split; [done|]. lia.
Qed.

(** X7. The attempt counter of a transaction never goes down, and goes up by at
    most one per call of [checkAttestation]. *)
Theorem attempts_bounded (bridgeId : string) (db : Db)
    (calls : list (World * Operation)) (tx : BridgeTransaction) :
  rows db !! bridgeId = Some tx →
  ∀ d, d ∈ history bridgeId db calls →
  ∃ tx', rows d !! bridgeId = Some tx' ∧
         attestationAttempts tx ≤ attestationAttempts tx' ∧
         attestationAttempts tx'
         ≤ attestationAttempts tx + Z.of_nat (length (List.filter isCheckAttestation calls)).
Proof.
  revert db tx. induction calls as [|call calls IH]; intros db tx Htx d Hin;
    cbn [history] in Hin.
  - apply list_elem_of_singleton in Hin. subst. exists tx. split; [done|]. cbn. lia.
  - apply elem_of_cons in Hin. destruct Hin as [-> | Hin].
    + exists tx. split; [done|]. lia.
    + destruct (apply_attempts bridgeId db call tx Htx) as (tx1 & Htx1 & Hlo & Hhi).
      destruct (IH _ _ Htx1 d Hin) as (tx' & Htx' & Hlo' & Hhi').
      exists tx'. split; [done|]. cbn [List.filter].
      destruct (isCheckAttestation call); cbn [length] in *; lia.
Qed.

End RowFacts.

(** The sample transfer, burned and then polled: the row of the inbound
    transfer, in the same table, is left as it was. *)
Lemma history_frame_witness :
  let calls := [(Samples.notFound, Service.RecordBurnTx "0xb01" None None);
                (Samples.attestedReply, Service.CheckAttestation)] in
  let db := (Service.initiateBridge (H := Samples.library) Samples.registry "tx-1"
               Samples.notFound Samples.transfer Scenario.inboundDb).1 in
  let d := Service.apply (H := Samples.library) "tx-1"
             (Service.apply (H := Samples.library) "tx-1" db
                (Samples.notFound, Service.RecordBurnTx "0xb01" None None))
             (Samples.attestedReply, Service.CheckAttestation) in
  d ∈ Service.history (H := Samples.library) "tx-1" db calls ∧
  Service.rows d !! "tx-2" = Service.rows Scenario.inboundDb !! "tx-2".
Proof.
  intros calls db d.
  assert (d ∈ Service.history (H := Samples.library) "tx-1" db calls) as Hin.
  { cbn [Service.history]. do 2 apply list_elem_of_further. apply list_elem_of_here. }
  split; [exact Hin|].
  destruct (history_frame (H := Samples.library) "tx-1" db calls d Hin) as [Hother _].
  rewrite (Hother "tx-2") by done. reflexivity.
Defined.

(** The sample transfer, burned, attested and completed: still the transfer
    of 1000000 units from domain 25 to domain 0. *)
Lemma history_same_transfer_witness :
  let calls := [(Samples.notFound, Service.RecordBurnTx "0xb01" None None);
                (Samples.attestedReply, Service.CheckAttestation);
                (Samples.notFound, Service.RecordMintTx "0xc01")] in
  let d := Service.apply (H := Samples.library) "tx-1" Samples.attestedDb
             (Samples.notFound, Service.RecordMintTx "0xc01") in
  ∃ tx', Service.rows d !! "tx-1" = Some tx' ∧
         sameTransfer (Service.newTransaction "tx-1" 1000 Samples.transfer) tx'.
Proof.
  intros calls d.
  apply (history_same_transfer (H := Samples.library) "tx-1" Samples.initiatedDb calls);
    [reflexivity|].
  cbn [Service.history]. do 3 apply list_elem_of_further. apply list_elem_of_here.
Defined.

(** The sample transfer once attested: the message hash is that of the
    message bytes, and the attestation status is complete. *)
Lemma history_coherent_witness :
  ∃ tx, Service.rows Samples.attestedDb !! "tx-1" = Some tx ∧
        coherent (H := Samples.library) tx ∧
        Service.messageHash tx = Some "keccak256(0x0001)".
Proof.
  eexists. split; [reflexivity|]. split; [|reflexivity].
  apply (history_coherent (H := Samples.library) "tx-1" 1000 Samples.transfer
           Samples.initiatedDb
           [(Samples.notFound, Service.RecordBurnTx "0xb01" None None);
            (Samples.attestedReply, Service.CheckAttestation)]
           Samples.attestedDb);
    [reflexivity | | reflexivity].
  cbn [Service.history]. do 2 apply list_elem_of_further. apply list_elem_of_here.
Defined.

(** The sample transfer, burned, polled twice without result and marked
    failed: two attempts counted. *)
Lemma attempts_bounded_witness :
  let calls := [(Samples.notFound, Service.CheckAttestation);
                (Samples.notFound, Service.MarkFailed "late");
                (Samples.notFound, Service.CheckAttestation)] in
  ∃ d tx',
    d ∈ Service.history (H := Samples.library) "tx-1" Samples.burnedDb calls ∧
    Service.rows d !! "tx-1" = Some tx' ∧
    Service.attestationAttempts tx' = 2 ∧
    0 ≤ Service.attestationAttempts tx' ≤ 0 + 2.
Proof.
  intros calls.
  set (d := Service.apply (H := Samples.library) "tx-1"
              (Service.apply (H := Samples.library) "tx-1"
                 (Service.apply (H := Samples.library) "tx-1" Samples.burnedDb
                    (Samples.notFound, Service.CheckAttestation))
                 (Samples.notFound, Service.MarkFailed "late"))
              (Samples.notFound, Service.CheckAttestation)).
  assert (d ∈ Service.history (H := Samples.library) "tx-1" Samples.burnedDb calls)
    as Hin.
  { cbn [Service.history]. do 3 apply list_elem_of_further. apply list_elem_of_here. }
  destruct (attempts_bounded (H := Samples.library) "tx-1" Samples.burnedDb calls _
              eq_refl d Hin) as (tx' & Htx' & Hlo & Hhi).
  exists d, tx'. split; [exact Hin|]. split; [exact Htx'|]. split.
  - assert (Service.attestationAttempts <$> Service.rows d !! "tx-1" = Some 2) as H2
      by reflexivity.
    rewrite Htx' in H2. by injection H2.
  - split; [exact Hlo | exact Hhi].
Defined.

(** ** Chunks, buffers and the delivery check *)

Section ChunkFacts.

Lemma hexToFeltArray_loop_positions fuel cleanHex i :
  (String.length cleanHex - i < fuel)%nat →
  let chunks := Starknet.hexToFeltArray_loop fuel cleanHex i in
  (String.length cleanHex - i ≤ 62 * length chunks < String.length cleanHex - i + 62)%nat ∧
  ∀ k chunk, chunks !! k = Some chunk →
    chunk = "0x" +:+ slice (i + 62 * k) (i + 62 * k + 62) cleanHex.
Proof.
  revert i. induction fuel as [|fuel IH]; intros i Hfuel; [lia|].
  cbn [Starknet.hexToFeltArray_loop].
  destruct (i <? String.length cleanHex)%nat eqn:Hi.
  - apply Nat.ltb_lt in Hi.
    destruct (IH (i + 62)%nat ltac:(lia)) as [IHlen IHpos].
    cbn zeta in *. split.
    + cbn [length]. lia.
    + intros [|k] chunk Hk.
      * cbn in Hk. injection Hk as <-. by rewrite Nat.mul_0_r, Nat.add_0_r.
      * cbn in Hk. rewrite (IHpos k chunk Hk). do 2 f_equal; lia.
  - apply Nat.ltb_ge in Hi. cbn zeta. split; [cbn [length]; lia|]. by intros k chunk.
Qed.

(** X8. [hexToFeltArray] cuts the digits at every 62nd: chunk [k] is the digits
    from [62 k] to [62 k + 62], so every chunk but the last has exactly 62
    digits (31 bytes), and the number of chunks is the number of digits
    divided by 62, rounded up. *)
Theorem hexToFeltArray_positions (hex : string) :
  let cleanHex := JS.replace "0x" "" hex in
  let chunks := Starknet.hexToFeltArray hex in
  (String.length cleanHex ≤ 62 * length chunks < String.length cleanHex + 62)%nat ∧
  (∀ k chunk, chunks !! k = Some chunk →
     chunk = "0x" +:+ slice (62 * k) (62 * k + 62) cleanHex) ∧
  (∀ k chunk, chunks !! k = Some chunk → (S k < length chunks)%nat →
     String.length (payload chunk) = 62%nat).
Proof.
  intros cleanHex chunks.
  destruct (hexToFeltArray_loop_positions (S (String.length cleanHex)) cleanHex 0
              ltac:(lia)) as [Hlen Hpos].
  fold cleanHex in Hlen, Hpos. cbn zeta in Hlen, Hpos.
  change (Starknet.hexToFeltArray_loop _ _ _) with chunks in Hlen, Hpos.
  split; [lia|]. split; [exact Hpos|].
  intros k chunk Hk Hlast. rewrite (Hpos k chunk Hk).
  change (payload ("0x" +:+ ?s)) with s. unfold slice.
  rewrite take_length, drop_length. cbn [Nat.add] in *. lia.
Qed.

End ChunkFacts.

Section BufferFacts.

(** X9. The 32 bytes Solana is given for a recipient: an address of at most 64
    hex digits is padded with zeros on the left, keeping its value and the
    case of its letters; the two conversions are the same function; the bytes
    of an EVM address are those [addressToBytes32] gives; and a longer string
    is not cut. *)
Theorem solana_recipient_buffer (h : string) :
  Solana.evmAddressToBuffer ("0x" +:+ h) = Solana.starknetAddressToBuffer ("0x" +:+ h) ∧
  ((String.length h ≤ 64)%nat →
   Solana.starknetAddressToBuffer ("0x" +:+ h)
   = repeatChar "0" (64 - String.length h) +:+ h ∧
   String.length (Solana.starknetAddressToBuffer ("0x" +:+ h)) = 64%nat ∧
   hexValue (Solana.starknetAddressToBuffer ("0x" +:+ h)) = hexValue h) ∧
  (String.length h = 40%nat →
   hexBytes (Solana.evmAddressToBuffer ("0x" +:+ h))
   = hexBytes (sliceFrom 2 (Evm.addressToBytes32 ("0x" +:+ h)))) ∧
  ((64 < String.length h)%nat → Solana.starknetAddressToBuffer ("0x" +:+ h) = h).
Proof.
  unfold Solana.evmAddressToBuffer, Solana.starknetAddressToBuffer.
  rewrite replace_0x_prefixed. split; [done|]. split; [|split].
  - intros Hlen. rewrite padStart_short by done. split; [done|]. split.
    + rewrite append_length, repeatChar_length. lia.
    + apply hexValueFrom_zeros.
  - intros Hlen. unfold Evm.addressToBytes32. rewrite cleanAddress_prefixed.
    change (sliceFrom 2 ("0x" +:+ ?s)) with s.
    rewrite !padStart_short by (rewrite ?toLowerCase_length; lia).
    rewrite toLowerCase_length, Hlen.
    change (64 - 40)%nat with (2 * 12)%nat.
    by rewrite !hexBytes_zeros, hexBytes_toLowerCase.
  - intros Hlen. apply padStart_full. lia.
Qed.

End BufferFacts.

Section DeliveryFacts.
Import Attestation.

(** For Starknet, a message with the status complete and an attestation
    [getMessageFromTx] accepts is delivered. *)
Lemma checkMessageDelivered_complete code text msg rest :
  ok code = true →
  toLowerCase (api_status msg) = "complete" →
  hasValidAttestation (api_attestation msg) = true →
  (checkMessageDelivered (Response code text (Some (Some (msg :: rest)))) true).1 = true.
Proof.
  intros Hok Hs Hvalid. unfold checkMessageDelivered.
  rewrite Hok, Hs. cbn [negb fst].
  unfold hasValidAttestation in Hvalid.
  destruct (api_attestation msg) as [att|]; [|done].
  apply andb_true_iff in Hvalid as [Hvalid _].
  apply andb_true_iff in Hvalid as [Ht Hp]. rewrite Ht.
  apply negb_true_iff, String.eqb_neq in Hp.
  cbn. apply negb_true_iff, bool_decide_eq_false. congruence.
Qed.

(** X10. The delivery check says delivered only on a successful reply with a
    message, and then reports the status of the first message as the service
    wrote it; for Starknet that message has the status complete, in any case
    of letters, and an attestation that is neither empty nor "PENDING"; for
    another destination its status is delivered, received or minted. And for
    Starknet, a message with the status complete and an attestation
    [getMessageFromTx] accepts is delivered. *)
Theorem checkMessageDelivered_spec (reply : Fetch) (isStarknetDest : bool) :
  ((checkMessageDelivered reply isStarknetDest).1 = true →
   ∃ code text msg rest,
     reply = Response code text (Some (Some (msg :: rest))) ∧ ok code = true ∧
     (checkMessageDelivered reply isStarknetDest).2 = Some (api_status msg) ∧
     if isStarknetDest
     then toLowerCase (api_status msg) = "complete" ∧
          truthy (api_attestation msg) = true ∧ api_attestation msg ≠ Some "PENDING"
     else toLowerCase (api_status msg) ∈ deliveredStatuses) ∧
  (∀ code text msg rest,
     reply = Response code text (Some (Some (msg :: rest))) → ok code = true →
     toLowerCase (api_status msg) = "complete" →
     hasValidAttestation (api_attestation msg) = true →
     (checkMessageDelivered reply true).1 = true ∧
     (checkMessageDelivered reply false).1 = false).
Proof.
  split.
  - unfold checkMessageDelivered. destruct reply as [e|code text body]; [done|].
    destruct (ok code) eqn:Hok; cbn [negb]; [|done].
    destruct body as [[[|msg rest]|]|]; try done. cbn [fst snd].
    intros Hd. exists code, text, msg, rest. split; [done|]. split; [done|].
    split; [done|]. destruct isStarknetDest.
    + apply andb_true_iff in Hd as [Hd Hp]. apply andb_true_iff in Hd as [Hs Ht].
      apply String.eqb_eq in Hs. apply negb_true_iff, bool_decide_eq_false in Hp.
      done.
    + by apply bool_decide_eq_true in Hd.
  - intros code text msg rest -> Hok Hs Hvalid.
    split; [by apply checkMessageDelivered_complete|].
    unfold checkMessageDelivered. by rewrite Hok, Hs.
Qed.

End DeliveryFacts.

(** ** The routes of a transfer *)

Section RouteOrder.
Context `{Library} `{Runtime}.
Import AppConfig Service StatusRoute.

Lemma getTransactionStatus_found cache w bridgeId db tx m :
  getTransactionStatus cache w bridgeId db = Returned (Some (tx, m)) →
  dbUp w = true ∧ rows db !! bridgeId = Some tx.
Proof.
  unfold getTransactionStatus, getTransaction.
  destruct (dbUp w); [|done]. destruct (rows db !! bridgeId) as [tx'|]; [|done].
  intros Hr. split; [done|]. f_equal.
  destruct (attestation tx') as [att|]; [|by injection Hr].
  destruct (messageBytes tx') as [bytes|]; [|by injection Hr].
  destruct (_ && _); [|by injection Hr].
  destruct (getChainConfig cache (destDomainId tx')); [|by injection Hr].
  destruct (buildMintTxData _ _ _ _); [|done]. by injection Hr.
Qed.

(** The auto-mint step writes nothing, or completes an attested transfer. *)
Lemma deliver_store cache w delivery bridgeId destConfig relayerWillMint
    transaction mintTxData db :
  (deliver cache w delivery bridgeId destConfig relayerWillMint transaction
     mintTxData db).1 = db ∨
  (status transaction = attested ∧
   type <$> destConfig = Some starknet ∧
   (Attestation.checkMessageDelivered delivery true).1 = true ∧
   (deliver cache w delivery bridgeId destConfig relayerWillMint transaction
      mintTxData db).1
   = update (UpdateMint bridgeId) (setMint autoMintHash (now w)) bridgeId db).
Proof.
  unfold deliver.
  destruct (bool_decide (type <$> destConfig = Some starknet)) eqn:Hty; [|by left].
  destruct (bool_decide (status transaction = attested)) eqn:Hst; [|by left].
  destruct (truthy (burnTxHash transaction)); [|by left]. cbn [andb].
  destruct ((Attestation.checkMessageDelivered delivery true).1); [|by left].
  apply bool_decide_eq_true in Hty, Hst.
  unfold recordMintTx. destruct (dbUp w); [|by left].
  right. split; [done|]. split; [done|]. split; [done|].
  by destruct (getTransactionStatus _ _ _ _) as [[[t m]|]|].
Qed.

(** The status route writes nothing, or polls a burned transfer and then
    perhaps completes it, or completes an attested transfer; it completes
    only transfers to Starknet that the service reports delivered. *)
Lemma GET_store cache w delivery bridgeId db :
  (GET cache w delivery bridgeId db).1 = db ∨
  ∃ tx, rows db !! bridgeId = Some tx ∧ dbUp w = true ∧
    ((status tx = burned ∧ truthy (burnTxHash tx) = true ∧
      ((GET cache w delivery bridgeId db).1 = (checkAttestation w bridgeId db).1 ∨
       ((∃ tx1, rows (checkAttestation w bridgeId db).1 !! bridgeId = Some tx1 ∧
                status tx1 = attested) ∧
        type <$> getChainConfig cache (destDomainId tx) = Some starknet ∧
        (Attestation.checkMessageDelivered delivery true).1 = true ∧
        (GET cache w delivery bridgeId db).1
        = update (UpdateMint bridgeId) (setMint autoMintHash (now w)) bridgeId
            (checkAttestation w bridgeId db).1))) ∨
     (status tx = attested ∧
      type <$> getChainConfig cache (destDomainId tx) = Some starknet ∧
      (Attestation.checkMessageDelivered delivery true).1 = true ∧
      (GET cache w delivery bridgeId db).1
      = update (UpdateMint bridgeId) (setMint autoMintHash (now w)) bridgeId db)).
Proof.
  unfold GET.
  destruct (getTransactionStatus cache w bridgeId db) as [[[tx m]|]|] eqn:Hget;
    [|by left..].
  apply getTransactionStatus_found in Hget as [Hup Htx].
  destruct (bool_decide (status tx ≠ completed) && bool_decide (status tx ≠ failed));
    [|by left].
  destruct (bool_decide (status tx = burned)) eqn:Hst.
  - apply bool_decide_eq_true in Hst.
    destruct (truthy (burnTxHash tx)) eqn:Hburn; cbn [andb].
    + right. exists tx. split; [done|]. split; [done|]. left.
      split; [done|]. split; [done|].
      destruct (checkAttestation w bridgeId db) as [db1 [att|e]]; cbn [fst];
        [|by left].
      destruct (truthy att).
      * destruct (getTransactionStatus cache w bridgeId db1) as [[[tx1 m1]|]|] eqn:Hget1;
          [| |by left].
        -- apply getTransactionStatus_found in Hget1 as [_ Htx1].
           destruct (deliver_store cache w delivery bridgeId
                       (getChainConfig cache (destDomainId tx))
                       (willAutoMint cache (destDomainId tx)) tx1 m1 db1)
             as [-> | (Hst1 & Hty & Hdel & ->)]; [by left|].
           right. split; [by eauto|done].
        -- destruct (deliver_store cache w delivery bridgeId
                       (getChainConfig cache (destDomainId tx))
                       (willAutoMint cache (destDomainId tx)) tx m db1)
             as [-> | (Hst1 & _)]; [by left|congruence].
      * destruct (deliver_store cache w delivery bridgeId
                    (getChainConfig cache (destDomainId tx))
                    (willAutoMint cache (destDomainId tx)) tx m db1)
          as [-> | (Hst1 & _)]; [by left|congruence].
    + destruct (deliver_store cache w delivery bridgeId
                  (getChainConfig cache (destDomainId tx))
                  (willAutoMint cache (destDomainId tx)) tx m db)
        as [-> | (Hst1 & _)]; [by left|congruence].
  - cbn [andb].
    destruct (deliver_store cache w delivery bridgeId
                (getChainConfig cache (destDomainId tx))
                (willAutoMint cache (destDomainId tx)) tx m db)
      as [-> | (Hst1 & Hty & Hdel & ->)]; [by left|].
    right. exists tx. split; [done|]. split; [done|]. by right.
Qed.

(** What a poll does to a burned transfer that is on track. *)
Lemma checkAttestation_onTrack w bridgeId db tx :
  rows db !! bridgeId = Some tx → status tx = burned → onTrack tx →
  ∃ tx1, rows (checkAttestation w bridgeId db).1 !! bridgeId = Some tx1 ∧
         onTrack tx1 ∧ (status tx1 = burned ∨ status tx1 = attested).
Proof.
  intros Htx Hst Hon. unfold onTrack in Hon. rewrite Hst in Hon.
  destruct Hon as (Hburn & Hatt & Hnc).
  unfold checkAttestation, getTransaction.
  assert (onTrack tx) as Hon by (unfold onTrack; by rewrite Hst).
  destruct (dbUp w); [|by eauto].
  rewrite Htx. destruct (_ || _); [by eauto|].
  destruct (negb _); [by eauto|].
  destruct (Attestation.getMessageFromTx (reply w)) as [[messageData|]|];
    [| |by eauto].
  - destruct (Attestation.attestation messageData) as [att|];
      [destruct (truthy (Some att)) eqn:Ht|];
      cbn [fst]; rewrite update_lookup, Htx; (eexists; split; [done|]);
      unfold onTrack; cbn; rewrite ?Hst; eauto.
  - cbn [fst]. rewrite update_lookup, Htx. eexists. split; [done|].
    unfold onTrack. cbn. rewrite Hst. eauto.
Qed.

Lemma onTrack_advances_refl tx : onTrack tx → advances (status tx) (status tx).
Proof.
  unfold onTrack. destruct (status tx); try done; right; (split; [done|cbn; lia]).
Qed.

(** A request leaves a row on track, and does not make its status regress. *)
Lemma serve_onTrack cache bridgeId db call tx :
  rows db !! bridgeId = Some tx → onTrack tx →
  ∃ tx', rows (serve cache bridgeId db call) !! bridgeId = Some tx' ∧
         onTrack tx' ∧ advances (status tx) (status tx').
Proof.
  intros Htx Hon. destruct call as [w req]. unfold serve. cbn [fst snd].
  assert (∃ tx', rows db !! bridgeId = Some tx' ∧ onTrack tx' ∧
                 advances (status tx) (status tx')) as Hsame.
  { exists tx. split; [done|]. split; [done|]. by apply onTrack_advances_refl. }
  destruct req as [txHash messageBytes nonce|txHash|delivery].
  - unfold BurnRoute.POST. destruct txHash as [hash|]; [|done].
    destruct (truthy (Some hash)) eqn:Hhash; [|done]. cbn [negb].
    unfold getTransaction at 1. destruct (dbUp w) eqn:Hup; [|done]. rewrite Htx.
    destruct (truthy (burnTxHash tx)) eqn:Hburn; [done|].
    unfold recordBurnTx, getTransaction. rewrite Hup, Htx. cbn [fst].
    rewrite update_lookup, Htx. eexists. split; [done|].
    unfold onTrack in *. cbn.
    destruct (status tx) eqn:Hst; try done; try (destruct Hon; congruence).
    destruct Hon as (_ & Hatt & Hnc). split; [done|].
    right. split; [done|cbn; lia].
  - unfold CompleteRoute.POST. destruct txHash as [hash|]; [|done].
    destruct (negb (truthy (Some hash))); [done|].
    unfold getTransaction. destruct (dbUp w) eqn:Hup; [|done]. rewrite Htx.
    destruct (truthy (attestation tx)) eqn:Hatt; [|done]. cbn [negb].
    destruct (bool_decide (status tx = completed)); [done|].
    unfold recordMintTx. rewrite Hup. cbn [fst].
    rewrite update_lookup, Htx. eexists. split; [done|].
    unfold onTrack in *. cbn.
    destruct (status tx) eqn:Hst; try done; try (destruct Hon as (? & ? & ?); congruence).
    + destruct Hon as [Hburn _]. split; [by eauto|].
      right. split; [done|cbn; lia].
    + destruct Hon as (Hburn & _ & _). split; [by eauto|].
      right. split; [done|cbn; lia].
  - destruct (GET_store cache w delivery bridgeId db)
      as [-> | (tx0 & Htx0 & Hup & Hcase)]; [done|].
    rewrite Htx in Htx0. injection Htx0 as <-.
    destruct Hcase as [(Hst & Hburn & Hcase) | (Hst & _ & _ & ->)].
    + destruct (checkAttestation_onTrack w bridgeId db tx Htx Hst Hon)
        as (tx1 & Htx1 & Hon1 & Hst1).
      destruct Hcase as [-> | ((tx1' & Htx1' & Hst1') & _ & _ & ->)].
      * exists tx1. split; [done|]. split; [done|]. rewrite Hst.
        destruct Hst1 as [-> | ->]; right; (split; [done|cbn; lia]).
      * rewrite Htx1 in Htx1'. injection Htx1' as <-.
        rewrite update_lookup, Htx1. eexists. split; [done|].
        unfold onTrack in *. cbn. rewrite Hst1' in Hon1. destruct Hon1 as [? ?].
        split; [by eauto|]. rewrite Hst. right. split; [done|cbn; lia].
    + rewrite update_lookup, Htx. eexists. split; [done|].
      unfold onTrack in *. cbn. rewrite Hst in *. destruct Hon as [? ?].
      split; [by eauto|]. right. split; [done|cbn; lia].
Qed.

(** X11. Requests to the burn, complete and status routes of a transfer, served
    one after the other from the row [initiateBridge] inserted: the statuses
    of the row never regress, the row stays on track at every point, and it is
    never failed. *)
Theorem routes_in_order (cache : Registry) (bridgeId : string) (t : Z)
    (params : InitiateBridgeParams) (db : Db) (calls : list (World * Request)) :
  rows db !! bridgeId = Some (newTransaction bridgeId t params) →
  monotone (omap (λ d, status <$> rows d !! bridgeId) (served cache bridgeId db calls)) ∧
  ∀ d, d ∈ served cache bridgeId db calls →
       ∃ tx, rows d !! bridgeId = Some tx ∧ onTrack tx ∧ status tx ≠ failed.
Proof.
  intros Hnew.
  assert (onTrack (newTransaction bridgeId t params)) as Hon by done.
  revert Hnew Hon. generalize (newTransaction bridgeId t params) as tx.
  revert db. induction calls as [|call calls IH]; intros db tx Htx Hon.
  - cbn [served omap list_omap]. rewrite Htx. cbn. split.
    + intros [|i] s s' Hs Hs'; done.
    + intros d Hd. apply list_elem_of_singleton in Hd. subst. exists tx.
      split; [done|]. split; [done|]. unfold onTrack in Hon. by destruct (status tx).
  - destruct (serve_onTrack cache bridgeId db call tx Htx Hon) as (tx' & Htx' & Hon' & Hadv).
    destruct (IH _ _ Htx' Hon') as [Hmono Hall]. cbn [served]. split.
    + cbn [omap list_omap]. rewrite Htx. cbn [fmap option_fmap option_map].
      intros [|i] s s' Hs Hs'.
      * cbn in Hs. injection Hs as <-.
        destruct calls; cbn [served omap list_omap] in Hs'; rewrite Htx' in Hs';
          cbn in Hs'; by injection Hs' as <-.
      * exact (Hmono i s s' Hs Hs').
    + intros d Hd. apply elem_of_cons in Hd. destruct Hd as [-> | Hd]; [|by apply Hall].
      exists tx. split; [done|]. split; [done|]. unfold onTrack in Hon.
      by destruct (status tx).
Qed.


Lemma alter_missing {A} (f : A → A) (m : gmap string A) k :
  m !! k = None → alter f k m = m.
Proof.
  intros Hk. apply map_eq. intros k'. destruct (decide (k = k')) as [<- | Hne].
  - by rewrite lookup_alter_eq, Hk.
  - by rewrite lookup_alter_ne.
Qed.

(** X12. An id the store does not have: [recordBurnTx] throws, [checkAttestation]
    and [getTransactionStatus] return null, whereas [recordMintTx] and
    [markFailed] return normally, their statement having matched no row. *)
Theorem unknown_transaction (cache : Registry) (w : World) (bridgeId : string)
    (db : Db) (txHash reason : string) (messageBytes nonce : option string) :
  dbUp w = true → rows db !! bridgeId = None →
  recordBurnTx w bridgeId txHash messageBytes nonce db
  = (db, Threw "Bridge transaction not found") ∧
  checkAttestation w bridgeId db = (db, Returned None) ∧
  getTransactionStatus cache w bridgeId db = Returned None ∧
  ((recordMintTx w bridgeId txHash db).2 = Returned tt ∧
   rows (recordMintTx w bridgeId txHash db).1 = rows db) ∧
  ((markFailed w bridgeId reason db).2 = Returned tt ∧
   rows (markFailed w bridgeId reason db).1 = rows db).
Proof.
  intros Hup Hnone.
  unfold recordBurnTx, checkAttestation, getTransactionStatus, getTransaction,
    recordMintTx, markFailed.
  rewrite Hup, Hnone. cbn [fst snd]. rewrite !update_rows, !alter_missing by done.
  done.
Qed.

(** X13. The complete route completes a transfer only when it has an attestation
    and is not completed yet, and then records the hash it was given; when it
    answers with an error it has written nothing. *)
Theorem complete_guards (w : World) (bridgeId : string) (txHash : option string)
    (db : Db) :
  (∀ db' id, CompleteRoute.POST w bridgeId txHash db = (db', CompleteRoute.Completed id) →
     id = bridgeId ∧
     ∃ hash tx, txHash = Some hash ∧ truthy txHash = true ∧
       rows db !! bridgeId = Some tx ∧
       truthy (attestation tx) = true ∧ status tx ≠ completed ∧
       db' = update (UpdateMint bridgeId) (setMint hash (now w)) bridgeId db) ∧
  (∀ db' code e,
     CompleteRoute.POST w bridgeId txHash db = (db', CompleteRoute.CompleteError code e) →
     db' = db).
Proof.
  unfold CompleteRoute.POST, getTransaction, recordMintTx.
  destruct txHash as [hash|]; [|by split; intros; simplify_eq].
  destruct (truthy (Some hash)) eqn:Hhash; cbn [negb];
    [|by split; intros; simplify_eq].
  destruct (dbUp w); [|by split; intros; simplify_eq].
  destruct (rows db !! bridgeId) as [tx|]; [|by split; intros; simplify_eq].
  destruct (truthy (attestation tx)) eqn:Hatt; cbn [negb];
    [|by split; intros; simplify_eq].
  destruct (bool_decide (status tx = completed)) eqn:Hst;
    [by split; intros; simplify_eq|].
  apply bool_decide_eq_false in Hst.
  split; intros; simplify_eq. split; [done|]. by eauto 10.
Qed.

(** X14. Once the complete route has completed a transfer, a second request is
    answered with the error "Bridge already completed" and writes nothing:
    the mint hash recorded first stays. *)
Theorem complete_twice_rejected (w1 w2 : World) (bridgeId hash1 hash2 : string)
    (db db1 : Db) :
  CompleteRoute.POST w1 bridgeId (Some hash1) db = (db1, CompleteRoute.Completed bridgeId) →
  dbUp w2 = true → truthy (Some hash2) = true →
  CompleteRoute.POST w2 bridgeId (Some hash2) db1
  = (db1, CompleteRoute.CompleteError 400 "Bridge already completed") ∧
  ∃ tx1, rows db1 !! bridgeId = Some tx1 ∧
         mintTxHash tx1 = Some hash1 ∧ status tx1 = completed.
Proof.
  intros Hfirst Hup2 Hhash2. unfold CompleteRoute.POST in Hfirst.
  destruct (negb (truthy (Some hash1))); [done|].
  unfold getTransaction in Hfirst. destruct (dbUp w1) eqn:Hup1; [|done].
  destruct (rows db !! bridgeId) as [tx|] eqn:Htx; [|done].
  destruct (truthy (attestation tx)) eqn:Hatt; [|done]. cbn [negb] in Hfirst.
  destruct (bool_decide (status tx = completed)); [done|].
  unfold recordMintTx in Hfirst. rewrite Hup1 in Hfirst. injection Hfirst as <-.
  assert (rows (update (UpdateMint bridgeId) (setMint hash1 (now w1)) bridgeId db)
            !! bridgeId = Some (setMint hash1 (now w1) tx)) as Hrow.
  { by rewrite update_lookup, Htx. }
  split; [|by eauto].
  unfold CompleteRoute.POST, getTransaction. rewrite Hhash2, Hup2, Hrow. cbn.
  by rewrite Hatt.
Qed.

(** X15. Circle's auto-mint: for an attested transfer to Starknet whose message
    the service reports delivered, the status route completes the transfer
    under the hash "auto-mint-by-circle", and answers with the completed row,
    no mint payload, and the flag that no mint is asked of the user. *)
Theorem GET_auto_mint (cache : Registry) (w : World) (delivery : Attestation.Fetch)
    (bridgeId : string) (db : Db) (tx : BridgeTransaction) (destConfig : ChainConfig) :
  dbUp w = true → rows db !! bridgeId = Some tx →
  status tx = attested → truthy (burnTxHash tx) = true →
  destDomainId tx = Config.STARKNET_DOMAIN_ID →
  getChainConfig cache Config.STARKNET_DOMAIN_ID = Some destConfig →
  type destConfig = starknet →
  (Attestation.checkMessageDelivered delivery true).1 = true →
  GET cache w delivery bridgeId db
  = (update (UpdateMint bridgeId) (setMint autoMintHash (now w)) bridgeId db,
     StatusOk (setMint autoMintHash (now w) tx) None true).
Proof.
  intros Hup Htx Hst Hburn Hdest Hcfg Hty Hdel.
  assert (∀ d t, rows d !! bridgeId = Some t → destDomainId t = Config.STARKNET_DOMAIN_ID →
            ∃ m, getTransactionStatus cache w bridgeId d = Returned (Some (t, m)))
    as Hget.
  { intros d t Ht Hd. unfold getTransactionStatus, getTransaction. rewrite Hup, Ht.
    destruct (attestation t) as [att|]; [|by eauto].
    destruct (messageBytes t) as [bytes|]; [|by eauto].
    destruct (_ && _); [|by eauto]. rewrite Hd, Hcfg.
    unfold buildMintTxData, Starknet.buildStarknetMintCall. rewrite Hty, Hcfg.
    cbn [bind]. by eauto. }
  unfold GET. destruct (Hget db tx Htx Hdest) as [m ->].
  rewrite Hst. cbn [bool_decide andb]. 
  rewrite (bool_decide_eq_true_2 (attested ≠ completed)) by done.
  rewrite (bool_decide_eq_true_2 (attested ≠ failed)) by done.
  rewrite (bool_decide_eq_false_2 (attested = burned)) by done. cbn [andb].
  unfold deliver, willAutoMint. rewrite Hdest, Hcfg, Hst, Hburn, Hdel.
  cbn [fmap option_fmap option_map]. rewrite Hty.
  rewrite (bool_decide_eq_true_2 (Some starknet = Some starknet)) by done.
  rewrite (bool_decide_eq_true_2 (attested = attested)) by done.
  rewrite (bool_decide_eq_true_2 (starknet = starknet)) by done. cbn [andb].
  unfold recordMintTx. rewrite Hup.
  destruct (Hget (update (UpdateMint bridgeId) (setMint autoMintHash (now w)) bridgeId db)
              (setMint autoMintHash (now w) tx)) as [m' ->]; [|done..].
  by rewrite update_lookup, Htx.
Qed.

(** A poll leaves the status of a row or makes it attested. *)
Lemma checkAttestation_status w bridgeId db tx :
  rows db !! bridgeId = Some tx →
  ∃ tx1, rows (checkAttestation w bridgeId db).1 !! bridgeId = Some tx1 ∧
         (status tx1 = status tx ∨ status tx1 = attested).
Proof.
  intros Htx. exact (apply_status bridgeId db (w, CheckAttestation) tx Htx).
Qed.

(** X16. The status route writes nothing for a transfer that is neither burned
    nor attested; and when it completes a transfer, the destination is
    Starknet, the service reported the message delivered, and the mint hash
    recorded is "auto-mint-by-circle". *)
Theorem GET_completes_only_auto_mint (cache : Registry) (w : World)
    (delivery : Attestation.Fetch) (bridgeId : string) (db : Db)
    (tx : BridgeTransaction) :
  rows db !! bridgeId = Some tx →
  (status tx ≠ burned → status tx ≠ attested →
   (GET cache w delivery bridgeId db).1 = db) ∧
  (status tx ≠ completed →
   status <$> rows (GET cache w delivery bridgeId db).1 !! bridgeId = Some completed →
   type <$> getChainConfig cache (destDomainId tx) = Some starknet ∧
   (Attestation.checkMessageDelivered delivery true).1 = true ∧
   mintTxHash <$> rows (GET cache w delivery bridgeId db).1 !! bridgeId
   = Some (Some autoMintHash)).
Proof.
  intros Htx.
  destruct (GET_store cache w delivery bridgeId db)
    as [-> | (tx0 & Htx0 & Hup & Hcase)].
  { split; [done|]. rewrite Htx. intros Hnc [= Hc]. done. }
  rewrite Htx in Htx0. injection Htx0 as <-.
  destruct Hcase as [(Hst & Hburn & Hcase) | (Hst & Hty & Hdel & ->)].
  - split; [done|]. intros _.
    destruct Hcase as [-> | ((tx1 & Htx1 & Hst1) & Hty & Hdel & ->)].
    + destruct (checkAttestation_status w bridgeId db tx Htx) as (tx1 & -> & Hst1).
      cbn. rewrite Hst in Hst1. intros [= Hc]. destruct Hst1; congruence.
    + rewrite update_lookup, Htx1. done.
  - split; [done|]. intros _ _. by rewrite update_lookup, Htx.
Qed.

(** X17. For a burned transfer to Starknet, when the service answers with a
    message whose status is complete and whose attestation is there, one
    request to the status route stores the attestation and completes the
    transfer: the row goes from burned to completed, under the auto-mint
    hash, with the two statements written one after the other. *)
Theorem GET_burned_to_completed (cache : Registry) (w : World) (bridgeId : string)
    (db : Db) (tx : BridgeTransaction) (destConfig : ChainConfig)
    (code : Z) (text : string) (msg : Attestation.ApiMessage)
    (rest : list Attestation.ApiMessage) (att : string) :
  dbUp w = true → rows db !! bridgeId = Some tx →
  status tx = burned → truthy (burnTxHash tx) = true →
  attestationStatus tx ≠ att_complete →
  destDomainId tx = Config.STARKNET_DOMAIN_ID →
  getChainConfig cache Config.STARKNET_DOMAIN_ID = Some destConfig →
  type destConfig = starknet →
  reply w = Attestation.Response code text (Some (Some (msg :: rest))) →
  Attestation.ok code = true →
  toLowerCase (Attestation.api_status msg) = "complete" →
  Attestation.api_attestation msg = Some att →
  Attestation.hasValidAttestation (Some att) = true →
  ∃ db' tx',
    GET cache w (reply w) bridgeId db = (db', StatusOk tx' None true) ∧
    rows db' !! bridgeId = Some tx' ∧
    status tx' = completed ∧ mintTxHash tx' = Some autoMintHash ∧
    attestation tx' = Some att ∧ attestationStatus tx' = att_complete ∧
    writes db' = writes db ++ [UpdateAttested bridgeId; UpdateMint bridgeId].
Proof.
  intros Hup Htx Hst Hburn Hnc Hdest Hcfg Hty Hreply Hok Hs Hatt Hvalid.
  assert (∀ d t, rows d !! bridgeId = Some t → destDomainId t = Config.STARKNET_DOMAIN_ID →
            ∃ m, getTransactionStatus cache w bridgeId d = Returned (Some (t, m)))
    as Hget.
  { intros d t Ht Hd. unfold getTransactionStatus, getTransaction. rewrite Hup, Ht.
    destruct (attestation t) as [a|]; [|by eauto].
    destruct (messageBytes t) as [bytes|]; [|by eauto].
    destruct (_ && _); [|by eauto]. rewrite Hd, Hcfg.
    unfold buildMintTxData, Starknet.buildStarknetMintCall. rewrite Hty, Hcfg.
    cbn [bind]. by eauto. }
  assert (truthy (Some att) = true) as Htruthy.
  { unfold Attestation.hasValidAttestation in Hvalid.
    by destruct (truthy (Some att)). }
  assert ((code =? 404) = false) as H404.
  { unfold Attestation.ok in Hok. lia. }
  set (tx1 := setAttested (Attestation.api_message msg)
                (Attestation.computeMessageHash (Attestation.api_message msg))
                (Attestation.api_eventNonce msg) att (now w) tx).
  set (db1 := update (UpdateAttested bridgeId)
                (setAttested (Attestation.api_message msg)
                   (Attestation.computeMessageHash (Attestation.api_message msg))
                   (Attestation.api_eventNonce msg) att (now w)) bridgeId db).
  assert (checkAttestation w bridgeId db = (db1, Returned (Some att))) as Hcheck.
  { unfold checkAttestation, getTransaction. rewrite Hup, Htx, Hst, Hburn.
    rewrite (bool_decide_eq_false_2 _ Hnc).
    rewrite (bool_decide_eq_false_2 (burned = completed)) by done. cbn [orb negb].
    unfold Attestation.getMessageFromTx. rewrite Hreply, H404, Hok. cbn [negb].
    cbn [Attestation.attestation Attestation.message Attestation.eventNonce].
    rewrite Hatt, Hvalid, Htruthy. done. }
  assert (rows db1 !! bridgeId = Some tx1) as Htx1.
  { unfold db1. by rewrite update_lookup, Htx. }
  set (tx2 := setMint autoMintHash (now w) tx1).
  set (db2 := update (UpdateMint bridgeId) (setMint autoMintHash (now w)) bridgeId db1).
  assert (rows db2 !! bridgeId = Some tx2) as Htx2.
  { unfold db2. by rewrite update_lookup, Htx1. }
  exists db2, tx2. split.
  - unfold GET. destruct (Hget db tx Htx Hdest) as [m ->].
    rewrite Hst.
    rewrite (bool_decide_eq_true_2 (burned ≠ completed)) by done.
    rewrite (bool_decide_eq_true_2 (burned ≠ failed)) by done.
    rewrite (bool_decide_eq_true_2 (burned = burned)) by done.
    rewrite Hburn. cbn [andb]. rewrite Hcheck, Htruthy.
    destruct (Hget db1 tx1 Htx1 Hdest) as [m1 ->].
    unfold deliver, willAutoMint. rewrite Hdest, Hcfg.
    cbn [fmap option_fmap option_map]. rewrite Hty.
    rewrite (bool_decide_eq_true_2 (Some starknet = Some starknet)) by done.
    rewrite (bool_decide_eq_true_2 (status tx1 = attested)) by done.
    rewrite (bool_decide_eq_true_2 (starknet = starknet)) by done.
    change (burnTxHash tx1) with (burnTxHash tx). rewrite Hburn. cbn [andb].
    rewrite Hreply, (checkMessageDelivered_complete code text msg rest Hok Hs)
      by (by rewrite Hatt).
    unfold recordMintTx. rewrite Hup. fold db2.
    by destruct (Hget db2 tx2 Htx2 Hdest) as [m2 ->].
  - split; [done|]. split; [done|]. split; [done|]. split; [done|]. split; [done|].
    unfold db2, db1, update. cbn [writes]. by rewrite <- app_assoc.
Qed.

End RouteOrder.

(** The inbound transfer through its routes: status asked, burn reported,
    status asked with the attestation there, completion reported late. *)
Lemma routes_in_order_witness :
  let calls := [(Samples.notFound, StatusRequest (Service.reply Samples.notFound));
                (Samples.notFound, BurnRequest (Some "0xb02") None None);
                (Samples.attestedReply,
                 StatusRequest (Service.reply Samples.attestedReply));
                (Samples.notFound, CompleteRequest (Some "0xc02"))] in
  omap (λ d, Service.status <$> Service.rows d !! "tx-2")
       (served (H := Samples.library) (H0 := Scenario.runtime) Samples.registry "tx-2"
          Scenario.inboundDb calls)
  = [Service.initiated; Service.initiated; Service.burned; Service.completed;
     Service.completed] ∧
  monotone [Service.initiated; Service.initiated; Service.burned; Service.completed;
            Service.completed].
Proof.
  intros calls.
  assert (omap (λ d, Service.status <$> Service.rows d !! "tx-2")
            (served (H := Samples.library) (H0 := Scenario.runtime) Samples.registry
               "tx-2" Scenario.inboundDb calls)
          = [Service.initiated; Service.initiated; Service.burned; Service.completed;
             Service.completed]) as Hobs by reflexivity.
  split; [exact Hobs|]. rewrite <- Hobs.
  exact (proj1 (routes_in_order (H := Samples.library) (H0 := Scenario.runtime)
                  Samples.registry "tx-2" 1000 Scenario.inbound Scenario.inboundDb
                  calls eq_refl)).
Defined.

(** An id the sample store does not have. *)
Lemma unknown_transaction_witness :
  Service.recordBurnTx (H := Samples.library) Samples.notFound "tx-0" "0xb00" None None
    Samples.initiatedDb
  = (Samples.initiatedDb, Threw "Bridge transaction not found") ∧
  (Service.recordMintTx Samples.notFound "tx-0" "0xb00" Samples.initiatedDb).2
  = Returned tt ∧
  Service.writes (Service.recordMintTx Samples.notFound "tx-0" "0xb00"
                    Samples.initiatedDb).1
  = [Service.InsertTransaction "tx-1"; Service.UpdateMint "tx-0"].
Proof.
  destruct (unknown_transaction (H := Samples.library) (H0 := Scenario.runtime)
              Samples.registry Samples.notFound "tx-0" Samples.initiatedDb "0xb00"
              "late" None None eq_refl eq_refl) as (Hburn & _ & _ & [Hmint _] & _).
  split; [exact Hburn|]. split; [exact Hmint|]. reflexivity.
Defined.

(** The sample transfer completed under "0xc01", then reported again under
    "0xc09". *)
Lemma complete_twice_rejected_witness :
  let db1 := (Service.recordMintTx Samples.notFound "tx-1" "0xc01" Samples.attestedDb).1 in
  CompleteRoute.POST Samples.notFound "tx-1" (Some "0xc01") Samples.attestedDb
  = (db1, CompleteRoute.Completed "tx-1") ∧
  CompleteRoute.POST Samples.attestedReply "tx-1" (Some "0xc09") db1
  = (db1, CompleteRoute.CompleteError 400 "Bridge already completed") ∧
  Service.mintTxHash <$> Service.rows db1 !! "tx-1" = Some (Some "0xc01").
Proof.
  intros db1. split; [reflexivity|].
  destruct (complete_twice_rejected Samples.notFound Samples.attestedReply "tx-1"
              "0xc01" "0xc09" Samples.attestedDb db1 eq_refl eq_refl eq_refl)
    as [Hsecond _].
  split; [exact Hsecond | reflexivity].
Defined.

(** The inbound transfer, attested, with a service that reports its message
    complete. *)
Lemma GET_auto_mint_witness :
  ∃ tx,
    Service.rows Scenario.inboundAttested !! "tx-2" = Some tx ∧
    Service.status tx = Service.attested ∧
    (StatusRoute.GET (H := Samples.library) (H0 := Scenario.runtime) Samples.registry
       Samples.attestedReply (Service.reply Samples.attestedReply) "tx-2"
       Scenario.inboundAttested).2
    = StatusRoute.StatusOk (Service.setMint StatusRoute.autoMintHash 2000 tx) None true.
Proof.
  eexists. split; [reflexivity|]. split; [reflexivity|].
  by rewrite (GET_auto_mint (H := Samples.library) (H0 := Scenario.runtime)
                Samples.registry Samples.attestedReply
                (Service.reply Samples.attestedReply) "tx-2" Scenario.inboundAttested
                _ Samples.starknetChain eq_refl eq_refl eq_refl eq_refl eq_refl
                eq_refl eq_refl eq_refl).
Defined.

(** The sample transfer goes to Ethereum: attested, and the message
    reported complete, the status route leaves it attested. *)
Lemma GET_completes_only_auto_mint_witness :
  ∃ tx,
    Service.rows Samples.attestedDb !! "tx-1" = Some tx ∧
    Service.status tx = Service.attested ∧
    AppConfig.type <$> AppConfig.getChainConfig Samples.registry (Service.destDomainId tx)
    = Some AppConfig.evm ∧
    Service.status <$>
      Service.rows (StatusRoute.GET (H := Samples.library) (H0 := Scenario.runtime)
                      Samples.registry Samples.attestedReply
                      (Service.reply Samples.attestedReply) "tx-1"
                      Samples.attestedDb).1 !! "tx-1"
    ≠ Some Service.completed.
Proof.
  eexists. split; [reflexivity|]. split; [reflexivity|]. split; [reflexivity|].
  intros Hcompleted.
  destruct (GET_completes_only_auto_mint (H := Samples.library) (H0 := Scenario.runtime)
              Samples.registry Samples.attestedReply
              (Service.reply Samples.attestedReply) "tx-1" Samples.attestedDb _ eq_refl)
    as [_ Honly].
  destruct (Honly ltac:(done) Hcompleted) as [Hty _]. discriminate Hty.
Defined.

(** The inbound transfer, burned, asked for its status when the service has
    the attestation and reports the message complete. *)
Lemma GET_burned_to_completed_witness :
  ∃ db' tx',
    StatusRoute.GET (H := Samples.library) (H0 := Scenario.runtime) Samples.registry
      Samples.attestedReply (Service.reply Samples.attestedReply) "tx-2"
      Scenario.inboundBurned
    = (db', StatusRoute.StatusOk tx' None true) ∧
    Service.status tx' = Service.completed ∧
    Service.writes db'
    = [Service.InsertTransaction "tx-2"; Service.UpdateBurn "tx-2";
       Service.UpdateAttested "tx-2"; Service.UpdateMint "tx-2"].
Proof.
  destruct (GET_burned_to_completed (H := Samples.library) (H0 := Scenario.runtime)
              Samples.registry Samples.attestedReply "tx-2" Scenario.inboundBurned
              _ Samples.starknetChain 200 "OK"
              (Attestation.mkApiMessage "0x0001" (Some "0xa77e57") "7" 2 "complete") []
              "0xa77e57"
              eq_refl eq_refl eq_refl eq_refl ltac:(done) eq_refl eq_refl eq_refl
              eq_refl eq_refl eq_refl eq_refl eq_refl)
    as (db' & tx' & Hget & _ & Hst & _ & _ & _ & Hw).
  exists db', tx'. split; [exact Hget|]. split; [exact Hst|]. exact Hw.
Defined.

(** ** Quotes and payloads *)

Section QuoteFacts.
Context `{Library}.
Import Config AppConfig Service.

(** X18. [getQuote] answers exactly when one side is Starknet and the amount
    reads as an integer, whether or not the chains are registered; the fee it
    quotes does not depend on the amount: it is the fee [initiateBridge]
    selects for the same flag, 10000 units for a fast transfer (also when the
    flag is left out) and 0 otherwise; a fast quote promises about 30 seconds
    on any route. *)
Theorem getQuote_spec (cache : Registry) (sourceDomain destDomain : Z)
    (amount : string) (fast : option bool) :
  (succeeds (getQuote cache sourceDomain destDomain amount fast)
   ↔ isValidBridgePair sourceDomain destDomain = true ∧ is_Some (BigInt amount)) ∧
  (isValidBridgePair sourceDomain destDomain = false →
   invalidPair (getQuote cache sourceDomain destDomain amount fast)) ∧
  (∀ q, getQuote cache sourceDomain destDomain amount fast = Returned q →
     fee q = (if default true fast then "10000" else "0") ∧
     rate q = "1:1" ∧
     (∀ params, p_isFastTransfer params = fast →
                fee q = pretty (selectedMaxFee params)) ∧
     (default true fast = true → estimatedTime q = "~30 seconds")).
Proof.
  unfold getQuote, succeeds, invalidPair.
  destruct (isValidBridgePair sourceDomain destDomain); cbn [negb].
  - destruct (BigInt amount) as [amountBigInt|].
    + split; [split; [by eauto|by eauto]|]. split; [done|].
      intros q [= <-]. cbn [fee rate estimatedTime].
      unfold minimumFee. rewrite Z.mul_0_r.
      split; [by destruct fast as [[|]|]|]. split; [done|]. split.
      * intros params <-. unfold selectedMaxFee, isFast.
        by destruct (p_isFastTransfer params) as [[|]|].
      * intros ->. done.
    + split; [split; [by intros [? ?]|by intros [_ [? ?]]]|]. split; [done|]. done.
  - split; [split; [by intros [? ?]|by intros [? _]]|]. split; [done|]. done.
Qed.

End QuoteFacts.

Section MintFacts.
Context `{Library} `{Runtime}.
Import Config AppConfig Service.

(** X19. On a registry loaded from the table, the mint payload for an EVM
    destination is the [receiveMessage] call on the message transmitter of
    that destination, whatever its domain: the builder, which looks the
    destination up again by its domain id, finds the same row. *)
Theorem buildMintTxData_evm_loaded (testnet : bool) (supported_chains : list ChainConfig)
    (d : Z) (destConfig : ChainConfig) (message att : string) :
  getChainConfig (loadChainConfig testnet supported_chains) d = Some destConfig →
  type destConfig = evm →
  buildMintTxData (loadChainConfig testnet supported_chains) destConfig message att
  = bind (Evm.getReceiveMessageTxData message att) (λ data,
      Returned {| mt_evm := Some {| Evm.to := messageTransmitter destConfig;
                                    Evm.data := data;
                                    Evm.chainId := parseInt (chainId destConfig) |};
                  mt_starknet := None; mt_solana := None |}).
Proof.
  intros Hcfg Hty.
  destruct (loadChainConfig_row _ _ _ _ Hcfg) as (_ & Hd & _).
  unfold buildMintTxData, Evm.buildReceiveMessageTx, Evm.getReceiveMessageTxData.
  rewrite Hty, Hd, Hcfg, Hty.
  by destruct (encodeFunctionData _ _).
Qed.

(** X20. [getTransactionStatus] offers a mint payload exactly when the row has
    an attestation and message bytes and its destination is registered; the
    payload is for the chain family of the destination and for no other. *)
Theorem getTransactionStatus_payload (cache : Registry) (w : World) (bridgeId : string)
    (db : Db) (tx : BridgeTransaction) (m : option MintTxData) :
  getTransactionStatus cache w bridgeId db = Returned (Some (tx, m)) →
  rows db !! bridgeId = Some tx ∧
  (is_Some m ↔ truthy (attestation tx) = true ∧ truthy (messageBytes tx) = true ∧
               is_Some (getChainConfig cache (destDomainId tx))) ∧
  (∀ mint destConfig, m = Some mint →
     getChainConfig cache (destDomainId tx) = Some destConfig →
     match type destConfig with
     | evm => is_Some (mt_evm mint) ∧ mt_starknet mint = None ∧ mt_solana mint = None
     | starknet =>
         mt_evm mint = None ∧ mt_solana mint = None ∧
         ∃ call, mt_starknet mint = Some [call] ∧
                 Starknet.entrypoint call = "handle_receive_finalized_message"
     | solana =>
         mt_evm mint = None ∧ mt_starknet mint = None ∧
         ∃ instruction, mt_solana mint = Some [instruction]
     end).
Proof.
  unfold getTransactionStatus, getTransaction.
  destruct (dbUp w); [|done]. destruct (rows db !! bridgeId) as [tx'|]; [|done].
  assert (∀ P Q : Prop, ¬ P → (is_Some (@None MintTxData) ↔ P ∧ Q)) as Hno.
  { intros P Q HP. split; [by intros [? ?]|by intros [? _]]. }
  destruct (attestation tx') as [att|] eqn:Hatt.
  2:{ intros [= <- <-]. split; [done|]. split; [|done]. apply Hno. by rewrite Hatt. }
  destruct (messageBytes tx') as [bytes|] eqn:Hbytes.
  2:{ intros [= <- <-]. split; [done|]. split; [|done].
      split; [by intros [? ?]|]. rewrite Hbytes. by intros (_ & ? & _). }
  destruct (truthy (Some att)) eqn:Ht1; cbn [andb].
  2:{ intros [= <- <-]. split; [done|]. split; [|done]. apply Hno.
      by rewrite Hatt, Ht1. }
  destruct (truthy (Some bytes)) eqn:Ht2.
  2:{ intros [= <- <-]. split; [done|]. split; [|done].
      split; [by intros [? ?]|]. rewrite Hbytes, Ht2. by intros (_ & ? & _). }
  destruct (getChainConfig cache (destDomainId tx')) as [destConfig|] eqn:Hcfg.
  2:{ intros [= <- <-]. split; [done|]. split; [|done].
      split; [by intros [? ?]|]. rewrite Hcfg. by intros (_ & _ & [? ?]). }
  destruct (buildMintTxData cache destConfig bytes att) as [mint|] eqn:Hmint;
    cbn [bind]; [|done].
  intros [= <- <-]. split; [done|]. rewrite Hatt, Hbytes, Hcfg.
  split; [by split; eauto|].
  intros mint' destConfig' [= <-] [= <-].
  unfold buildMintTxData in Hmint.
  destruct (type destConfig).
  - destruct (Evm.buildReceiveMessageTx _ _ _ _); cbn [bind] in Hmint; [|done].
    injection Hmint as <-. cbn. by eauto.
  - destruct (Solana.buildSolanaMintInstruction _ _ _ _); cbn [bind] in Hmint; [|done].
    injection Hmint as <-. cbn. by eauto.
  - unfold Starknet.buildStarknetMintCall in Hmint.
    destruct (getChainConfig cache STARKNET_DOMAIN_ID); cbn [bind] in Hmint; [|done].
    injection Hmint as <-. cbn. by eauto.
Qed.

End MintFacts.

(** The mint on Ethereum, on the registry loaded from the sample table. *)
Lemma buildMintTxData_evm_loaded_witness :
  Service.buildMintTxData (H := Samples.library) (H0 := Scenario.runtime)
    (AppConfig.loadChainConfig false Scenario.supported_chains) Samples.ethereum
    "0x0001" "0xa77e57"
  = Returned {| Service.mt_evm :=
                  Some {| Evm.to := "0x0a992d191deec32afe36203ad87d7d289a738f81";
                          Evm.data := "receiveMessage";
                          Evm.chainId := None |};
                Service.mt_starknet := None; Service.mt_solana := None |}.
Proof.
  by rewrite (buildMintTxData_evm_loaded (H := Samples.library) (H0 := Scenario.runtime)
                false Scenario.supported_chains 0 Samples.ethereum "0x0001" "0xa77e57"
                eq_refl eq_refl).
Defined.

(** The inbound transfer once attested: the payload is the one call of
    Starknet. *)
Lemma getTransactionStatus_payload_witness :
  ∃ tx mint call,
    Service.getTransactionStatus (H := Samples.library) (H0 := Scenario.runtime)
      Samples.registry Samples.notFound "tx-2" Scenario.inboundAttested
    = Returned (Some (tx, Some mint)) ∧
    Service.mt_starknet mint = Some [call] ∧
    Starknet.entrypoint call = "handle_receive_finalized_message" ∧
    Service.mt_evm mint = None.
Proof.
  destruct (Service.getTransactionStatus (H := Samples.library) (H0 := Scenario.runtime)
              Samples.registry Samples.notFound "tx-2" Scenario.inboundAttested)
    as [[[tx [mint|]]|]|] eqn:Hget; try discriminate Hget.
  destruct (getTransactionStatus_payload (H := Samples.library) (H0 := Scenario.runtime)
              Samples.registry Samples.notFound "tx-2" Scenario.inboundAttested
              tx (Some mint) Hget) as (Htx & _ & Hfamily).
  assert (AppConfig.getChainConfig Samples.registry (Service.destDomainId tx)
          = Some Samples.starknetChain) as Hcfg.
  { assert (Service.destDomainId <$> Service.rows Scenario.inboundAttested !! "tx-2"
            = Some 25) as Hd by reflexivity.
    rewrite Htx in Hd. injection Hd as ->. reflexivity. }
  destruct (Hfamily mint Samples.starknetChain eq_refl Hcfg)
    as (Hevm & _ & call & Hcall & Hentry).
  by exists tx, mint, call.
Defined.

Section PayloadFacts.
Context `{Library}.
Import Config AppConfig Service.

(** X21. The two calls of a Starknet burn: the first approves, on the token that
    is burned, the contract that burns it, for exactly the amount burned,
    an amount that fits 256 bits; the second is the burn. *)
Theorem buildStarknetBurnMulticall_shape (cache : Registry)
    (params : Starknet.StarknetDepositForBurnParams) (calls : list Starknet.Call) :
  Starknet.buildStarknetBurnMulticall cache params = Returned calls →
  ∃ starknetConfig approveCall burnCall,
    getChainConfig cache STARKNET_DOMAIN_ID = Some starknetConfig ∧
    calls = [approveCall; burnCall] ∧
    Starknet.buildStarknetBurnCall cache params = Returned burnCall ∧
    Starknet.contractAddress approveCall = usdc starknetConfig ∧
    Starknet.entrypoint approveCall = "approve" ∧
    Starknet.contractAddress burnCall = tokenMessenger starknetConfig ∧
    Starknet.entrypoint burnCall = "deposit_for_burn" ∧
    0 ≤ Starknet.amount params < 2 ^ 256 ∧
    Starknet.calldata approveCall
    = Starknet.contractAddress burnCall :: list.take 2 (Starknet.calldata burnCall) ∧
    Starknet.calldata burnCall !! 5%nat = Some (Starknet.contractAddress approveCall) ∧
    length (Starknet.calldata burnCall) = 11%nat.
Proof.
  unfold Starknet.buildStarknetBurnMulticall, Starknet.buildStarknetApproveCall.
  destruct (getChainConfig cache STARKNET_DOMAIN_ID) as [starknetConfig|] eqn:Hcfg;
    [|done].
  destruct (Starknet.toUint256 (Starknet.amount params)) as [amountU256|] eqn:Hamount;
    cbn [bind]; [|done].
  destruct (Starknet.buildStarknetBurnCall cache params) as [burnCall|] eqn:Hburn;
    cbn [bind]; [|done].
  intros [= <-]. exists starknetConfig. eexists _, burnCall.
  split; [done|]. split; [done|]. split; [done|].
  unfold Starknet.buildStarknetBurnCall in Hburn. rewrite Hcfg, Hamount in Hburn.
  destruct (getChainConfig cache (Starknet.destinationDomain params)); [|done].
  cbn [bind] in Hburn.
  match type of Hburn with bind ?o _ = _ => destruct o; cbn [bind] in Hburn; [|done] end.
  match type of Hburn with bind ?o _ = _ => destruct o; cbn [bind] in Hburn; [|done] end.
  injection Hburn as <-. cbn. repeat (split; [done|]). split; [|done].
  unfold Starknet.toUint256, Starknet.cairo_uint256 in Hamount.
  destruct ((0 <=? Starknet.amount params) && (Starknet.amount params <? 2 ^ 256))
    eqn:Hrange; [|done]. lia.
Qed.

(** X22. The two transactions of an EVM burn: the approval, sent to the token
    that is burned, on the chain of the burn, allows the contract the burn is
    sent to, and it allows it the maximum a uint256 holds, not the amount
    burned. *)
Theorem buildBurnTxData_evm_approval (cache : Registry) (sourceConfig : ChainConfig)
    (params : Evm.DepositForBurnParams) (txData : BurnTxData) :
  type sourceConfig = evm →
  getChainConfig cache (domainId sourceConfig) = Some sourceConfig →
  buildBurnTxData cache sourceConfig params = Returned txData →
  ∃ burnTx approveTx,
    bt_evm txData = Some burnTx ∧ bt_evmApprove txData = Some approveTx ∧
    bt_starknet txData = None ∧ bt_solana txData = None ∧
    Evm.to burnTx = tokenMessenger sourceConfig ∧
    Evm.to approveTx = usdc sourceConfig ∧
    Evm.chainId approveTx = Evm.chainId burnTx ∧
    encodeFunctionData "approve" [AbiAddress (Evm.to burnTx); AbiUint (2 ^ 256 - 1)]
    = Some (Evm.data approveTx).
Proof.
  intros Hty Hcfg. unfold buildBurnTxData. rewrite Hty.
  destruct (Evm.buildDepositForBurnTx cache (domainId sourceConfig) params)
    as [burnTx|] eqn:Hburn; cbn [bind]; [|done].
  unfold Evm.getApprovalTxData, Evm.MAX_UINT256.
  destruct (encodeFunctionData "approve" _) as [approveData|] eqn:Happrove;
    cbn [bind]; [|done].
  intros [= <-]. eexists _, _. repeat (split; [done|]). cbn.
  unfold Evm.buildDepositForBurnTx in Hburn. rewrite Hcfg, Hty in Hburn.
  destruct (getChainConfig cache (Evm.destinationDomain params)); [|done].
  match type of Hburn with bind ?o _ = _ => destruct o; cbn [bind] in Hburn; [|done] end.
  destruct (encodeFunctionData "depositForBurn" _); [|done].
  injection Hburn as <-. done.
Qed.

End PayloadFacts.

(** The burn of the sample transfer on Starknet: 1000000 units approved and
    burned. *)
Lemma buildStarknetBurnMulticall_shape_witness :
  ∃ approveCall burnCall,
    Starknet.buildStarknetBurnMulticall (H := Samples.library) Samples.registry
      {| Starknet.amount := 1000000; Starknet.destinationDomain := 0;
         Starknet.mintRecipient := "0xa0b86991c6218b36c1d19d4a2e9eb0ce3606eb48";
         Starknet.maxFee := Some 10000; Starknet.minFinalityThreshold := Some 1000 |}
    = Returned [approveCall; burnCall] ∧
    Starknet.calldata approveCall
    = [AppConfig.tokenMessenger Samples.starknetChain; "1000000"; "0"] ∧
    list.take 2 (Starknet.calldata burnCall) = ["1000000"; "0"].
Proof.
  destruct (buildStarknetBurnMulticall_shape (H := Samples.library) Samples.registry
              {| Starknet.amount := 1000000; Starknet.destinationDomain := 0;
                 Starknet.mintRecipient := "0xa0b86991c6218b36c1d19d4a2e9eb0ce3606eb48";
                 Starknet.maxFee := Some 10000;
                 Starknet.minFinalityThreshold := Some 1000 |}
              _ eq_refl)
    as (cfg & approveCall & burnCall & _ & Hcalls & _).
  injection Hcalls as <- <-. eexists _, _. split; [reflexivity|]. by split.
Defined.

(** The burn of the inbound transfer on Ethereum. *)
Lemma buildBurnTxData_evm_approval_witness :
  ∃ txData approveTx,
    Service.buildBurnTxData (H := Samples.library) Samples.registry Samples.ethereum
      {| Evm.amount := 1000000; Evm.destinationDomain := 25;
         Evm.mintRecipient :=
           "0x049d36570d4e46f48e99674bd3fcc84644ddd6b96f7c741b1562b82f9e004dc7";
         Evm.burnToken := AppConfig.usdc Samples.ethereum;
         Evm.destinationCaller := None; Evm.maxFee := Some 10000;
         Evm.minFinalityThreshold := Some 1000;
         Evm.userAddress := "0xa0b86991c6218b36c1d19d4a2e9eb0ce3606eb48" |}
    = Returned txData ∧
    Service.bt_evmApprove txData = Some approveTx ∧
    Evm.to approveTx = "0xa0b86991c6218b36c1d19d4a2e9eb0ce3606eb48".
Proof.
  destruct (buildBurnTxData_evm_approval (H := Samples.library) Samples.registry
              Samples.ethereum
              {| Evm.amount := 1000000; Evm.destinationDomain := 25;
                 Evm.mintRecipient :=
                   "0x049d36570d4e46f48e99674bd3fcc84644ddd6b96f7c741b1562b82f9e004dc7";
                 Evm.burnToken := AppConfig.usdc Samples.ethereum;
                 Evm.destinationCaller := None; Evm.maxFee := Some 10000;
                 Evm.minFinalityThreshold := Some 1000;
                 Evm.userAddress := "0xa0b86991c6218b36c1d19d4a2e9eb0ce3606eb48" |}
              _ eq_refl eq_refl eq_refl)
    as (burnTx & approveTx & _ & Happrove & _ & _ & _ & Hto & _).
  eexists _, approveTx. split; [reflexivity|]. split; [exact Happrove | exact Hto].
Defined.

(** ** The job set *)

Section QueueFacts.
Context `{Library}.
Import Service Worker.

(** X23. [enqueueJob] never replaces a job: a second call for the same id changes
    nothing, whatever it is given; it touches neither the other jobs nor the
    store. *)
Theorem enqueueJob_dedupe (tick tick' : Tick) (bridgeId messageHash messageHash' : string)
    (attempts attempts' : Z) (st : State) :
  let st1 := enqueueJob tick bridgeId messageHash attempts st in
  is_Some (jobs st1 !! bridgeId) ∧
  (∀ job, jobs st !! bridgeId = Some job → st1 = st) ∧
  enqueueJob tick' bridgeId messageHash' attempts' st1 = st1 ∧
  db st1 = db st ∧
  (∀ other, other ≠ bridgeId → jobs st1 !! other = jobs st !! other) ∧
  (keyed st → keyed st1).
Proof.
  intros st1. unfold st1, enqueueJob.
  destruct (jobs st !! bridgeId) as [job|] eqn:Hjob.
  - rewrite Hjob. split; [by eauto|]. by repeat split.
  - cbn [jobs db]. rewrite lookup_insert_eq. split; [by eauto|].
    split; [done|]. split; [done|]. split; [done|]. split.
    + intros other Hne. by rewrite lookup_insert_ne.
    + intros Hk k job. cbn [jobs]. destruct (decide (bridgeId = k)) as [<- | Hne].
      * rewrite lookup_insert_eq. by intros [= <-].
      * rewrite lookup_insert_ne by done. apply Hk.
Qed.

(** A poll that returns an attestation returns the one the row then has. *)
Lemma checkAttestation_stored w bridgeId db tx att :
  rows db !! bridgeId = Some tx →
  (checkAttestation w bridgeId db).2 = Returned att → truthy att = true →
  attestation <$> rows (checkAttestation w bridgeId db).1 !! bridgeId = Some att.
Proof.
  intros Htx. unfold checkAttestation, getTransaction.
  destruct (dbUp w); [|done]. rewrite Htx.
  destruct (_ || _). { cbn. intros [= <-] _. by rewrite Htx. }
  destruct (negb _). { cbn. by intros [= <-]. }
  destruct (Attestation.getMessageFromTx (reply w)) as [[messageData|]|];
    [| cbn; by intros [= <-] | cbn; by intros [= <-]].
  destruct (Attestation.attestation messageData) as [a|];
    [destruct (truthy (Some a))|]; cbn [fst snd]; intros [= <-]; try done.
  intros _. by rewrite update_lookup, Htx.
Qed.

(** X24. A job leaves the job set only resolved: with the attestation in its
    row, or, the attempts used up, with its transfer marked failed for the
    timeout. *)
Theorem processJob_resolved (tick : Tick) (bridgeId : string) (st : State)
    (job : AttestationJob) (tx : BridgeTransaction) :
  jobs st !! bridgeId = Some job → job_id job = bridgeId →
  rows (db st) !! bridgeId = Some tx →
  jobs (processJob tick bridgeId st) !! bridgeId = None →
  ∃ tx', rows (db (processJob tick bridgeId st)) !! bridgeId = Some tx' ∧
    (truthy (attestation tx') = true ∨
     (MAX_ATTEMPTS ≤ attempts job + 1 ∧ status tx' = failed ∧
      errorMessage tx' = Some timeoutMessage)).
Proof.
  intros Hjob Hid Htx. unfold processJob. rewrite Hjob, Hid.
  destruct (checkAttestation_row (world tick) bridgeId (db st) tx Htx) as [tx1 Htx1].
  pose proof (checkAttestation_stored (world tick) bridgeId (db st) tx) as Hstored.
  pose proof (checkAttestation_returned (world tick) bridgeId (db st)) as Hup.
  destruct (checkAttestation (world tick) bridgeId (db st)) as [db1 [att|e]];
    cbn [fst snd] in *.
  - destruct (truthy att) eqn:Hatt; cbn [jobs db].
    + intros _. exists tx1. split; [done|]. left.
      specialize (Hstored att Htx eq_refl Hatt). rewrite Htx1 in Hstored.
      injection Hstored as ->. done.
    + destruct (MAX_ATTEMPTS <=? attempts job + 1) eqn:Hmax; cbn [jobs db].
      * intros _.
        destruct (markFailed_row (world tick) bridgeId timeoutMessage db1 tx1
                    (Hup att eq_refl) Htx1) as [Hrow _].
        eexists. split; [exact Hrow|]. right. split; [lia|done].
      * by rewrite lookup_insert_eq.
  - cbn [jobs]. by rewrite lookup_insert_eq.
Qed.

Lemma processJob_store_down tick bridgeId st job :
  jobs st !! bridgeId = Some job → job_id job = bridgeId →
  dbUp (world tick) = false →
  processJob tick bridgeId st
  = {| jobs := <[bridgeId := retryLater tick job]> (jobs st); db := db st |}.
Proof.
  intros Hjob Hid Hdown. unfold processJob. rewrite Hjob, Hid.
  by rewrite checkAttestation_store_down.
Qed.

(** X25. While the store does not answer, every poll counts as an attempt but
    none ends the job: it stays in the job set, beyond the maximum of
    attempts too, and the store is left as it was. *)
Theorem poll_store_down (bridgeId : string) (ticks : list Tick) (st : State)
    (job : AttestationJob) :
  jobs st !! bridgeId = Some job → job_id job = bridgeId →
  Forall (λ tick, dbUp (world tick) = false) ticks →
  db (poll bridgeId ticks st) = db st ∧
  ∃ job', jobs (poll bridgeId ticks st) !! bridgeId = Some job' ∧
          job_id job' = bridgeId ∧
          attempts job' = attempts job + Z.of_nat (length ticks).
Proof.
  intros Hjob Hid Hdown. revert st job Hjob Hid.
  induction Hdown as [|tick ticks Htick _ IH]; intros st job Hjob Hid.
  - cbn [poll length]. split; [done|]. exists job. split; [done|]. split; [done|]. lia.
  - cbn [poll]. rewrite (processJob_store_down tick bridgeId st job Hjob Hid Htick).
    destruct (IH {| jobs := <[bridgeId := retryLater tick job]> (jobs st); db := db st |}
                (retryLater tick job)) as [Hdb (job' & Hjob' & Hid' & Hatt)].
    + apply lookup_insert_eq.
    + done.
    + split; [done|]. exists job'. split; [done|]. split; [done|].
      rewrite Hatt. cbn [attempts retryLater length]. lia.
Qed.

(** X26. Polling one job touches no other job and no other row, and keeps every
    job under its own id. *)
Theorem processJob_frame (tick : Tick) (bridgeId : string) (st : State) :
  keyed st →
  keyed (processJob tick bridgeId st) ∧
  ∀ other, other ≠ bridgeId →
    jobs (processJob tick bridgeId st) !! other = jobs st !! other ∧
    rows (db (processJob tick bridgeId st)) !! other = rows (db st) !! other.
Proof.
  intros Hk. unfold processJob.
  destruct (jobs st !! bridgeId) as [job|] eqn:Hjob; [|done].
  rewrite (Hk _ _ Hjob).
  assert (keyed {| jobs := <[bridgeId := retryLater tick job]> (jobs st);
                   db := db st |}) as Hretry.
  { intros k j. cbn [jobs]. destruct (decide (bridgeId = k)) as [<- | Hne].
    - rewrite lookup_insert_eq. intros [= <-]. cbn. by apply Hk.
    - rewrite lookup_insert_ne by done. apply Hk. }
  assert (∀ d, keyed {| jobs := delete bridgeId (jobs st); db := d |}) as Hdel.
  { intros d k j. cbn [jobs]. destruct (decide (bridgeId = k)) as [<- | Hne].
    - by rewrite lookup_delete_eq.
    - rewrite lookup_delete_ne by done. apply Hk. }
  assert (∀ other, other ≠ bridgeId →
            rows (checkAttestation (world tick) bridgeId (db st)).1 !! other
            = rows (db st) !! other) as Hrows.
  { intros other Hne.
    destruct (checkAttestation_store (world tick) bridgeId (db st))
      as [-> | (stmt & set & ->)]; [done|].
    by rewrite update_lookup_ne. }
  destruct (checkAttestation (world tick) bridgeId (db st)) as [db1 [att|e]];
    cbn [fst] in Hrows.
  - destruct (truthy att).
    + split; [apply Hdel|]. intros other Hne. cbn [jobs db].
      rewrite lookup_delete_ne by done. split; [done|by apply Hrows].
    + destruct (MAX_ATTEMPTS <=? attempts job + 1).
      * split; [apply Hdel|]. intros other Hne. cbn [jobs db].
        rewrite lookup_delete_ne by done. split; [done|].
        unfold markFailed. destruct (dbUp (world tick)); cbn [fst].
        -- rewrite update_lookup_ne by done. by apply Hrows.
        -- by apply Hrows.
      * split; [exact (λ k j, Hretry k j)|]. intros other Hne. cbn [jobs db].
        rewrite lookup_insert_ne by done. split; [done|by apply Hrows].
  - split; [exact (λ k j, Hretry k j)|]. intros other Hne. cbn [jobs db].
    rewrite lookup_insert_ne by done. split; [done|by apply Hrows].
Qed.

End QueueFacts.

(** The sample job polled when the service has the attestation: it leaves
    the job set and the attestation is in the row. *)
Lemma processJob_resolved_witness :
  let st' := Worker.processJob (H := Samples.library) Scenario.tickAttested "tx-1"
               (Samples.tracked 3) in
  Worker.jobs st' !! "tx-1" = None ∧
  ∃ tx', Service.rows (Worker.db st') !! "tx-1" = Some tx' ∧
         Service.attestation tx' = Some "0xa77e57".
Proof.
  intros st'. split; [reflexivity|].
  destruct (processJob_resolved (H := Samples.library) Scenario.tickAttested "tx-1"
              (Samples.tracked 3) _ _ eq_refl eq_refl eq_refl eq_refl)
    as (tx' & Htx' & _).
  exists tx'. split; [exact Htx'|].
  assert (Service.attestation <$> Service.rows (Worker.db st') !! "tx-1"
          = Some (Some "0xa77e57")) as Hatt by reflexivity.
  unfold st' in Hatt. rewrite Htx' in Hatt. by injection Hatt.
Defined.

(** The sample job at 119 attempts, polled three times while the store does
    not answer: 122 attempts, and still there. *)
Lemma poll_store_down_witness :
  let ticks := [Scenario.tickDown; Scenario.tickDown; Scenario.tickDown] in
  ∃ job',
    Worker.jobs (Worker.poll (H := Samples.library) "tx-1" ticks (Samples.tracked 119))
      !! "tx-1" = Some job' ∧
    Worker.attempts job' = 122 ∧
    Worker.MAX_ATTEMPTS < Worker.attempts job'.
Proof.
  intros ticks.
  destruct (poll_store_down (H := Samples.library) "tx-1" ticks (Samples.tracked 119)
              _ eq_refl eq_refl
              ltac:(repeat constructor))
    as (_ & job' & Hjob' & _ & Hattempts).
  exists job'. split; [exact Hjob'|]. rewrite Hattempts. by split.
Defined.

(** The sample job polled: the row of the inbound transfer, had it been in
    the same store, and any other job are left alone. *)
Lemma processJob_frame_witness :
  keyed (Samples.tracked 3) ∧
  keyed (Worker.processJob (H := Samples.library) Samples.tick404 "tx-1"
           (Samples.tracked 3)) ∧
  Worker.jobs (Worker.processJob (H := Samples.library) Samples.tick404 "tx-1"
                 (Samples.tracked 3)) !! "tx-2"
  = Worker.jobs (Samples.tracked 3) !! "tx-2".
Proof.
  assert (keyed (Samples.tracked 3)) as Hk.
  { intros k job. change (Worker.jobs (Samples.tracked 3))
      with (<["tx-1" := {| Worker.job_id := "tx-1"; Worker.job_messageHash := "";
                           Worker.attempts := 3;
                           Worker.nextRetry :=
                             5000 + Worker.calculateBackoff 3 (1 # 2) |}]>
              (∅ : gmap string Worker.AttestationJob)).
    destruct (decide ("tx-1" = k)) as [<- | Hne].
    - rewrite lookup_insert_eq. by intros [= <-].
    - rewrite lookup_insert_ne by done. by rewrite lookup_empty. }
  split; [exact Hk|].
  destruct (processJob_frame (H := Samples.library) Samples.tick404 "tx-1"
              (Samples.tracked 3) Hk) as [Hk' Hother].
  split; [exact Hk'|]. exact (proj1 (Hother "tx-2" ltac:(done))).
Defined.

Section PendingFacts.
Context `{Library}.
Import Service Worker.

(** X27. [getPendingAttestations] returns at most 100 rows, oldest first; each is
    a row of the table that is burned, has a burn hash, awaits its attestation
    and was not polled in the last five seconds; and a row of that kind is
    left out only when 100 rows not younger than it are returned. *)
Theorem getPendingAttestations_spec (w : World) (db : Db)
    (pending : list BridgeTransaction) :
  getPendingAttestations w db = Returned pending →
  (length pending ≤ 100)%nat ∧
  StronglySorted createdBefore pending ∧
  (∀ tx, tx ∈ pending →
     (∃ k, rows db !! k = Some tx) ∧
     status tx = burned ∧ attestationStatus tx = att_pending ∧
     is_Some (burnTxHash tx) ∧
     (∀ checked, lastAttestationCheck tx = Some checked → checked < now w - 5000)) ∧
  (∀ k tx, rows db !! k = Some tx → isPendingAttestation (now w) tx = true →
     tx ∉ pending →
     length pending = 100%nat ∧ ∀ p, p ∈ pending → createdAt p ≤ createdAt tx).
Proof.
  unfold getPendingAttestations. destruct (dbUp w); [|done]. intros [= <-].
  set (matching := List.filter (isPendingAttestation (now w)) (map_to_list (rows db)).*2).
  set (sorted := merge_sort createdBefore matching).
  assert (∀ tx, tx ∈ sorted ↔
            isPendingAttestation (now w) tx = true ∧ ∃ k, rows db !! k = Some tx)
    as Hin.
  { intros tx. unfold sorted. rewrite merge_sort_Permutation. unfold matching.
    rewrite list_elem_of_In, filter_In, <- list_elem_of_In, list_elem_of_fmap.
    split.
    - intros [([k tx'] & -> & Hk) Hp]. apply elem_of_map_to_list in Hk. by eauto.
    - intros [Hp [k Hk]]. split; [|done]. exists (k, tx). split; [done|].
      by apply elem_of_map_to_list. }
  assert (StronglySorted createdBefore sorted) as Hsorted.
  { apply StronglySorted_merge_sort; apply _. }
  rewrite <- (list.take_drop 100%nat sorted) in Hsorted.
  split; [rewrite length_take; lia|].
  split; [by apply StronglySorted_app_1_l in Hsorted|]. split.
  - intros tx Htx. apply elem_of_take in Htx as (i & Htx & _).
    apply list_elem_of_lookup_2, Hin in Htx as [Hp Hk]. split; [done|].
    unfold isPendingAttestation in Hp.
    apply andb_true_iff in Hp as [Hp Hc]. apply andb_true_iff in Hp as [Hp Hb].
    apply andb_true_iff in Hp as [Ha Hs].
    apply bool_decide_eq_true in Ha, Hs, Hb. repeat (split; [done|]).
    intros checked Hchecked. rewrite Hchecked in Hc. lia.
  - intros k tx Hk Hp Hout.
    assert (tx ∈ sorted) as Htx by (apply Hin; eauto).
    rewrite <- (list.take_drop 100%nat sorted) in Htx. apply elem_of_app in Htx as [?|Htx]; [done|].
    split.
    + apply list_elem_of_lookup_1 in Htx as [i Hi].
      apply lookup_lt_Some in Hi. rewrite length_drop in Hi. rewrite length_take. lia.
    + intros p Hp'. exact (StronglySorted_app_1_elem_of _ _ _ p tx Hsorted Hp' Htx).
Qed.

Lemma enqueueAll_spec draw i pending st :
  let st' := enqueueAll draw i pending st in
  db st' = db st ∧
  (∀ k job, jobs st !! k = Some job → jobs st' !! k = Some job) ∧
  (∀ k job, jobs st' !! k = Some job → jobs st !! k = None →
     job_id job = k ∧
     ∃ tx, tx ∈ pending ∧ id tx = k ∧ attempts job = attestationAttempts tx) ∧
  (∀ tx, tx ∈ pending → is_Some (jobs st' !! id tx)).
Proof.
  revert i st. induction pending as [|tx pending IH]; intros i st; cbn [enqueueAll].
  - split; [done|]. split; [done|]. split; [by intros k job ->|].
    intros tx Htx. by apply elem_of_nil in Htx.
  - set (h := if truthy (messageHash tx) then default "" (messageHash tx) else "").
    set (st1 := enqueueJob (draw i) (id tx) h (attestationAttempts tx) st).
    destruct (IH (S i) st1) as (Hdb & Hkeep & Hnew & Hall). cbn zeta in *.
    assert (db st1 = db st) as Hdb1.
    { unfold st1, enqueueJob. by destruct (jobs st !! id tx). }
    assert (∀ k job, jobs st !! k = Some job → jobs st1 !! k = Some job) as Hkeep1.
    { intros k job Hjob. unfold st1, enqueueJob.
      destruct (jobs st !! id tx) eqn:Hid; [done|]. cbn [jobs].
      rewrite lookup_insert_ne; [done|]. intros <-. congruence. }
    split; [congruence|]. split; [by eauto|]. split.
    + intros k job Hjob Hnone.
      destruct (jobs st1 !! k) as [job1|] eqn:Hjob1.
      * rewrite (Hkeep k job1 Hjob1) in Hjob. injection Hjob as <-.
        unfold st1, enqueueJob in Hjob1.
        destruct (jobs st !! id tx) eqn:Hid; [congruence|]. cbn [jobs] in Hjob1.
        destruct (decide (id tx = k)) as [<- | Hne].
        -- rewrite lookup_insert_eq in Hjob1. injection Hjob1 as <-.
           split; [done|]. exists tx. split; [apply list_elem_of_here|done].
        -- rewrite lookup_insert_ne in Hjob1 by done. congruence.
      * destruct (Hnew k job Hjob Hjob1) as [Hid (tx' & Hin & Htx' & Hattempts)].
        split; [done|]. exists tx'. split; [by apply list_elem_of_further|done].
    + intros tx' Htx'. apply elem_of_cons in Htx' as [-> | Htx']; [|by apply Hall].
      assert (is_Some (jobs st1 !! id tx)) as [job1 Hjob1].
      { unfold st1, enqueueJob. destruct (jobs st !! id tx) eqn:Hid; [by eauto|].
        cbn [jobs]. rewrite lookup_insert_eq. by eauto. }
      by eauto.
Qed.

(** X28. [loadPendingJobs] leaves the store and the jobs it already has as they
    are; a job it adds is for a row that is burned and awaits its attestation,
    and starts from the attempts counted in that row; when the store does not
    answer nothing changes. *)
Theorem loadPendingJobs_spec (w : World) (draw : nat → Tick) (st : State) :
  let st' := loadPendingJobs w draw st in
  db st' = db st ∧
  (∀ k job, jobs st !! k = Some job → jobs st' !! k = Some job) ∧
  (∀ k job, jobs st' !! k = Some job → jobs st !! k = None →
     job_id job = k ∧
     ∃ k' tx, rows (db st) !! k' = Some tx ∧ id tx = k ∧
              status tx = burned ∧ attestationStatus tx = att_pending ∧
              attempts job = attestationAttempts tx) ∧
  (keyed st → keyed st') ∧
  (dbUp w = false → st' = st).
Proof.
  intros st'. unfold st', loadPendingJobs.
  destruct (getPendingAttestations w (db st)) as [pending|e] eqn:Hpending.
  - destruct (enqueueAll_spec draw 0 pending st) as (Hdb & Hkeep & Hnew & _).
    cbn zeta in *.
    assert (∀ tx, tx ∈ pending →
              (∃ k, rows (db st) !! k = Some tx) ∧ status tx = burned ∧
              attestationStatus tx = att_pending) as Hrow.
    { intros tx Htx. unfold getPendingAttestations in Hpending.
      destruct (dbUp w); [|done]. injection Hpending as <-.
      apply elem_of_take in Htx as (i & Htx & _).
      apply list_elem_of_lookup_2 in Htx. rewrite merge_sort_Permutation in Htx.
      rewrite list_elem_of_In, filter_In, <- list_elem_of_In, list_elem_of_fmap in Htx.
      destruct Htx as [([k tx'] & -> & Hk) Hp]. apply elem_of_map_to_list in Hk.
      split; [by eauto|]. unfold isPendingAttestation in Hp.
      apply andb_true_iff in Hp as [Hp _]. apply andb_true_iff in Hp as [Hp _].
      apply andb_true_iff in Hp as [Ha Hs]. by apply bool_decide_eq_true in Ha, Hs. }
    split; [done|]. split; [done|]. split; [|split].
    + intros k job Hjob Hnone.
      destruct (Hnew k job Hjob Hnone) as [Hid (tx & Hin & Htx & Hattempts)].
      split; [done|]. destruct (Hrow tx Hin) as ([k' Hk'] & Hs & Ha). by eauto 10.
    + intros Hk k job Hjob. destruct (jobs st !! k) as [job0|] eqn:Hjob0.
      * rewrite (Hkeep k job0 Hjob0) in Hjob. injection Hjob as <-. by apply Hk.
      * by destruct (Hnew k job Hjob Hjob0).
    + intros Hdown. unfold getPendingAttestations in Hpending.
      by rewrite Hdown in Hpending.
  - split; [done|]. split; [done|]. split; [|done].
    intros k job Hjob Hnone. congruence.
Qed.

End PendingFacts.

(** The sample transfer, burned, is pending one minute later; attested, it
    is not. *)
Lemma getPendingAttestations_spec_witness :
  let later := {| Service.dbUp := true; Service.now := 61000;
                  Service.reply := Attestation.NetworkError "fetch failed" |} in
  ∃ tx,
    Service.getPendingAttestations later Samples.burnedDb = Returned [tx] ∧
    Service.status tx = Service.burned ∧
    Service.getPendingAttestations later Samples.attestedDb = Returned [].
Proof.
  intros later. eexists. split; [reflexivity|]. split; [|reflexivity].
  destruct (getPendingAttestations_spec later Samples.burnedDb _ eq_refl)
    as (_ & _ & Hrows & _).
  exact (proj1 (proj2 (Hrows _ (list_elem_of_here _ _)))).
Defined.
